(** * Amazon price prediction: the data-preparation script [01_prepare_data.py]

    A shallow embedding of the feature-extraction script and the proofs of
    its specification.

    Modelling conventions.
    - A Python [str] is a [string] whose characters are the code points
      below 256 (the Latin-1 range); the character classes of [re] and the
      methods [str.strip] and [str.lower] are written out for that range.
    - A Python float is the rational number its decimal text denotes ([Q],
      kept reduced); binary rounding and overflow are not modelled.  [NaN]
      is a cell of its own.
    - A pandas [Series] is a [list cell]; a [DataFrame] is the ordered list
      of its named columns over the default [RangeIndex].  Text columns
      have the object dtype, and column labels are taken to be unique where
      pandas would treat repeated labels on their own.
    - Exceptions are values of [exn]; a computation that may raise returns a
      [result].  What the script prints and saves is a trace of events.
    - Part 1 of the script (the banner and the creation of the output
      directory) is left out; [main] starts at the loading of the two
      files, which [read_csv] stands for. *)

From Stdlib Require Import Bool List ZArith NArith QArith Qreduction.
From Stdlib Require Import Ascii String DecimalString Lia Orders Mergesort.
From Stdlib Require Import Sorted Permutation.
Import ListNotations.

Close Scope Q_scope.
Open Scope string_scope.
Open Scope list_scope.

(* ================================================================== *)
(** * Characters *)

Module Chars.

Definition code (c : ascii) : N := N_of_ascii c.

Definition in_range (lo hi : N) (c : ascii) : bool :=
  ((lo <=? code c) && (code c <=? hi))%N.

(** [\d] of a [str] pattern: the decimal digits (category Nd). *)
Definition is_digit (c : ascii) : bool := in_range 48 57 c.

(** [\s] of a [str] pattern and the characters [str.strip] removes:
    tab to carriage return, the four separators 0x1c-0x1f, space, NEL and
    the no-break space. *)
Definition is_space (c : ascii) : bool :=
  in_range 9 13 c || in_range 28 32 c
  || (code c =? 133)%N || (code c =? 160)%N.

(** [str.isalpha] below 256. *)
Definition is_alpha (c : ascii) : bool :=
  in_range 65 90 c || in_range 97 122 c
  || (code c =? 170)%N || (code c =? 181)%N || (code c =? 186)%N
  || in_range 192 214 c || in_range 216 246 c || in_range 248 255 c.

(** [str.isalnum] below 256: letters, decimal digits, and the superscript
    digits and vulgar fractions, which are numeric. *)
Definition is_alnum (c : ascii) : bool :=
  is_alpha c || is_digit c
  || in_range 178 179 c || (code c =? 185)%N || in_range 188 190 c.

(** [\w] of a [str] pattern: alphanumeric or underscore. *)
Definition is_word (c : ascii) : bool := is_alnum c || (c =? "_")%char.

(** [str.lower] on one character. *)
Definition lower (c : ascii) : ascii :=
  if in_range 65 90 c || in_range 192 214 c || in_range 216 222 c
  then ascii_of_N (code c + 32) else c.

End Chars.

(* ================================================================== *)
(** * Strings *)

Module Str.

Fixpoint all (p : ascii -> bool) (s : string) : bool :=
  match s with
  | EmptyString => true
  | String c s' => p c && all p s'
  end.

Fixpoint map (f : ascii -> ascii) (s : string) : string :=
  match s with
  | EmptyString => EmptyString
  | String c s' => String (f c) (map f s')
  end.

(** The first [n] characters of [s]. *)
Fixpoint take (n : nat) (s : string) : string :=
  match n, s with
  | S n', String c s' => String c (take n' s')
  | _, _ => EmptyString
  end.

Fixpoint lstrip (s : string) : string :=
  match s with
  | String c s' => if Chars.is_space c then lstrip s' else s
  | EmptyString => EmptyString
  end.

Fixpoint rstrip (s : string) : string :=
  match s with
  | EmptyString => EmptyString
  | String c s' =>
      match rstrip s' with
      | EmptyString => if Chars.is_space c then EmptyString else String c EmptyString
      | r => String c r
      end
  end.

(** [str.strip()] *)
Definition strip (s : string) : string := rstrip (lstrip s).

(** [str.lower()] *)
Definition lower (s : string) : string := map Chars.lower s.

End Str.

(* ================================================================== *)
(** * Regular expressions: a backtracking matcher

    [run] lists the ways a pattern can match at the start of a text in the
    order a backtracking matcher tries them (greedy repetition gives the
    longest run first, an alternation its branches left to right): the head
    of the list is the match [re] reports. *)

Module Re.

(** Character sets. *)
Inductive cset : Type :=
| Lit (c : ascii)               (* a literal character *)
| Digit                         (* \d *)
| Space                         (* \s *)
| Word                          (* \w *)
| Union (a b : cset).           (* [ab] *)

Inductive regex : Type :=
| Empty
| Char (cs : cset)
| Cat (r1 r2 : regex)
| Or (r1 r2 : regex)            (* r1|r2 *)
| Opt (r : regex)               (* r? *)
| Many (cs : cset)              (* cs*, greedy *)
| Many1 (cs : cset)             (* cs+, greedy *)
| Group (r : regex).            (* (r), the capture group *)

(** A compiled pattern: the expression and the IGNORECASE flag. *)
Record pattern : Type := compile { expr : regex; ignorecase : bool }.

(** A literal word, character by character. *)
Fixpoint lit (w : string) : regex :=
  match w with
  | EmptyString => Empty
  | String c w' => Cat (Char (Lit c)) (lit w')
  end.

Fixpoint mem (ic : bool) (cs : cset) (c : ascii) : bool :=
  match cs with
  | Lit x => if ic then (Chars.lower c =? Chars.lower x)%char else (c =? x)%char
  | Digit => Chars.is_digit c
  | Space => Chars.is_space c
  | Word => Chars.is_word c
  | Union a b => mem ic a c || mem ic b c
  end.

(** The texts left after a greedy run of [p]: longest run first. *)
Fixpoint many (p : ascii -> bool) (s : string) : list string :=
  match s with
  | String c s' => if p c then many p s' ++ [s] else [s]
  | EmptyString => [s]
  end.

Definition orelse {A} (a b : option A) : option A :=
  match a with Some _ => a | None => b end.

(** A way to match: the capture of the group, if it took part, and the
    text left. *)
Definition way : Type := option string * string.

Fixpoint run (ic : bool) (r : regex) (s : string) : list way :=
  match r with
  | Empty => [(None, s)]
  | Char cs =>
      match s with
      | String c s' => if mem ic cs c then [(None, s')] else []
      | EmptyString => []
      end
  | Cat r1 r2 =>
      flat_map (fun w1 : way =>
                  List.map (fun w2 : way => (orelse (fst w2) (fst w1), snd w2))
                           (run ic r2 (snd w1)))
               (run ic r1 s)
  | Or r1 r2 => run ic r1 s ++ run ic r2 s
  | Opt r1 => run ic r1 s ++ [(None, s)]
  | Many cs => List.map (fun s' => (None, s')) (many (mem ic cs) s)
  | Many1 cs =>
      match s with
      | String c s' =>
          if mem ic cs c
          then List.map (fun s' => (None, s')) (many (mem ic cs) s')
          else []
      | EmptyString => []
      end
  | Group r1 =>
      List.map (fun w : way =>
                  (Some (Str.take (String.length s - String.length (snd w)) s), snd w))
               (run ic r1 s)
  end.

(** [pattern.match]: the first way, at the start of the text. *)
Definition match_at (p : pattern) (s : string) : option way :=
  hd_error (run (ignorecase p) (expr p) s).

(** [pattern.search]: the first position, left to right, with a match. *)
Fixpoint search (p : pattern) (s : string) : option way :=
  match match_at p s with
  | Some w => Some w
  | None =>
      match s with
      | String _ s' => search p s'
      | EmptyString => None
      end
  end.

(** What [Series.str.extract(pat, expand=False)] gives for one text with a
    one-group pattern: the capture of the first match, or nothing. *)
Definition extract (p : pattern) (s : string) : option string :=
  match search p s with
  | Some (Some g, _) => Some g
  | _ => None
  end.

(** What a pattern matches, as a relation: the text consumed and the
    capture.  [run] only produces ways that are in it ([run_sound]). *)
Inductive matches (ic : bool) : regex -> string -> option string -> Prop :=
| M_Empty : matches ic Empty "" None
| M_Char cs c : mem ic cs c = true -> matches ic (Char cs) (String c "") None
| M_Cat r1 r2 m1 m2 g1 g2 :
    matches ic r1 m1 g1 -> matches ic r2 m2 g2 ->
    matches ic (Cat r1 r2) (m1 ++ m2) (orelse g2 g1)
| M_OrL r1 r2 m g : matches ic r1 m g -> matches ic (Or r1 r2) m g
| M_OrR r1 r2 m g : matches ic r2 m g -> matches ic (Or r1 r2) m g
| M_OptSome r m g : matches ic r m g -> matches ic (Opt r) m g
| M_OptNone r : matches ic (Opt r) "" None
| M_Many cs m : Str.all (mem ic cs) m = true -> matches ic (Many cs) m None
| M_Many1 cs m :
    Str.all (mem ic cs) m = true -> m <> "" -> matches ic (Many1 cs) m None
| M_Group r m g : matches ic r m g -> matches ic (Group r) m (Some m).

End Re.

(* ================================================================== *)
(** * The three patterns of the script *)

Import Re.

(** [(?:pack of|count|per case|pack)\s*\(?(\d+)\)?], IGNORECASE *)
Definition pack_regex : pattern :=
  compile
    (Cat (Or (lit "pack of") (Or (lit "count") (Or (lit "per case") (lit "pack"))))
    (Cat (Many Space)
    (Cat (Opt (Char (Lit "(")))
    (Cat (Group (Many1 Digit))
         (Opt (Char (Lit ")")))))))
    true.

(** [value:\s*([\d\.]+)], IGNORECASE *)
Definition value_regex : pattern :=
  compile
    (Cat (lit "value:")
    (Cat (Many Space)
         (Group (Many1 (Union Digit (Lit "."))))))
    true.

(** [unit:\s*([\w\s]+)], IGNORECASE *)
Definition unit_regex : pattern :=
  compile
    (Cat (lit "unit:")
    (Cat (Many Space)
         (Group (Many1 (Union Word Space)))))
    true.


(* ================================================================== *)
(** * Exceptions and results *)

Inductive exn : Type :=
| KeyError (key : string)        (* a label that is not there, or the message of [drop] *)
| ValueError (text : string)     (* could not convert string to float *)
| TypeError                      (* a numeric routine on a text cell *)
| ReadError (msg : string).      (* whatever [pd.read_csv] raises *)

Inductive result (A : Type) : Type :=
| Ok (a : A)
| Raise (e : exn).
Arguments Ok {A} a.
Arguments Raise {A} e.

Definition bind {A B} (m : result A) (f : A -> result B) : result B :=
  match m with
  | Ok a => f a
  | Raise e => Raise e
  end.

Notation "x <- m ;; k" := (bind m (fun x => k))
  (at level 61, m at next level, right associativity).
Notation "' p <- m ;; k" := (bind m (fun x => match x with p => k end))
  (at level 61, p pattern, m at next level, right associativity).

(** Apply a function that may raise to every element, left to right. *)
Fixpoint mapM {A B} (f : A -> result B) (l : list A) : result (list B) :=
  match l with
  | [] => Ok []
  | a :: l' => b <- f a ;; bs <- mapM f l' ;; Ok (b :: bs)
  end.

(* ================================================================== *)
(** * Numbers *)

(** The decimal digits at the start of [s]: their value on top of [acc],
    how many there are, and what follows them. *)
Fixpoint span_digits (s : string) (acc : Z) (n : nat) : Z * nat * string :=
  match s with
  | String c s' =>
      if Chars.is_digit c
      then span_digits s' (10 * acc + (Z.of_N (Chars.code c) - 48))%Z (S n)
      else (acc, n, s)
  | EmptyString => (acc, n, s)
  end.

(** [float(s)] on the texts the patterns capture, digits and dots:
    digits with at most one dot and at least one digit; anything else is
    the [ValueError] of [float]. *)
Definition float_of_text (s : string) : option Q :=
  let '(i, ni, rest) := span_digits s 0%Z 0 in
  match rest with
  | EmptyString => if Nat.eqb ni 0 then None else Some (inject_Z i)
  | String "." rest' =>
      let '(f, nf, rest'') := span_digits rest' 0%Z 0 in
      match rest'' with
      | EmptyString =>
          if Nat.eqb (ni + nf) 0 then None
          else Some (Qred (Qmake (i * 10 ^ Z.of_nat nf + f)
                                 (Z.to_pos (10 ^ Z.of_nat nf))))
      | _ => None
      end
  | _ => None
  end.

(* ================================================================== *)
(** * Series *)

(** One cell of a column. *)
Inductive cell : Type :=
| Str (s : string)
| Num (q : Q)
| NaN
| Bool (b : bool).

Definition series : Type := list cell.

Definition cell_eqb (a b : cell) : bool :=
  match a, b with
  | Str s, Str t => (s =? t)%string
  | Num p, Num q => Qeq_bool p q
  | NaN, NaN => true
  | Bool x, Bool y => Bool.eqb x y
  | _, _ => false
  end.

(** [Series.fillna(value)] *)
Definition fillna (value : cell) (s : series) : series :=
  List.map (fun c => match c with NaN => value | _ => c end) s.

(** [Series.str.extract(pat, expand=False)]: a cell that is not text gives
    a missing value. *)
Definition str_extract (pat : pattern) (s : series) : series :=
  List.map (fun c => match c with
                     | Str t => match Re.extract pat t with
                                | Some g => Str g
                                | None => NaN
                                end
                     | _ => NaN
                     end) s.

(** [Series.str.strip()] and [Series.str.lower()] *)
Definition str_strip (s : series) : series :=
  List.map (fun c => match c with Str t => Str (Str.strip t) | _ => NaN end) s.

Definition str_lower (s : series) : series :=
  List.map (fun c => match c with Str t => Str (Str.lower t) | _ => NaN end) s.

(** [Series.astype(float)] *)
Definition float_of_cell (c : cell) : result cell :=
  match c with
  | Str t => match float_of_text t with
             | Some q => Ok (Num q)
             | None => Raise (ValueError t)
             end
  | Num q => Ok (Num q)
  | NaN => Ok NaN
  | Bool b => Ok (Num (if b then 1 else 0))
  end.

Definition astype_float (s : series) : result series := mapM float_of_cell s.

(** The numbers of a float column, missing values skipped. *)
Fixpoint numbers (s : series) : list Q :=
  match s with
  | [] => []
  | Num q :: s' => q :: numbers s'
  | _ :: s' => numbers s'
  end.

Module QOrder <: Orders.TotalLeBool.

Definition t := Q.

Definition leb := Qle_bool.

Lemma leb_total : forall x y, leb x y = true \/ leb y x = true.
Proof.
  intros x y. unfold leb. rewrite !Qle_bool_iff.
  destruct (Qlt_le_dec x y) as [H | H]; [left; apply Qlt_le_weak, H | right; exact H].
Qed.

End QOrder.

Module QSort := Mergesort.Sort QOrder.

(** [Series.median()]: missing values are skipped; the middle of the
    sorted numbers, or the mean of the two middle ones; [NaN] when there is
    no number. *)
Definition median (s : series) : cell :=
  let xs := QSort.sort (numbers s) in
  let n := List.length xs in
  if Nat.eqb n 0 then NaN
  else if Nat.odd n then Num (nth (n / 2) xs 0%Q)
  else Num (Qred ((nth (n / 2 - 1) xs 0 + nth (n / 2) xs 0) / 2)%Q).


(* ================================================================== *)
(** * Data frames *)

(** The columns of a frame, in order, each with its label. *)
Definition frame : Type := list (string * series).

Definition names (df : frame) : list string := List.map fst df.

Definition has_column (label : string) (df : frame) : bool :=
  existsb (String.eqb label) (names df).

Fixpoint lookup (label : string) (df : frame) : option series :=
  match df with
  | [] => None
  | (n, col) :: df' => if (n =? label)%string then Some col else lookup label df'
  end.

(** [len(df)]: the number of rows. *)
Definition len (df : frame) : nat :=
  match df with
  | [] => 0
  | (_, col) :: _ => List.length col
  end.

(** [df[label]] *)
Definition getitem (label : string) (df : frame) : result series :=
  match lookup label df with
  | Some col => Ok col
  | None => Raise (KeyError label)
  end.

(** [df[label] = col]: in place when the label is there, a new last column
    otherwise. *)
Definition setitem (label : string) (col : series) (df : frame) : frame :=
  if has_column label df
  then List.map (fun nc => if (fst nc =? label)%string then (label, col) else nc) df
  else df ++ [(label, col)].

(** [df.drop(label, axis=1)] *)
Definition drop (label : string) (df : frame) : result frame :=
  if has_column label df
  then Ok (filter (fun nc => negb (fst nc =? label)%string) df)
  else Raise (KeyError ("['" ++ label ++ "'] not found in axis")).

(** [pd.concat(dfs, axis=1)] of frames over the same index. *)
Definition concat (dfs : list frame) : frame := List.concat dfs.

(** The distinct texts of a series in increasing order. *)
Fixpoint insert_level (x : string) (l : list string) : list string :=
  match l with
  | [] => [x]
  | y :: l' =>
      match String.compare x y with
      | Lt => x :: l
      | Eq => l
      | Gt => y :: insert_level x l'
      end
  end.

Definition levels (s : series) : list string :=
  fold_right (fun c acc => match c with Str t => insert_level t acc | _ => acc end)
             [] s.

(** [pd.get_dummies(s, prefix=prefix, dummy_na=False)]: one indicator
    column per level, labelled prefix, underscore, level. *)
Definition get_dummies (s : series) (prefix : string) : frame :=
  List.map (fun lv => ((prefix ++ "_" ++ lv)%string,
                       List.map (fun c => Bool (cell_eqb c (Str lv))) s))
           (levels s).

(** [Index.join(other, how='inner')] on unique labels: the labels of the
    left index that the right one has, in the left order. *)
Definition inner_join (left right : list string) : list string :=
  filter (fun n => existsb (String.eqb n) right) left.

(** [df.reindex(columns=labels, fill_value=v)]: a label the frame lacks
    gives a column of [fill_value]. *)
Definition reindex (labels : list string) (fill_value : cell) (df : frame) : frame :=
  List.map (fun n => (n, match lookup n df with
                         | Some col => col
                         | None => repeat fill_value (len df)
                         end)) labels.

(** [left.align(right, join='inner', axis=1, fill_value=v)] *)
Definition align_inner (left right : frame) (fill_value : cell) : frame * frame :=
  let join_columns := inner_join (names left) (names right) in
  (reindex join_columns fill_value left, reindex join_columns fill_value right).

(* ================================================================== *)
(** * Feature extraction ([extract_features], [create_feature_df]) *)

Section Script.

(** [str(x)] of a number is Python's shortest round-trip text of the
    float, and [np.log1p] is a floating-point routine of the C library:
    both are taken as given. *)
Variable repr : Q -> string.
Variable log1p : Q -> cell.

(** [Series.astype(str)] *)
Definition str_of_cell (c : cell) : string :=
  match c with
  | Str t => t
  | Num q => repr q
  | NaN => "nan"
  | Bool b => if b then "True" else "False"
  end.

Definition astype_str (s : series) : series :=
  List.map (fun c => Str (str_of_cell c)) s.

Definition extract_features (text_series : series)
  : result (series * series * series) :=
  let text_series := astype_str text_series in
  pack_sizes <- astype_float (fillna (Num 1) (str_extract pack_regex text_series)) ;;
  values <- astype_float (fillna (Num 0) (str_extract value_regex text_series)) ;;
  let units := str_lower (str_strip
                 (fillna (Str "Unknown") (str_extract unit_regex text_series))) in
  Ok (pack_sizes, values, units).

(** [create_feature_df] calls the function that the module binds to the
    name [extract_features] at the time of the call.  Its body, and the
    part of the script that calls it, are written over any function
    [extract] bound to that name; in the script it is [extract_features],
    which gives the definitions named as in the source.

    Lines 81-91 of the script: the feature table before imputation. *)
Definition encode_features_with (extract : series -> result (series * series * series))
    (df : frame) : result frame :=
  text <- getitem "catalog_content" df ;;
  '(pack_sizes, values, units) <- extract text ;;
  let feature_df := [("pack_size", pack_sizes);
                     ("total_measure", values);
                     ("unit", units)] in
  unit <- getitem "unit" feature_df ;;
  let unit_dummies := get_dummies unit "unit" in
  let features_df := concat [feature_df; unit_dummies] in
  drop "unit" features_df.

Definition encode_features : frame -> result frame :=
  encode_features_with extract_features.

(** Lines 93-103: the medians, computed here when none is given, and the
    filling of the missing values.  [None] is Python's [None]; a median
    that is [NaN] is [Some NaN]. *)
Definition impute (features_df : frame) (median_measure median_pack_size : option cell)
  : result (frame * cell * cell) :=
  median_measure <-
    match median_measure with
    | None => col <- getitem "total_measure" features_df ;; Ok (median col)
    | Some m => Ok m
    end ;;
  median_pack_size <-
    match median_pack_size with
    | None => col <- getitem "pack_size" features_df ;; Ok (median col)
    | Some m => Ok m
    end ;;
  total_measure <- getitem "total_measure" features_df ;;
  let features_df := setitem "total_measure" (fillna median_measure total_measure)
                             features_df in
  pack_size <- getitem "pack_size" features_df ;;
  let features_df := setitem "pack_size" (fillna median_pack_size pack_size)
                             features_df in
  Ok (features_df, median_measure, median_pack_size).

Definition create_feature_df_with (extract : series -> result (series * series * series))
    (df : frame) (median_measure median_pack_size : option cell)
  : result (frame * cell * cell) :=
  features_df <- encode_features_with extract df ;;
  impute features_df median_measure median_pack_size.

Definition create_feature_df
  : frame -> option cell -> option cell -> result (frame * cell * cell) :=
  create_feature_df_with extract_features.

(* ------------------------------------------------------------------ *)
(** ** The script as a whole

    What the script does to the outside is a trace of events; it ends by
    running off its last line, by an uncaught exception, or by
    [sys.exit()].  [SystemExit] is not an [Exception], so an
    [except Exception] clause lets it through. *)

Inductive event : Type :=
| Print (line : string)
| ToParquet (path : string) (df : frame).

Inductive ending (A : Type) : Type :=
| Return (a : A)
| Uncaught (e : exn)
| SystemExit.
Arguments Return {A} a.
Arguments Uncaught {A} e.
Arguments SystemExit {A}.

Definition script (A : Type) : Type := ending A * list event.

Definition ret {A} (a : A) : script A := (Return a, []).

Definition and_then {A B} (m : script A) (f : A -> script B) : script B :=
  match m with
  | (Return a, t) => let '(o, t') := f a in (o, t ++ t')
  | (Uncaught e, t) => (Uncaught e, t)
  | (SystemExit, t) => (SystemExit, t)
  end.

Notation "x <~ m ;; k" := (and_then m (fun x => k))
  (at level 61, m at next level, right associativity).
Notation "' p <~ m ;; k" := (and_then m (fun x => match x with p => k end))
  (at level 61, p pattern, m at next level, right associativity).
Notation "m ;;; k" := (and_then m (fun _ => k))
  (at level 61, right associativity).

Definition print (line : string) : script unit := (Return tt, [Print line]).

Definition to_parquet (df : frame) (path : string) : script unit :=
  (Return tt, [ToParquet path df]).

Definition sys_exit {A} : script A := (SystemExit, []).

Definition lift {A} (r : result A) : script A :=
  match r with
  | Ok a => ret a
  | Raise e => (Uncaught e, [])
  end.

(** [try: body except Exception as e: handler(e)] *)
Definition try_except {A} (body : script A) (handler : exn -> script A) : script A :=
  match body with
  | (Uncaught e, t) => let '(o, t') := handler e in (o, t ++ t')
  | other => other
  end.

(** [str(e)] *)
Definition str_of_exn (e : exn) : string :=
  match e with
  | KeyError k => "'" ++ k ++ "'"
  | ValueError t => "could not convert string to float: '" ++ t ++ "'"
  | TypeError => "loop of ufunc does not support argument 0 of type str"
  | ReadError msg => msg
  end.

Definition str_of_nat (n : nat) : string :=
  NilEmpty.string_of_uint (Nat.to_uint n).

(** [str(df.shape)] *)
Definition str_of_shape (df : frame) : string :=
  "(" ++ str_of_nat (len df) ++ ", " ++ str_of_nat (List.length df) ++ ")".

Definition nl : string := String "010" EmptyString.

Definition RAW_DATA_FOLDER : string := "data/raw".
Definition PROCESSED_DATA_FOLDER : string := "data/processed".
Definition TRAIN_FILE_PATH : string := RAW_DATA_FOLDER ++ "/train.csv".
Definition TEST_FILE_PATH : string := RAW_DATA_FOLDER ++ "/test.csv".

(** [np.log1p(s)] *)
Definition log1p_cell (c : cell) : result cell :=
  match c with
  | Num q => Ok (log1p q)
  | NaN => Ok NaN
  | Bool b => Ok (log1p (if b then 1 else 0))
  | Str _ => Raise TypeError
  end.

Definition np_log1p (s : series) : result series := mapM log1p_cell s.

(** Part 2 of the script: loading, and the check of the row count.  The
    loop that sets [csv.field_size_limit] ends after finitely many
    divisions by ten and only its line of output is kept. *)
Definition load (read_csv : string -> result frame) : script (frame * frame) :=
  try_except
    (print "CSV field size limit set." ;;;
     train_df <~ lift (read_csv TRAIN_FILE_PATH) ;;
     test_df <~ lift (read_csv TEST_FILE_PATH) ;;
     print ("Successfully loaded train.csv. Total rows: " ++ str_of_nat (len train_df)) ;;;
     print ("Successfully loaded test.csv. Total rows: " ++ str_of_nat (len test_df)) ;;;
     if (N.of_nat (len train_df) <? 75000)%N
     then
       print (nl ++ nl ++ "*** CRITICAL WARNING ***") ;;;
       print ("Your train.csv file only has " ++ str_of_nat (len train_df) ++ " rows.") ;;;
       print "It is incomplete. You MUST re-download the full 75,000-row file." ;;;
       print "Stopping script." ;;;
       sys_exit
     else ret (train_df, test_df))
    (fun e =>
       print (nl ++ nl ++ "*** CRITICAL ERROR LOADING CSV ***") ;;;
       print ("Error: " ++ str_of_exn e) ;;;
       print "This likely means your .csv files are corrupt or incomplete." ;;;
       print ("Please place your full CSV files in '" ++ RAW_DATA_FOLDER
              ++ "' and run again.") ;;;
       sys_exit).

(** Parts 3 and 4: the features of both tables, their alignment, and the
    tables that are saved. *)
Definition prepare_with (extract : series -> result (series * series * series))
    (train_df test_df : frame) : script (frame * frame) :=
  print (nl ++ "Starting feature extraction from 'catalog_content'...") ;;;
  print (nl ++ "Processing training data...") ;;;
  '(train_features_df, median_measure, median_pack_size) <~
     lift (create_feature_df_with extract train_df None None) ;;
  print "Processing test features..." ;;;
  '(test_features_df, _, _) <~
     lift (create_feature_df_with extract test_df
             (Some median_measure) (Some median_pack_size)) ;;
  print "Aligning train/test feature columns..." ;;;
  let '(train_cols, test_cols) := align_inner train_features_df test_features_df (Num 0) in
  print "Feature extraction complete." ;;;
  print ("Shape of extracted train features: " ++ str_of_shape train_cols) ;;;
  print ("Shape of extracted test features: " ++ str_of_shape test_cols) ;;;
  print (nl ++ "Saving processed data to '" ++ PROCESSED_DATA_FOLDER ++ "'...") ;;;
  train_df <~ lift (drop "image_link" train_df) ;;
  test_df <~ lift (drop "image_link" test_df) ;;
  let train_final := concat [train_df; train_cols] in
  let test_final := concat [test_df; test_cols] in
  price <~ lift (getitem "price" train_final) ;;
  log_price <~ lift (np_log1p price) ;;
  let train_final := setitem "log_price" log_price train_final in
  ret (train_final, test_final).

Definition prepare : frame -> frame -> script (frame * frame) :=
  prepare_with extract_features.

Definition main (read_csv : string -> result frame) : script unit :=
  print "Loading raw data from {RAW_DATA_FOLDER}..." ;;;
  '(train_df, test_df) <~ load read_csv ;;
  '(train_final, test_final) <~ prepare train_df test_df ;;
  to_parquet train_final (PROCESSED_DATA_FOLDER ++ "/train_processed.parquet") ;;;
  to_parquet test_final (PROCESSED_DATA_FOLDER ++ "/test_processed.parquet") ;;;
  print (nl ++ "--- PHASE 1 (Lightweight) SCRIPT COMPLETE ---") ;;;
  print ("Processed dataframes (text-only) are in: " ++ PROCESSED_DATA_FOLDER).

(* ------------------------------------------------------------------ *)
(** ** Rows (used to state the properties) *)

(** Every column of [df] has [n] rows. *)
Definition has_rows (n : nat) (df : frame) : bool :=
  forallb (fun nc => Nat.eqb (List.length (snd nc)) n) df.

Definition all_rows (n : nat) (df : frame) : Prop :=
  forall label col, In (label, col) df -> List.length col = n.

(** [df.drop('image_link', axis=1)] when the column is there. *)
Definition without_image_link (df : frame) : frame :=
  filter (fun nc => negb (fst nc =? "image_link")%string) df.

(** Row [i] of the feature columns [cols] holds the features of the text
    cell [c]: what [extract_features] gives on that cell alone, the unit
    token spread over the indicator columns. *)
Definition features_at (c : cell) (cols : frame) (i : nat) : Prop :=
  exists pack value unit,
    extract_features [c] = Ok ([pack], [value], [unit])
    /\ forall label col, In (label, col) cols ->
         (label = "pack_size" /\ nth_error col i = Some pack)
         \/ (label = "total_measure" /\ nth_error col i = Some value)
         \/ (exists lv, label = ("unit_" ++ lv)%string
                        /\ nth_error col i = Some (Bool (cell_eqb unit (Str lv)))).

End Script.

Arguments Return {A} a.
Arguments Uncaught {A} e.
Arguments SystemExit {A}.

(* ================================================================== *)
(** * Letters and key words (used to state the properties) *)

(** A letter or a white-space character. *)
Definition is_letter_or_space (c : ascii) : bool :=
  Chars.is_alpha c || Chars.is_space c.

(** The value pattern finds nothing in [t], or what it captures is the
    text of a number. *)
Definition value_parses (t : string) : bool :=
  match Re.extract value_regex t with
  | Some g => match float_of_text g with Some _ => true | None => false end
  | None => true
  end.

(** [s] starts with the word [w], up to case. *)
Fixpoint starts_with_ci (w s : string) : bool :=
  match w, s with
  | EmptyString, _ => true
  | String a w', String b s' =>
      (Chars.lower b =? Chars.lower a)%char && starts_with_ci w' s'
  | String _ _, EmptyString => false
  end.

(** The word [w] occurs in [s], up to case. *)
Fixpoint occurs_ci (w s : string) : bool :=
  starts_with_ci w s
  || match s with
     | String _ s' => occurs_ci w s'
     | EmptyString => false
     end.

(** [s] starts with a character of the class [p]. *)
Definition starts_in (p : ascii -> bool) (s : string) : bool :=
  match s with
  | String c _ => p c
  | EmptyString => false
  end.

(** A digit or a dot: the class of the value pattern. *)
Definition is_digit_or_dot (c : ascii) : bool :=
  Chars.is_digit c || (c =? ".")%char.

(** A word character or white space: the class of the unit pattern. *)
Definition is_word_or_space (c : ascii) : bool :=
  Chars.is_word c || Chars.is_space c.

(** The order of labels: code point by code point, as Python compares
    [str] values. *)
Definition label_lt (a b : string) : Prop := String.compare a b = Lt.

(** The labels of the columns of [df] whose cell in row [i] is [True]. *)
Definition true_at (i : nat) (df : frame) : list string :=
  names (filter (fun nc => match nth_error (snd nc) i with
                           | Some (Bool true) => true
                           | _ => false
                           end) df).

(** A cell of a float column: a number or a missing value. *)
Definition is_float_cell (c : cell) : bool :=
  match c with
  | Num _ | NaN => true
  | _ => false
  end.

(** The column [label] of [df], if there is one, holds no boolean: it is
    a float column or a column of texts, as [read_csv] makes them of a
    column of numbers or of texts. *)
Definition column_without_bool (label : string) (df : frame) : bool :=
  match lookup label df with
  | Some col => forallb (fun c => match c with Bool _ => false | _ => true end) col
  | None => true
  end.

(** No capture of the pack pattern or of the value pattern in [t] is
    longer than [limit] characters. *)
Definition short_captures (limit : nat) (t : string) : bool :=
  match Re.extract pack_regex t with
  | Some g => Nat.leb (String.length g) limit
  | None => true
  end
  && match Re.extract value_regex t with
     | Some g => Nat.leb (String.length g) limit
     | None => true
     end.

(* ================================================================== *)
(** * Tables for the examples

    The text columns below hold text (or nothing), so [repr] is never
    called on them, and what [log1p] returns plays no part in what the
    examples show: any two functions do. *)

Definition no_repr : Q -> string := fun _ => "".

Definition no_log1p : Q -> cell := fun _ => NaN.

(** Two feature tables with missing cells; the medians of the second
    (6 and 1) differ from those of the first (20 and 4). *)
Definition train_features_ex : frame :=
  [("pack_size", [Num 2; Num 4; Num 6]);
   ("total_measure", [Num 10; Num 20; Num 30])].

Definition test_features_ex : frame :=
  [("pack_size", [Num 1; NaN; Num 1]);
   ("total_measure", [NaN; Num 5; Num 7])].

(** Train files of two rows and of none, a test file, and the disk that
    holds them. *)
Definition short_train_ex : frame :=
  [("catalog_content", [Str "Pack of 6; Value: 11.25; Unit: Oz"; Str "12 per case"]);
   ("image_link", [Str "a.jpg"; Str "b.jpg"]);
   ("price", [Num 10; Num 4])].


Definition small_test_ex : frame :=
  [("catalog_content", [Str "Value: 0.5 Unit: ml"]);
   ("image_link", [Str "d.jpg"])].

Definition disk_ex (train_df : frame) (path : string) : result frame :=
  if (path =? "data/raw/train.csv")%string then Ok train_df else Ok small_test_ex.

(** Train has the units oz and lb, test has oz and ml. *)
Definition train_units_ex : frame :=
  [("catalog_content", [Str "Value: 16 Unit: oz"; Str "Value: 2 Unit: lb"])].

Definition test_units_ex : frame :=
  [("catalog_content", [Str "Value: 8 Unit: oz"; Str "Value: 500 Unit: ml"])].

Definition train_encoded_ex : frame :=
  [("pack_size", [Num 1; Num 1]);
   ("total_measure", [Num 16; Num 2]);
   ("unit_lb", [Bool false; Bool true]);
   ("unit_oz", [Bool true; Bool false])].

Definition test_encoded_ex : frame :=
  [("pack_size", [Num 1; Num 1]);
   ("total_measure", [Num 8; Num 500]);
   ("unit_ml", [Bool false; Bool true]);
   ("unit_oz", [Bool true; Bool false])].

(** Two small input tables, and what [prepare] makes of them. *)
Definition train_ex : frame :=
  [("sample_id", [Num 1; Num 2; Num 3]);
   ("catalog_content", [Str "Pack of 6; Value: 11.25; Unit: Oz";
                        Str "Count 2 Value: 3 Unit: lb";
                        NaN]);
   ("image_link", [Str "a.jpg"; Str "b.jpg"; Str "c.jpg"]);
   ("price", [Num 10; Num 4; NaN])].

Definition test_ex : frame :=
  [("sample_id", [Num 7; Num 8]);
   ("catalog_content", [Str "Value: 0.5 Unit: ml"; Str "unit: OZ (pack 3)"]);
   ("image_link", [Str "d.jpg"; NaN])].

Definition train_final_ex : frame :=
  [("sample_id", [Num 1; Num 2; Num 3]);
   ("catalog_content", [Str "Pack of 6; Value: 11.25; Unit: Oz";
                        Str "Count 2 Value: 3 Unit: lb";
                        NaN]);
   ("price", [Num 10; Num 4; NaN]);
   ("pack_size", [Num 6; Num 2; Num 1]);
   ("total_measure", [Num (45 # 4); Num 3; Num 0]);
   ("unit_oz", [Bool true; Bool false; Bool false]);
   ("log_price", [no_log1p 10; no_log1p 4; NaN])].

Definition test_final_ex : frame :=
  [("sample_id", [Num 7; Num 8]);
   ("catalog_content", [Str "Value: 0.5 Unit: ml"; Str "unit: OZ (pack 3)"]);
   ("pack_size", [Num 1; Num 3]);
   ("total_measure", [Num (1 # 2); Num 0]);
   ("unit_oz", [Bool false; Bool true])].

Definition trace_ex : list event :=
  [Print (nl ++ "Starting feature extraction from 'catalog_content'...");
   Print (nl ++ "Processing training data...");
   Print "Processing test features...";
   Print "Aligning train/test feature columns...";
   Print "Feature extraction complete.";
   Print "Shape of extracted train features: (3, 3)";
   Print "Shape of extracted test features: (2, 3)";
   Print (nl ++ "Saving processed data to 'data/processed'...")].

(** A train file whose first row has a measure that is no number, and a
    disk that cannot be read. *)
Definition bad_value_train_ex : frame :=
  [("catalog_content", [Str "Value: 1.2.3"]);
   ("image_link", [Str "a.jpg"]);
   ("price", [Num 1])].

Definition broken_disk_ex (path : string) : result frame :=
  Raise (ReadError "Error tokenizing data. C error: EOF inside string").

(** What the extraction gives on the texts of [train_ex]. *)
Definition text_ex : series :=
  [Str "Pack of 6; Value: 11.25; Unit: Oz"; Str "Count 2 Value: 3 Unit: lb"; NaN].

Definition packs_ex : series := [Num 6; Num 2; Num 1].

Definition values_ex : series := [Num (45 # 4); Num 3; Num 0].

Definition units_ex : series := [Str "oz"; Str "lb"; Str "unknown"].







(* ================================================================== *)
(** * Proofs *)

(** ** Strings *)

Lemma append_assoc (a b c : string) : ((a ++ b) ++ c = a ++ (b ++ c))%string.
Proof. induction a as [|x a IH]; simpl; [reflexivity | now rewrite IH]. Qed.

Lemma append_nil_r (a : string) : (a ++ "" = a)%string.
Proof. induction a as [|x a IH]; simpl; [reflexivity | now rewrite IH]. Qed.

Lemma length_append (a b : string) :
  String.length (a ++ b) = String.length a + String.length b.
Proof. induction a as [|x a IH]; simpl; [reflexivity | now rewrite IH]. Qed.

Lemma take_append (m s : string) :
  Str.take (String.length (m ++ s) - String.length s) (m ++ s) = m.
Proof.
  rewrite length_append.
  replace (String.length m + String.length s - String.length s)
    with (String.length m) by lia.
  induction m as [|x m IH]; simpl.
  - destruct s; reflexivity.
  - now rewrite IH.
Qed.

Lemma all_append (p : ascii -> bool) (a b : string) :
  Str.all p (a ++ b) = Str.all p a && Str.all p b.
Proof.
  induction a as [|x a IH]; simpl; [reflexivity|].
  now rewrite IH, andb_assoc.
Qed.

(** ** The matcher only finds what the pattern describes *)

Lemma many_sound (p : ascii -> bool) (s s' : string) :
  In s' (Re.many p s) -> exists m, s = (m ++ s')%string /\ Str.all p m = true.
Proof.
  induction s as [|c s IH]; simpl.
  - intros [<- | []]. now exists "".
  - destruct (p c) eqn:Hc.
    + intros H. apply in_app_or in H. destruct H as [H | [<- | []]].
      * destruct (IH H) as (m & -> & Hm).
        exists (String c m). simpl. now rewrite Hc, Hm.
      * now exists "".
    + intros [<- | []]. now exists "".
Qed.

Lemma run_sound (ic : bool) (r : regex) :
  forall s g s', In (g, s') (Re.run ic r s) ->
  exists m, s = (m ++ s')%string /\ Re.matches ic r m g.
Proof.
  induction r as [|cs|r1 IH1 r2 IH2|r1 IH1 r2 IH2|r IH|cs|cs|r IH];
    intros s g s' H; simpl in H.
  - destruct H as [H | []]. inversion H; subst. exists "". split; [reflexivity | constructor].
  - destruct s as [|c s]; [contradiction|].
    destruct (Re.mem ic cs c) eqn:Hc; [|contradiction].
    destruct H as [H | []]. inversion H; subst.
    exists (String c ""). split; [reflexivity | now constructor].
  - apply in_flat_map in H. destruct H as ([g1 s1] & H1 & H).
    apply in_map_iff in H. destruct H as ([g2 s2] & E & H2).
    simpl in E. inversion E; subst.
    destruct (IH1 _ _ _ H1) as (m1 & -> & M1).
    simpl in H2. destruct (IH2 _ _ _ H2) as (m2 & -> & M2).
    exists (m1 ++ m2)%string. split; [now rewrite append_assoc | now constructor].
  - apply in_app_or in H. destruct H as [H | H].
    + destruct (IH1 _ _ _ H) as (m & -> & M). exists m. split; [reflexivity | now apply Re.M_OrL].
    + destruct (IH2 _ _ _ H) as (m & -> & M). exists m. split; [reflexivity | now apply Re.M_OrR].
  - apply in_app_or in H. destruct H as [H | [H | []]].
    + destruct (IH _ _ _ H) as (m & -> & M). exists m. split; [reflexivity | now apply Re.M_OptSome].
    + inversion H; subst. exists "". split; [reflexivity | apply Re.M_OptNone].
  - apply in_map_iff in H. destruct H as (t & E & H). inversion E; subst.
    destruct (many_sound _ _ _ H) as (m & -> & Hm).
    exists m. split; [reflexivity | now constructor].
  - destruct s as [|c s]; [contradiction|].
    destruct (Re.mem ic cs c) eqn:Hc; [|contradiction].
    apply in_map_iff in H. destruct H as (t & E & H). inversion E; subst.
    destruct (many_sound _ _ _ H) as (m & -> & Hm).
    exists (String c m). split; [reflexivity|].
    constructor; [simpl; now rewrite Hc, Hm | discriminate].
  - apply in_map_iff in H. destruct H as ([g1 s1] & E & H).
    simpl in E. inversion E; subst.
    destruct (IH _ _ _ H) as (m & -> & M).
    exists m. split; [reflexivity|].
    rewrite take_append. econstructor; eassumption.
Qed.

Lemma hd_error_In {A} (l : list A) (a : A) : hd_error l = Some a -> In a l.
Proof. destruct l; simpl; [discriminate | intros [= ->]; now left]. Qed.

(** A successful search splits the text into what comes before the match,
    the match, and what is left. *)
Lemma search_sound (p : pattern) :
  forall s g s', Re.search p s = Some (g, s') ->
  exists pre m, s = (pre ++ m ++ s')%string
                /\ Re.matches (ignorecase p) (expr p) m g.
Proof.
  induction s as [|c s IH]; intros g s' H; simpl in H.
  - destruct (Re.match_at p "") as [w|] eqn:Hm; [|discriminate].
    inversion H; subst. unfold Re.match_at in Hm.
      apply hd_error_In in Hm. apply run_sound in Hm.
    destruct Hm as (m & E & M). exists "", m. now split.
  - destruct (Re.match_at p (String c s)) as [w|] eqn:Hm.
    + inversion H; subst. unfold Re.match_at in Hm.
      apply hd_error_In in Hm. apply run_sound in Hm.
      destruct Hm as (m & E & M). exists "", m. now split.
    + destruct (IH _ _ H) as (pre & m & -> & M).
      exists (String c pre), m. now split.
Qed.

(** A literal word, matched ignoring case, consumes a text that is the
    word up to case and captures nothing. *)
Lemma lit_matches (w : string) :
  forall m g, Re.matches true (lit w) m g ->
  g = None /\ Str.lower m = Str.lower w.
Proof.
  induction w as [|c w IH]; intros m g H; simpl in H.
  - inversion H; subst. now split.
  - inversion H as [| |r1 r2 m1 m2 g1 g2 H1 H2| | | | | | |]; subst.
    inversion H1; subst. destruct (IH _ _ H2) as [-> E].
    split; [reflexivity|].
    simpl in *. unfold Str.lower in *. simpl. rewrite E. f_equal.
    match goal with Hc : (_ =? _)%char = true |- _ => now apply Ascii.eqb_eq in Hc end.
Qed.

Section Proofs.

Variable repr : Q -> string.
Variable log1p : Q -> cell.

(** ** One text at a time *)

Lemma extract_features_one (text : string) :
  extract_features repr [Str text]
  = (p <- float_of_cell (match Re.extract pack_regex text with
                         | Some g => Str g | None => Num 1 end) ;;
     v <- float_of_cell (match Re.extract value_regex text with
                         | Some g => Str g | None => Num 0 end) ;;
     Ok ([p], [v],
         [Str (Str.lower (Str.strip (match Re.extract unit_regex text with
                                     | Some g => g | None => "Unknown" end)))])).
Proof.
  unfold extract_features, astype_str, str_extract, fillna, astype_float,
    str_strip, str_lower.
  cbn [List.map str_of_cell mapM].
  destruct (Re.extract pack_regex text), (Re.extract value_regex text),
    (Re.extract unit_regex text); cbn [float_of_cell bind];
    repeat match goal with
           | |- context [float_of_text ?t] => destruct (float_of_text t)
           end; reflexivity.
Qed.

Lemma extract_none (p : pattern) (text : string) :
  Re.search p text = None -> Re.extract p text = None.
Proof. unfold Re.extract. now intros ->. Qed.

(** ** What the three patterns match *)

Lemma pack_regex_matches (m : string) (g : option string) :
  Re.matches true (expr pack_regex) m g ->
  exists key rest,
    m = (key ++ rest)%string
    /\ (Str.lower key = "pack of" \/ Str.lower key = "count"
        \/ Str.lower key = "per case" \/ Str.lower key = "pack").
Proof.
  change (expr pack_regex)
    with (Cat (Or (lit "pack of") (Or (lit "count") (Or (lit "per case") (lit "pack"))))
         (Cat (Many Space)
         (Cat (Opt (Char (Lit "(")))
         (Cat (Group (Many1 Digit)) (Opt (Char (Lit ")"))))))).
  intros H.
  inversion H as [| |r1 r2 key rest g1 g2 Hkey _| | | | | | |]; subst.
  exists key, rest. split; [reflexivity|].
  inversion Hkey as [| | |r1 r2 m' g' H1|r1 r2 m' g' H1| | | | |]; subst.
  { apply (lit_matches "pack of") in H1. left. apply H1. }
  inversion H1 as [| | |r1 r2 m' g' H2|r1 r2 m' g' H2| | | | |]; subst.
  { apply (lit_matches "count") in H2. right. left. apply H2. }
  inversion H2 as [| | |r1 r2 m' g' H3|r1 r2 m' g' H3| | | | |]; subst.
  { apply (lit_matches "per case") in H3. right. right. left. apply H3. }
  apply (lit_matches "pack") in H3. right. right. right. apply H3.
Qed.

(** The pack pattern captures a non-empty run of digits. *)
Lemma pack_regex_capture (m : string) (g : option string) :
  Re.matches true (expr pack_regex) m g ->
  exists cap, g = Some cap /\ Str.all Chars.is_digit cap = true /\ cap <> "".
Proof.
  change (expr pack_regex)
    with (Cat (Or (lit "pack of") (Or (lit "count") (Or (lit "per case") (lit "pack"))))
         (Cat (Many Space)
         (Cat (Opt (Char (Lit "(")))
         (Cat (Group (Many1 Digit)) (Opt (Char (Lit ")"))))))).
  intros H.
  inversion H as [| |r1 r2 key m1 gk g1 _ H1| | | | | | |]; subst.
  inversion H1 as [| |r1 r2 ws m2 gw g2 _ H2| | | | | | |]; subst.
  inversion H2 as [| |r1 r2 op m3 go g3 _ H3| | | | | | |]; subst.
  inversion H3 as [| |r1 r2 cap cl gc gl Hcap Hcl| | | | | | |]; subst.
  inversion Hcap as [| | | | | | | | |r c g4 Hrun]; subst.
  inversion Hrun; subst.
  exists cap. split; [|split; assumption].
  inversion Hcl as [| | | | |r c g5 Hc|r| | |]; subst; [inversion Hc; subst|]; reflexivity.
Qed.

Lemma value_regex_matches (m : string) (g : option string) :
  Re.matches true (expr value_regex) m g ->
  exists key rest, m = (key ++ rest)%string /\ Str.lower key = "value:".
Proof.
  change (expr value_regex)
    with (Cat (lit "value:") (Cat (Many Space) (Group (Many1 (Union Digit (Lit ".")))))).
  intros H.
  inversion H as [| |r1 r2 key rest g1 g2 Hkey _| | | | | | |]; subst.
  exists key, rest. split; [reflexivity|].
  apply (lit_matches "value:") in Hkey. apply Hkey.
Qed.

Lemma unit_regex_matches (m : string) (g : option string) :
  Re.matches true (expr unit_regex) m g ->
  exists key ws cap,
    m = (key ++ ws ++ cap)%string
    /\ Str.lower key = "unit:"
    /\ Str.all Chars.is_space ws = true
    /\ cap <> ""
    /\ Str.all (fun c => Chars.is_word c || Chars.is_space c) cap = true
    /\ g = Some cap.
Proof.
  change (expr unit_regex)
    with (Cat (lit "unit:") (Cat (Many Space) (Group (Many1 (Union Word Space))))).
  intros H.
  inversion H as [| |r1 r2 key m' g1 g' Hkey H'| | | | | | |]; subst.
  inversion H' as [| |r1 r2 ws cap g2 g3 Hws Hcap| | | | | | |]; subst.
  inversion Hws; subst. inversion Hcap as [| | | | | | | | |r c g4 Hrun]; subst.
  inversion Hrun; subst.
  apply (lit_matches "unit:") in Hkey. destruct Hkey as [-> Hkey].
  exists key, ws, cap. repeat split; try assumption.
Qed.

(** ** Texts without markers *)

(** C6: a text in which none of the three patterns finds a match gives
    pack size 1, measure 0 and the unit "unknown", in lower case. *)
Theorem defaults_without_markers (text : string) :
  Re.search pack_regex text = None ->
  Re.search value_regex text = None ->
  Re.search unit_regex text = None ->
  extract_features repr [Str text] = Ok ([Num 1], [Num 0], [Str "unknown"]).
Proof.
  intros Hp Hv Hu. rewrite extract_features_one.
  rewrite (extract_none _ _ Hp), (extract_none _ _ Hv), (extract_none _ _ Hu).
  reflexivity.
Qed.

(** A text without the key words has no marker. *)

Lemma starts_with_ci_intro (w w' : string) :
  forall key rest,
    Str.lower key = Str.lower (w ++ w') ->
    starts_with_ci w (key ++ rest) = true.
Proof.
  induction w as [|a w IH]; intros key rest H; [reflexivity|].
  destruct key as [|b key]; [discriminate|].
  cbn in H. injection H as Hb Hkey. cbn.
  rewrite Hb, Ascii.eqb_refl. now apply IH.
Qed.

Lemma occurs_ci_append (w pre s : string) :
  starts_with_ci w s = true -> occurs_ci w (pre ++ s) = true.
Proof.
  intros H. induction pre as [|c pre IH]; cbn.
  - destruct s; cbn; now rewrite H.
  - rewrite IH. apply orb_true_r.
Qed.

Lemma keyword_free_no_markers (text : string) :
  occurs_ci "pack" text = false ->
  occurs_ci "count" text = false ->
  occurs_ci "per case" text = false ->
  occurs_ci "value:" text = false ->
  occurs_ci "unit:" text = false ->
  Re.search pack_regex text = None
  /\ Re.search value_regex text = None
  /\ Re.search unit_regex text = None.
Proof.
  intros Hpack Hcount Hcase Hvalue Hunit.
  split; [|split].
  - destruct (Re.search pack_regex text) as [[g rest]|] eqn:Hs; [exfalso|reflexivity].
    apply search_sound in Hs. destruct Hs as (pre & m & -> & M).
    apply pack_regex_matches in M. destruct M as (key & tail & -> & Hkey).
    rewrite append_assoc in *.
    destruct Hkey as [E | [E | [E | E]]].
    + rewrite (occurs_ci_append "pack" pre _ (starts_with_ci_intro "pack" " of" _ _ E)) in Hpack.
      discriminate.
    + rewrite (occurs_ci_append "count" pre _ (starts_with_ci_intro "count" "" _ _ E)) in Hcount.
      discriminate.
    + rewrite (occurs_ci_append "per case" pre _ (starts_with_ci_intro "per case" "" _ _ E))
        in Hcase.
      discriminate.
    + rewrite (occurs_ci_append "pack" pre _ (starts_with_ci_intro "pack" "" _ _ E)) in Hpack.
      discriminate.
  - destruct (Re.search value_regex text) as [[g rest]|] eqn:Hs; [exfalso|reflexivity].
    apply search_sound in Hs. destruct Hs as (pre & m & -> & M).
    apply value_regex_matches in M. destruct M as (key & tail & -> & E).
    rewrite append_assoc in *.
    rewrite (occurs_ci_append "value:" pre _ (starts_with_ci_intro "value:" "" _ _ E))
      in Hvalue.
    discriminate.
  - destruct (Re.search unit_regex text) as [[g rest]|] eqn:Hs; [exfalso|reflexivity].
    apply search_sound in Hs. destruct Hs as (pre & m & -> & M).
    apply unit_regex_matches in M.
    destruct M as (key & ws & cap & -> & E & _).
    rewrite append_assoc in *.
    rewrite (occurs_ci_append "unit:" pre _ (starts_with_ci_intro "unit:" "" _ _ E))
      in Hunit.
    discriminate.
Qed.

(** ** The unit token *)

(** C7, as the code has it: when the unit pattern matches, the text reads
    [pre ++ key ++ ws ++ cap ++ rest] where [key] is "unit:" up to case,
    [ws] is white space, and [cap], the capture, is a non-empty run of word
    characters (letters, digits, underscore) and white space; the unit
    token is [cap] stripped and lowercased.  Without a match the token is
    "unknown". *)
Theorem unit_token_form (text : string) (packs values units : series) :
  extract_features repr [Str text] = Ok (packs, values, units) ->
  match Re.search unit_regex text with
  | Some (_, rest) =>
      exists pre key ws cap,
        text = (pre ++ key ++ ws ++ cap ++ rest)%string
        /\ Str.lower key = "unit:"
        /\ Str.all Chars.is_space ws = true
        /\ cap <> ""
        /\ Str.all (fun c => Chars.is_word c || Chars.is_space c) cap = true
        /\ units = [Str (Str.lower (Str.strip cap))]
  | None => units = [Str "unknown"]
  end.
Proof.
  rewrite extract_features_one. intros H.
  destruct (float_of_cell _) as [p|] in H; [|discriminate].
  destruct (float_of_cell _) as [v|] in H; [|discriminate].
  cbn [bind] in H. injection H as _ _ <-.
  unfold Re.extract.
  destruct (Re.search unit_regex text) as [[g rest]|] eqn:Hs; [|reflexivity].
  apply search_sound in Hs. destruct Hs as (pre & m & -> & M).
  apply unit_regex_matches in M.
  destruct M as (key & ws & cap & -> & Hkey & Hws & Hne & Hcap & ->).
  exists pre, key, ws, cap. rewrite !append_assoc. now repeat split.
Qed.

(** ** When extraction raises *)

Lemma span_digits_all (s : string) :
  Str.all Chars.is_digit s = true ->
  forall acc n, exists v, span_digits s acc n = (v, n + String.length s, "").
Proof.
  induction s as [|c s IH]; intros H acc n.
  - exists acc. cbn. now rewrite Nat.add_0_r.
  - cbn [Str.all] in H. apply andb_prop in H. destruct H as [Hc Hs].
    cbn [span_digits String.length]. rewrite Hc.
    destruct (IH Hs (10 * acc + (Z.of_N (Chars.code c) - 48))%Z (S n)) as (v & E).
    exists v. rewrite E. do 2 f_equal. lia.
Qed.

(** A non-empty run of digits is the text of a number. *)
Lemma float_of_digits (s : string) :
  Str.all Chars.is_digit s = true -> s <> "" ->
  exists q, float_of_text s = Some q.
Proof.
  intros H Hne. unfold float_of_text.
  destruct (span_digits_all s H 0%Z 0) as (v & ->).
  destruct s as [|c s]; [congruence|]. simpl. now exists (inject_Z v).
Qed.

Lemma pack_extract_parses (t g : string) :
  Re.extract pack_regex t = Some g -> exists q, float_of_text g = Some q.
Proof.
  unfold Re.extract.
  destruct (Re.search pack_regex t) as [[[cap|] rest]|] eqn:Hs; try discriminate.
  intros [= <-]. apply search_sound in Hs. destruct Hs as (pre & m & _ & M).
  apply pack_regex_capture in M. destruct M as (cap' & [= <-] & Hd & Hne).
  now apply float_of_digits.
Qed.

Lemma mapM_Ok_Forall {A B} (f : A -> result B) (l : list A) :
  (exists l', mapM f l = Ok l') <-> Forall (fun a => exists b, f a = Ok b) l.
Proof.
  induction l as [|a l IH]; simpl.
  - split; [constructor | now exists []].
  - split.
    + intros (l' & H). destruct (f a) as [b|] eqn:Ha; [|discriminate].
      cbn [bind] in H. destruct (mapM f l) as [bs|] eqn:Hl; [|discriminate].
      constructor; [now exists b | apply IH; now exists bs].
    + intros H. inversion H as [|x xs (b & Hb) Hl]; subst.
      apply IH in Hl. destruct Hl as (bs & ->). rewrite Hb. now exists (b :: bs).
Qed.

(** [extract_features] returns exactly when, in every row, the value
    pattern finds nothing or captures the text of a number: the pack
    pattern never captures anything else. *)
Lemma extract_features_returns_iff (text : series) :
  (exists r, extract_features repr text = Ok r)
  <-> forallb (fun c => value_parses (str_of_cell repr c)) text = true.
Proof.
  unfold extract_features, astype_float.
  assert (Hp : exists ps,
             mapM float_of_cell
               (fillna (Num 1) (str_extract pack_regex (astype_str repr text))) = Ok ps).
  { apply mapM_Ok_Forall. apply Forall_forall. intros c Hc.
    unfold fillna, str_extract, astype_str in Hc. rewrite !map_map in Hc.
    apply in_map_iff in Hc. destruct Hc as (c0 & <- & _).
    destruct (Re.extract pack_regex (str_of_cell repr c0)) as [g|] eqn:E.
    - destruct (pack_extract_parses _ _ E) as (q & Hq). cbn. rewrite Hq. now eexists.
    - now eexists. }
  destruct Hp as (ps & ->). cbn [bind].
  rewrite forallb_forall. split.
  - intros (r & H).
    destruct (mapM float_of_cell
                (fillna (Num 0) (str_extract value_regex (astype_str repr text))))
      as [vs|] eqn:Hv; [|discriminate].
    assert (Hall : exists vs', mapM float_of_cell
                (fillna (Num 0) (str_extract value_regex (astype_str repr text))) = Ok vs')
      by now exists vs.
    apply mapM_Ok_Forall in Hall. rewrite Forall_forall in Hall.
    intros c Hc. unfold value_parses.
    destruct (Re.extract value_regex (str_of_cell repr c)) as [g|] eqn:E; [|reflexivity].
    destruct (Hall (Str g)) as (b & Hb).
    { unfold fillna, str_extract, astype_str. rewrite !map_map.
      apply in_map_iff. exists c. now rewrite E. }
    cbn in Hb. now destruct (float_of_text g).
  - intros Hall.
    assert (Hv : exists vs, mapM float_of_cell
                (fillna (Num 0) (str_extract value_regex (astype_str repr text))) = Ok vs).
    { apply mapM_Ok_Forall. apply Forall_forall. intros c Hc.
      unfold fillna, str_extract, astype_str in Hc. rewrite !map_map in Hc.
      apply in_map_iff in Hc. destruct Hc as (c0 & <- & Hin).
      specialize (Hall c0 Hin). unfold value_parses in Hall.
      destruct (Re.extract value_regex (str_of_cell repr c0)) as [g|]; [|now eexists].
      cbn. destruct (float_of_text g); [now eexists | discriminate]. }
    destruct Hv as (vs & ->). cbn [bind]. now eexists.
Qed.

(** ** The pack-size pattern on the text of the comment on line 61 *)

(** C3: on the text "12 per case" the script gives pack size 1, measure 0
    and unit "unknown": the pattern wants the number after the qualifier
    word, so the 12 in front of it is not found. *)
Theorem extract_12_per_case :
  Re.search pack_regex "12 per case" = None /\
  extract_features repr [Str "12 per case"]
  = Ok ([Num 1], [Num 0], [Str "unknown"]).
Proof. split; reflexivity. Qed.

(** ** Conversion errors *)

(** C10: extraction is not total.  On the text "value: ." the value
    pattern captures a lone dot, which is not the text of a number: the
    conversion raises and [extract_features] returns no triple. *)
Theorem extract_features_not_total :
  Re.extract value_regex "value: ." = Some "." /\
  float_of_text "." = None /\
  extract_features repr [Str "value: ."] = Raise (ValueError ".").
Proof. repeat split; reflexivity. Qed.

(** ** Imputation *)

Lemma has_column_lookup (label : string) (df : frame) :
  has_column label df = true <-> lookup label df <> None.
Proof.
  unfold has_column, names. induction df as [|[n col] df IH]; simpl.
  - split; [discriminate | congruence].
  - rewrite (String.eqb_sym label n). destruct (n =? label)%string; simpl.
    + split; [discriminate | reflexivity].
    + exact IH.
Qed.

Lemma lookup_setitem_same (label : string) (col : series) (df : frame) :
  lookup label (setitem label col df) = Some col.
Proof.
  unfold setitem. destruct (has_column label df) eqn:H.
  - apply has_column_lookup in H.
    induction df as [|[n c] df IH]; simpl in *; [congruence|].
    destruct (n =? label)%string eqn:E; simpl.
    + now rewrite String.eqb_refl.
    + rewrite E. now apply IH.
  - assert (Hn : lookup label df = None).
    { destruct (lookup label df) eqn:E; [|reflexivity].
      assert (has_column label df = true) by (apply has_column_lookup; congruence).
      congruence. }
    clear H. induction df as [|[n c] df IH]; simpl in *.
    + now rewrite String.eqb_refl.
    + destruct (n =? label)%string; [discriminate | now apply IH].
Qed.

Lemma lookup_setitem_other (label other : string) (col : series) (df : frame) :
  other <> label -> lookup other (setitem label col df) = lookup other df.
Proof.
  intros Hne. unfold setitem. destruct (has_column label df).
  - induction df as [|[n c] df IH]; simpl; [reflexivity|].
    destruct (n =? label)%string eqn:E; simpl.
    + apply String.eqb_eq in E. subst n.
      assert (F : (label =? other)%string = false)
        by (apply String.eqb_neq; congruence).
      now rewrite F.
    + destruct (n =? other)%string; [reflexivity | exact IH].
  - induction df as [|[n c] df IH]; simpl.
    + assert (F : (label =? other)%string = false)
        by (apply String.eqb_neq; congruence).
      now rewrite F.
    + destruct (n =? other)%string; [reflexivity | exact IH].
Qed.

Lemma getitem_Ok (label : string) (df : frame) (col : series) :
  getitem label df = Ok col <-> lookup label df = Some col.
Proof.
  unfold getitem. destruct (lookup label df); split; congruence.
Qed.

Lemma nth_error_fillna_missing (value : cell) (s : series) (i : nat) :
  nth_error s i = Some NaN -> nth_error (fillna value s) i = Some value.
Proof.
  intros H. unfold fillna. erewrite map_nth_error by exact H. reflexivity.
Qed.

Lemma nth_error_fillna_present (value c : cell) (s : series) (i : nat) :
  nth_error s i = Some c -> c <> NaN -> nth_error (fillna value s) i = Some c.
Proof.
  intros H Hc. unfold fillna. erewrite map_nth_error by exact H.
  destruct c; congruence.
Qed.

(** What [impute] returns, spelled out. *)
Lemma impute_Ok (features_df out : frame) (given_m given_p : option cell) (mm mp : cell) :
  impute features_df given_m given_p = Ok (out, mm, mp) ->
  exists tm ps,
    lookup "total_measure" features_df = Some tm
    /\ lookup "pack_size" features_df = Some ps
    /\ mm = match given_m with Some m => m | None => median tm end
    /\ mp = match given_p with Some m => m | None => median ps end
    /\ out = setitem "pack_size" (fillna mp ps)
               (setitem "total_measure" (fillna mm tm) features_df).
Proof.
  unfold impute, getitem. intros H.
  destruct (lookup "total_measure" features_df) as [tm|] eqn:Htm;
    destruct (lookup "pack_size" features_df) as [ps|] eqn:Hps;
    destruct given_m, given_p; cbn [bind] in H;
    try rewrite lookup_setitem_other in H by discriminate;
    try rewrite Hps in H; cbn [bind] in H; try discriminate.
  all: exists tm, ps; injection H as <- <- <-; now repeat split.
Qed.

(** [impute] with given statistics: they come back unchanged, every
    missing cell receives them, and every other cell stays as it is.  The
    medians of the table itself play no part. *)
Lemma impute_uses_given_medians
    (train test train_out test_out : frame) (mm mp mm' mp' : cell) :
  impute train None None = Ok (train_out, mm, mp) ->
  impute test (Some mm) (Some mp) = Ok (test_out, mm', mp') ->
  exists train_tm train_ps test_tm test_ps,
    lookup "total_measure" train = Some train_tm
    /\ lookup "pack_size" train = Some train_ps
    /\ lookup "total_measure" test = Some test_tm
    /\ lookup "pack_size" test = Some test_ps
    /\ mm = median train_tm /\ mp = median train_ps
    /\ mm' = mm /\ mp' = mp
    /\ lookup "total_measure" test_out = Some (fillna (median train_tm) test_tm)
    /\ lookup "pack_size" test_out = Some (fillna (median train_ps) test_ps)
    /\ (forall i, nth_error test_tm i = Some NaN ->
                  nth_error (fillna (median train_tm) test_tm) i = Some (median train_tm))
    /\ (forall i, nth_error test_ps i = Some NaN ->
                  nth_error (fillna (median train_ps) test_ps) i = Some (median train_ps))
    /\ (forall i c, nth_error test_tm i = Some c -> c <> NaN ->
                    nth_error (fillna (median train_tm) test_tm) i = Some c)
    /\ (forall i c, nth_error test_ps i = Some c -> c <> NaN ->
                    nth_error (fillna (median train_ps) test_ps) i = Some c).
Proof.
  intros Htrain Htest.
  apply impute_Ok in Htrain. destruct Htrain as (ttm & tps & Ha & Hb & -> & -> & _).
  apply impute_Ok in Htest. destruct Htest as (etm & eps & Hc & Hd & -> & -> & ->).
  exists ttm, tps, etm, eps.
  repeat split; try assumption; try reflexivity.
  - rewrite lookup_setitem_other by discriminate. apply lookup_setitem_same.
  - apply lookup_setitem_same.
  - intros i. apply nth_error_fillna_missing.
  - intros i. apply nth_error_fillna_missing.
  - intros i c. apply nth_error_fillna_present.
  - intros i c. apply nth_error_fillna_present.
Qed.

(** ** Loading and the row-count check *)

(** The events of a run that loads both files and finds too few rows. *)
Lemma main_incomplete (read_csv : string -> result frame) (train_df test_df : frame) :
  read_csv TRAIN_FILE_PATH = Ok train_df ->
  read_csv TEST_FILE_PATH = Ok test_df ->
  (N.of_nat (len train_df) < 75000)%N ->
  main repr log1p read_csv
  = (SystemExit,
     [Print "Loading raw data from {RAW_DATA_FOLDER}...";
      Print "CSV field size limit set.";
      Print ("Successfully loaded train.csv. Total rows: " ++ str_of_nat (len train_df));
      Print ("Successfully loaded test.csv. Total rows: " ++ str_of_nat (len test_df));
      Print (nl ++ nl ++ "*** CRITICAL WARNING ***");
      Print ("Your train.csv file only has " ++ str_of_nat (len train_df) ++ " rows.");
      Print "It is incomplete. You MUST re-download the full 75,000-row file.";
      Print "Stopping script."]).
Proof.
  intros Htrain Htest Hlen. apply N.ltb_lt in Hlen.
  unfold main, load. rewrite Htrain, Htest.
  cbn [lift ret and_then print try_except app]. rewrite Hlen.
  reflexivity.
Qed.

(** The events of a run in which reading one of the files raises. *)
Lemma main_load_failure (read_csv : string -> result frame) (e : exn) :
  read_csv TRAIN_FILE_PATH = Raise e
  \/ (exists train_df, read_csv TRAIN_FILE_PATH = Ok train_df
                       /\ read_csv TEST_FILE_PATH = Raise e) ->
  main repr log1p read_csv
  = (SystemExit,
     [Print "Loading raw data from {RAW_DATA_FOLDER}...";
      Print "CSV field size limit set.";
      Print (nl ++ nl ++ "*** CRITICAL ERROR LOADING CSV ***");
      Print ("Error: " ++ str_of_exn e);
      Print "This likely means your .csv files are corrupt or incomplete.";
      Print "Please place your full CSV files in 'data/raw' and run again."]).
Proof.
  intros [Htrain | (train_df & Htrain & Htest)]; unfold main, load.
  - rewrite Htrain. reflexivity.
  - rewrite Htrain, Htest. reflexivity.
Qed.

(** C8: a train table of fewer than 75,000 rows ends the run with
    [sys.exit()], after the warning lines and nothing else: no line of the
    feature work is printed and no file is written.  The warning shares no
    line with what a load failure prints, apart from the two lines every
    run starts with. *)
Theorem short_train_aborts (read_csv : string -> result frame) (train_df test_df : frame) :
  read_csv TRAIN_FILE_PATH = Ok train_df ->
  read_csv TEST_FILE_PATH = Ok test_df ->
  (N.of_nat (len train_df) < 75000)%N ->
  main repr log1p read_csv
  = (SystemExit,
     [Print "Loading raw data from {RAW_DATA_FOLDER}...";
      Print "CSV field size limit set.";
      Print ("Successfully loaded train.csv. Total rows: " ++ str_of_nat (len train_df));
      Print ("Successfully loaded test.csv. Total rows: " ++ str_of_nat (len test_df));
      Print (nl ++ nl ++ "*** CRITICAL WARNING ***");
      Print ("Your train.csv file only has " ++ str_of_nat (len train_df) ++ " rows.");
      Print "It is incomplete. You MUST re-download the full 75,000-row file.";
      Print "Stopping script."])
  /\ (forall path df, ~ In (ToParquet path df) (snd (main repr log1p read_csv)))
  /\ (forall failing e ev,
        failing TRAIN_FILE_PATH = Raise e
        \/ (exists df, failing TRAIN_FILE_PATH = Ok df
                       /\ failing TEST_FILE_PATH = Raise e) ->
        In ev (snd (main repr log1p read_csv)) ->
        In ev (snd (main repr log1p failing)) ->
        ev = Print "Loading raw data from {RAW_DATA_FOLDER}..."
        \/ ev = Print "CSV field size limit set.").
Proof.
  intros Htrain Htest Hlen.
  pose proof (main_incomplete _ _ _ Htrain Htest Hlen) as E.
  split; [exact E|]. rewrite E. split.
  - intros path df H. simpl in H.
    repeat (destruct H as [H | H]; [discriminate|]). exact H.
  - intros failing e ev Hfail Hshort Hbad.
    rewrite (main_load_failure _ _ Hfail) in Hbad.
    cbn [snd In] in Hshort, Hbad.
    destruct Hshort as [<- | [<- | Hshort]]; [now left | now right |].
    exfalso.
    repeat (destruct Hshort as [<- | Hshort]); try contradiction;
      repeat (destruct Hbad as [Hbad | Hbad]; try discriminate); contradiction.
Qed.

(** ** No rows to fit on *)


(** ** The shape of an encoded feature table *)

Lemma dummies_map_id (g : string * series -> string * series) (s : series) :
  (forall lv col, g (("unit_" ++ lv)%string, col) = (("unit_" ++ lv)%string, col)) ->
  List.map g (get_dummies s "unit") = get_dummies s "unit".
Proof.
  intros Hg. unfold get_dummies.
  induction (levels s) as [|lv l IH]; simpl; [reflexivity|].
  f_equal; [apply (Hg lv) | exact IH].
Qed.

Lemma dummies_filter_id (keep : string * series -> bool) (s : series) :
  (forall lv col, keep (("unit_" ++ lv)%string, col) = true) ->
  filter keep (get_dummies s "unit") = get_dummies s "unit".
Proof.
  intros Hk. unfold get_dummies.
  induction (levels s) as [|lv l IH]; [reflexivity|].
  cbn [List.map filter]. rewrite IH.
  change ("unit" ++ "_" ++ lv)%string with ("unit_" ++ lv)%string.
  now rewrite Hk.
Qed.

Lemma names_dummies (s : series) :
  names (get_dummies s "unit") = List.map (String.append "unit_") (levels s).
Proof.
  unfold names, get_dummies. rewrite map_map. reflexivity.
Qed.

(** What [encode_features] returns: the two numeric columns, then one
    indicator column per level of the unit tokens. *)
Lemma encode_features_with_Ok (extract : series -> result (series * series * series))
    (df features_df : frame) :
  encode_features_with extract df = Ok features_df ->
  exists text packs values units,
    lookup "catalog_content" df = Some text
    /\ extract text = Ok (packs, values, units)
    /\ features_df = ("pack_size", packs) :: ("total_measure", values)
                       :: get_dummies units "unit".
Proof.
  unfold encode_features_with, getitem. intros H.
  destruct (lookup "catalog_content" df) as [text|]; [|discriminate].
  cbn [bind] in H.
  destruct (extract text) as [[[packs values] units]|] eqn:Hx;
    [|discriminate].
  exists text, packs, values, units. split; [reflexivity|]. split; [exact Hx|].
  cbn in H. rewrite app_nil_r in H.
  rewrite dummies_filter_id in H by reflexivity.
  now injection H as <-.
Qed.

Lemma encode_features_Ok (df features_df : frame) :
  encode_features repr df = Ok features_df ->
  exists text packs values units,
    lookup "catalog_content" df = Some text
    /\ extract_features repr text = Ok (packs, values, units)
    /\ features_df = ("pack_size", packs) :: ("total_measure", values)
                       :: get_dummies units "unit".
Proof. apply encode_features_with_Ok. Qed.

(** What [create_feature_df] returns. *)
Lemma create_feature_df_with_Ok (extract : series -> result (series * series * series))
    (df out : frame) (given_m given_p : option cell) (mm mp : cell) :
  create_feature_df_with extract df given_m given_p = Ok (out, mm, mp) ->
  exists text packs values units,
    lookup "catalog_content" df = Some text
    /\ extract text = Ok (packs, values, units)
    /\ mm = match given_m with Some m => m | None => median values end
    /\ mp = match given_p with Some m => m | None => median packs end
    /\ out = ("pack_size", fillna mp packs) :: ("total_measure", fillna mm values)
               :: get_dummies units "unit".
Proof.
  unfold create_feature_df_with. intros H.
  destruct (encode_features_with extract df) as [features_df|] eqn:He; [|discriminate].
  cbn [bind] in H. apply encode_features_with_Ok in He.
  destruct He as (text & packs & values & units & Ht & Hx & ->).
  apply impute_Ok in H. destruct H as (tm & ps & Htm & Hps & -> & -> & ->).
  cbn in Htm, Hps. injection Htm as <-. injection Hps as <-.
  exists text, packs, values, units. repeat split; try assumption.
  unfold setitem at 2. cbn [has_column names List.map existsb String.eqb Ascii.eqb Bool.eqb fst orb].
  cbn [List.map fst String.eqb Ascii.eqb Bool.eqb].
  rewrite dummies_map_id by reflexivity.
  unfold setitem. cbn [has_column names List.map existsb String.eqb Ascii.eqb Bool.eqb fst orb].
  cbn [List.map fst String.eqb Ascii.eqb Bool.eqb].
  rewrite dummies_map_id by reflexivity.
  reflexivity.
Qed.

Lemma create_feature_df_Ok (df out : frame) (given_m given_p : option cell) (mm mp : cell) :
  create_feature_df repr df given_m given_p = Ok (out, mm, mp) ->
  exists text packs values units,
    lookup "catalog_content" df = Some text
    /\ extract_features repr text = Ok (packs, values, units)
    /\ mm = match given_m with Some m => m | None => median values end
    /\ mp = match given_p with Some m => m | None => median packs end
    /\ out = ("pack_size", fillna mp packs) :: ("total_measure", fillna mm values)
               :: get_dummies units "unit".
Proof. apply create_feature_df_with_Ok. Qed.

(** ** Alignment *)

Lemma names_reindex (labels : list string) (fill_value : cell) (df : frame) :
  names (reindex labels fill_value df) = labels.
Proof.
  unfold names, reindex. rewrite map_map. simpl. apply map_id.
Qed.

Lemma existsb_eqb_In (n : string) (l : list string) :
  existsb (String.eqb n) l = true <-> In n l.
Proof.
  rewrite existsb_exists. split.
  - intros (x & Hx & E). apply String.eqb_eq in E. now subst.
  - intros H. exists n. split; [exact H | apply String.eqb_refl].
Qed.

Lemma inner_join_In (left right : list string) (n : string) :
  In n (inner_join left right) <-> In n left /\ In n right.
Proof.
  unfold inner_join. rewrite filter_In, existsb_eqb_In. reflexivity.
Qed.

Lemma In_names_lookup (n : string) (df : frame) :
  In n (names df) -> exists col, lookup n df = Some col.
Proof.
  unfold names. induction df as [|[m c] df IH]; simpl; [contradiction|].
  intros [-> | H].
  - rewrite String.eqb_refl. now exists c.
  - destruct (m =? n)%string; [now exists c | now apply IH].
Qed.

(** A column of a reindexed frame whose label the frame has is the
    column of the frame: nothing is filled in. *)
Lemma reindex_keeps (labels : list string) (fill_value : cell) (df : frame)
    (n : string) (col : series) :
  (forall m, In m labels -> In m (names df)) ->
  In (n, col) (reindex labels fill_value df) -> lookup n df = Some col.
Proof.
  intros Hsub H. unfold reindex in H. apply in_map_iff in H.
  destruct H as (m & E & Hm). injection E as -> <-.
  destruct (In_names_lookup _ _ (Hsub _ Hm)) as (c & ->). reflexivity.
Qed.

Lemma filter_map_swap {A B} (f : A -> B) (p : B -> bool) (l : list A) :
  filter p (List.map f l) = List.map f (filter (fun a => p (f a)) l).
Proof.
  induction l as [|a l IH]; simpl; [reflexivity|].
  destruct (p (f a)); simpl; now rewrite IH.
Qed.

Lemma existsb_map_unit (lv : string) (l : list string) :
  existsb (String.eqb ("unit_" ++ lv)) (List.map (String.append "unit_") l)
  = existsb (String.eqb lv) l.
Proof.
  induction l as [|x l IH]; simpl; [reflexivity|]. now rewrite <- IH.
Qed.

(** The labels two encoded tables share: the two numeric columns and
    the indicators of the levels both have, in the order of the left
    table. *)
Lemma inner_join_encoded (l1 l2 : list string) :
  inner_join ("pack_size" :: "total_measure" :: List.map (String.append "unit_") l1)
             ("pack_size" :: "total_measure" :: List.map (String.append "unit_") l2)
  = "pack_size" :: "total_measure"
      :: List.map (String.append "unit_")
                  (filter (fun lv => existsb (String.eqb lv) l2) l1).
Proof.
  unfold inner_join. cbn [filter existsb String.eqb Ascii.eqb Bool.eqb orb andb].
  do 2 f_equal. rewrite filter_map_swap. f_equal.
  apply filter_ext. intros lv.
  rewrite <- (existsb_map_unit lv l2). reflexivity.
Qed.

(** C4: aligning two encoded feature tables leaves both with the same
    labels in the same order; a label is kept exactly when both tables
    have it; every column kept is the column the table had under that
    label, so nothing is filled in; and the labels kept are the two
    numeric columns followed by the indicators of the unit levels that
    both tables have. *)
Theorem align_keeps_common_columns
    (train_df test_df f1 f2 : frame) (a b c d : option cell) (m1 p1 m2 p2 : cell) :
  create_feature_df repr train_df a b = Ok (f1, m1, p1) ->
  create_feature_df repr test_df c d = Ok (f2, m2, p2) ->
  let train_cols := fst (align_inner f1 f2 (Num 0)) in
  let test_cols := snd (align_inner f1 f2 (Num 0)) in
  names train_cols = names test_cols
  /\ (forall n, In n (names train_cols) <-> In n (names f1) /\ In n (names f2))
  /\ (forall n col, In (n, col) train_cols -> lookup n f1 = Some col)
  /\ (forall n col, In (n, col) test_cols -> lookup n f2 = Some col)
  /\ exists text1 text2 packs1 values1 units1 packs2 values2 units2,
       lookup "catalog_content" train_df = Some text1
       /\ lookup "catalog_content" test_df = Some text2
       /\ extract_features repr text1 = Ok (packs1, values1, units1)
       /\ extract_features repr text2 = Ok (packs2, values2, units2)
       /\ names train_cols
          = "pack_size" :: "total_measure"
              :: List.map (String.append "unit_")
                   (filter (fun lv => existsb (String.eqb lv) (levels units2))
                           (levels units1)).
Proof.
  intros H1 H2 train_cols test_cols. subst train_cols test_cols.
  unfold align_inner. cbn [fst snd]. rewrite !names_reindex.
  split; [reflexivity|]. split; [apply inner_join_In|].
  split; [|split].
  - intros n col. apply reindex_keeps. intros m Hm.
    now apply inner_join_In in Hm.
  - intros n col. apply reindex_keeps. intros m Hm.
    now apply inner_join_In in Hm.
  - apply create_feature_df_Ok in H1.
    destruct H1 as (text1 & packs1 & values1 & units1 & Ht1 & Hx1 & _ & _ & ->).
    apply create_feature_df_Ok in H2.
    destruct H2 as (text2 & packs2 & values2 & units2 & Ht2 & Hx2 & _ & _ & ->).
    exists text1, text2, packs1, values1, units1, packs2, values2, units2.
    repeat split; try assumption.
    cbn [names List.map fst]. fold (names (get_dummies units1 "unit")).
    fold (names (get_dummies units2 "unit")).
    rewrite !names_dummies. apply inner_join_encoded.
Qed.

(** ** Column by column is row by row *)

Lemma mapM_nth_error {A B} (f : A -> result B) (l : list A) (l' : list B) :
  mapM f l = Ok l' ->
  List.length l' = List.length l
  /\ forall i a, nth_error l i = Some a ->
       exists b, f a = Ok b /\ nth_error l' i = Some b.
Proof.
  revert l'. induction l as [|x l IH]; intros l' H; simpl in H.
  - injection H as <-. split; [reflexivity|]. intros [|i] a; discriminate.
  - destruct (f x) as [y|] eqn:Hy; [|discriminate]. cbn [bind] in H.
    destruct (mapM f l) as [ys|]; [|discriminate]. cbn [bind] in H.
    injection H as <-. destruct (IH ys eq_refl) as [Hlen Hnth].
    split; [simpl; now rewrite Hlen|].
    intros [|i] a Ha; simpl in Ha.
    + injection Ha as <-. now exists y.
    + now apply Hnth.
Qed.

Lemma mapM_one {A B} (f : A -> result B) (a : A) (b : B) :
  f a = Ok b -> mapM f [a] = Ok [b].
Proof. intros H. simpl. now rewrite H. Qed.

Lemma float_of_cell_not_NaN (c out : cell) :
  c <> NaN -> float_of_cell c = Ok out -> out <> NaN.
Proof.
  intros Hc H. destruct c as [t|q| |b]; simpl in H.
  - destruct (float_of_text t); [injection H as <-|]; discriminate.
  - injection H as <-. discriminate.
  - congruence.
  - injection H as <-. discriminate.
Qed.

(** Row [i] of what [extract_features] returns on a column is what it
    returns on the text of row [i] alone; pack size and measure are never
    missing. *)
Lemma extract_features_rows (text packs values units : series) :
  extract_features repr text = Ok (packs, values, units) ->
  List.length packs = List.length text
  /\ List.length values = List.length text
  /\ List.length units = List.length text
  /\ forall i c, nth_error text i = Some c ->
       exists pack value unit,
         extract_features repr [c] = Ok ([pack], [value], [unit])
         /\ nth_error packs i = Some pack
         /\ nth_error values i = Some value
         /\ nth_error units i = Some unit
         /\ pack <> NaN /\ value <> NaN.
Proof.
  unfold extract_features, astype_float. intros H.
  destruct (mapM float_of_cell (fillna (Num 1) (str_extract pack_regex (astype_str repr text))))
    as [ps|] eqn:Hp; [|discriminate].
  destruct (mapM float_of_cell (fillna (Num 0) (str_extract value_regex (astype_str repr text))))
    as [vs|] eqn:Hv; [|discriminate].
  cbn [bind] in H. injection H as <- <- <-.
  apply mapM_nth_error in Hp. destruct Hp as [Lp Np].
  apply mapM_nth_error in Hv. destruct Hv as [Lv Nv].
  unfold fillna, str_extract, astype_str, str_lower, str_strip in *.
  rewrite !length_map in *.
  repeat split; try assumption.
  intros i c Hc.
  pose proof (Np i) as Np'. rewrite !nth_error_map, Hc in Np'.
  cbn [option_map] in Np'. destruct (Np' _ eq_refl) as (p & Fp & Hp).
  pose proof (Nv i) as Nv'. rewrite !nth_error_map, Hc in Nv'.
  cbn [option_map] in Nv'. destruct (Nv' _ eq_refl) as (v & Fv & Hv).
  eexists p, v, _. cbn [List.map].
  rewrite (mapM_one _ _ _ Fp), (mapM_one _ _ _ Fv). cbn [bind].
  split; [reflexivity|]. split; [exact Hp|]. split; [exact Hv|].
  split; [rewrite !nth_error_map, Hc; reflexivity|].
  split.
  - eapply float_of_cell_not_NaN; [|exact Fp].
    now destruct (Re.extract pack_regex (str_of_cell repr c)).
  - eapply float_of_cell_not_NaN; [|exact Fv].
    now destruct (Re.extract value_regex (str_of_cell repr c)).
Qed.

(** ** Taking a run of [prepare] apart *)

Lemma and_then_Return {A B} (m : script A) (f : A -> script B) (b : B) (t : list event) :
  and_then m f = (Return b, t) ->
  exists a t1 t2, m = (Return a, t1) /\ f a = (Return b, t2) /\ t = t1 ++ t2.
Proof.
  destruct m as [[a| |] t1]; simpl; try discriminate.
  destruct (f a) as [o t2] eqn:E. intros [= -> <-].
  now exists a, t1, t2.
Qed.

Lemma lift_Return {A} (r : result A) (a : A) (t : list event) :
  lift r = (Return a, t) -> r = Ok a.
Proof. destruct r; simpl; [now intros [= ->] | discriminate]. Qed.

Lemma drop_Ok (label : string) (df out : frame) :
  drop label df = Ok out ->
  out = filter (fun nc => negb (fst nc =? label)%string) df.
Proof. unfold drop. destruct (has_column label df); [now intros [= <-] | discriminate]. Qed.

Tactic Notation "step" hyp(H) "as" ident(a) ident(Hm) :=
  apply and_then_Return in H;
  let t1 := fresh "t" in
  let t2 := fresh "t" in
  destruct H as (a & t1 & t2 & Hm & H & ->).

Tactic Notation "skip_print" hyp(H) :=
  let u := fresh "u" in
  let Hu := fresh "Hu" in
  step H as u Hu; clear u Hu.

Lemma prepare_with_Return (extract : series -> result (series * series * series))
    (train_df test_df train_final test_final : frame) (trace : list event) :
  prepare_with log1p extract train_df test_df = (Return (train_final, test_final), trace) ->
  exists f1 f2 mm mp mm' mp' price log_price,
    create_feature_df_with extract train_df None None = Ok (f1, mm, mp)
    /\ create_feature_df_with extract test_df (Some mm) (Some mp) = Ok (f2, mm', mp')
    /\ lookup "price" (without_image_link train_df ++ fst (align_inner f1 f2 (Num 0)))
       = Some price
    /\ np_log1p log1p price = Ok log_price
    /\ train_final = setitem "log_price" log_price
                       (without_image_link train_df ++ fst (align_inner f1 f2 (Num 0)))
    /\ test_final = without_image_link test_df ++ snd (align_inner f1 f2 (Num 0)).
Proof.
  unfold prepare_with. intros H.
  skip_print H. skip_print H.
  step H as r1 H1. apply lift_Return in H1. destruct r1 as [[f1 mm] mp].
  skip_print H.
  step H as r2 H2. apply lift_Return in H2. destruct r2 as [[f2 mm'] mp'].
  skip_print H.
  destruct (align_inner f1 f2 (Num 0)) as [train_cols test_cols] eqn:Ha.
  do 4 skip_print H.
  step H as train_df' H3. apply lift_Return, drop_Ok in H3. subst train_df'.
  step H as test_df' H4. apply lift_Return, drop_Ok in H4. subst test_df'.
  step H as price H5. apply lift_Return, getitem_Ok in H5.
  step H as log_price H6. apply lift_Return in H6.
  injection H as <- <- _.
  unfold concat in *. cbn [List.concat] in *. rewrite !app_nil_r in *.
  exists f1, f2, mm, mp, mm', mp', price, log_price.
  rewrite Ha. cbn [fst snd]. unfold without_image_link. now repeat split.
Qed.

Lemma prepare_Return (train_df test_df train_final test_final : frame) (trace : list event) :
  prepare repr log1p train_df test_df = (Return (train_final, test_final), trace) ->
  exists f1 f2 mm mp mm' mp' price log_price,
    create_feature_df repr train_df None None = Ok (f1, mm, mp)
    /\ create_feature_df repr test_df (Some mm) (Some mp) = Ok (f2, mm', mp')
    /\ lookup "price" (without_image_link train_df ++ fst (align_inner f1 f2 (Num 0)))
       = Some price
    /\ np_log1p log1p price = Ok log_price
    /\ train_final = setitem "log_price" log_price
                       (without_image_link train_df ++ fst (align_inner f1 f2 (Num 0)))
    /\ test_final = without_image_link test_df ++ snd (align_inner f1 f2 (Num 0)).
Proof. apply prepare_with_Return. Qed.

(** ** Rows of the final tables *)

Lemma lookup_In (n : string) (df : frame) (col : series) :
  lookup n df = Some col -> In (n, col) df.
Proof.
  induction df as [|[m c] df IH]; simpl; [discriminate|].
  destruct (m =? n)%string eqn:E.
  - apply String.eqb_eq in E. intros [= <-]. left. now subst.
  - intros H. right. now apply IH.
Qed.

Lemma lookup_dummies (n : string) (units col : series) :
  lookup n (get_dummies units "unit") = Some col ->
  exists lv, n = ("unit_" ++ lv)%string
             /\ col = List.map (fun c => Bool (cell_eqb c (Str lv))) units.
Proof.
  unfold get_dummies. induction (levels units) as [|lv l IH]; simpl; [discriminate|].
  match goal with |- context [if ?b then _ else _] => destruct b eqn:E end.
  - intros [= <-]. exists lv. split; [|reflexivity].
    symmetry. apply String.eqb_eq. exact E.
  - exact IH.
Qed.

(** The feature columns [create_feature_df] returns, row by row. *)
Lemma created_rows (df out : frame) (given_m given_p : option cell) (mm mp : cell)
    (text : series) :
  create_feature_df repr df given_m given_p = Ok (out, mm, mp) ->
  lookup "catalog_content" df = Some text ->
  (forall n col, lookup n out = Some col -> List.length col = List.length text)
  /\ forall i c, nth_error text i = Some c ->
       exists pack value unit,
         extract_features repr [c] = Ok ([pack], [value], [unit])
         /\ forall n col, lookup n out = Some col ->
              (n = "pack_size" /\ nth_error col i = Some pack)
              \/ (n = "total_measure" /\ nth_error col i = Some value)
              \/ (exists lv, n = ("unit_" ++ lv)%string
                   /\ nth_error col i = Some (Bool (cell_eqb unit (Str lv)))).
Proof.
  intros H Ht. apply create_feature_df_Ok in H.
  destruct H as (text' & packs & values & units & Ht' & Hx & _ & _ & ->).
  rewrite Ht in Ht'. injection Ht' as <-.
  apply extract_features_rows in Hx. destruct Hx as (Lp & Lv & Lu & Hrow).
  assert (Hcol : forall n col,
             lookup n (("pack_size", fillna mp packs) :: ("total_measure", fillna mm values)
                         :: get_dummies units "unit") = Some col ->
             (n = "pack_size" /\ col = fillna mp packs)
             \/ (n = "total_measure" /\ col = fillna mm values)
             \/ (exists lv, n = ("unit_" ++ lv)%string
                   /\ col = List.map (fun c => Bool (cell_eqb c (Str lv))) units)).
  { intros n col. cbn [lookup].
    destruct ("pack_size" =? n)%string eqn:E1.
    { apply String.eqb_eq in E1. intros [= <-]. now left. }
    destruct ("total_measure" =? n)%string eqn:E2.
    { apply String.eqb_eq in E2. intros [= <-]. right. now left. }
    intros H. right. right. now apply lookup_dummies. }
  split.
  - intros n col H. apply Hcol in H.
    destruct H as [[_ ->] | [[_ ->] | (lv & _ & ->)]];
      unfold fillna; rewrite length_map; assumption.
  - intros i c Hc. destruct (Hrow i c Hc) as (p & v & u & Hone & Hp & Hv & Hu & Np & Nv).
    exists p, v, u. split; [exact Hone|].
    intros n col H. apply Hcol in H.
    destruct H as [[-> ->] | [[-> ->] | (lv & -> & ->)]].
    + left. split; [reflexivity|]. now apply nth_error_fillna_present.
    + right. left. split; [reflexivity|]. now apply nth_error_fillna_present.
    + right. right. exists lv. split; [reflexivity|].
      rewrite nth_error_map, Hu. reflexivity.
Qed.

Lemma In_setitem (label : string) (col : series) (df : frame) (n : string) (c : series) :
  In (n, c) (setitem label col df) -> (n = label /\ c = col) \/ In (n, c) df.
Proof.
  unfold setitem. destruct (has_column label df).
  - intros H. apply in_map_iff in H. destruct H as ([m x] & E & H).
    cbn [fst] in E. destruct (m =? label)%string.
    + injection E as <- <-. now left.
    + injection E as <- <-. now right.
  - intros H. apply in_app_or in H. destruct H as [H | [[= <- <-] | []]].
    + now right.
    + now left.
Qed.

Lemma In_setitem_other (label : string) (col : series) (df : frame) (n : string) (c : series) :
  In (n, c) df -> n <> label -> In (n, c) (setitem label col df).
Proof.
  intros H Hne. unfold setitem. destruct (has_column label df).
  - apply in_map_iff. exists (n, c). split; [|exact H]. cbn [fst].
    apply String.eqb_neq in Hne. now rewrite Hne.
  - apply in_or_app. now left.
Qed.

Lemma has_rows_spec (n : nat) (df : frame) : has_rows n df = true <-> all_rows n df.
Proof.
  unfold has_rows, all_rows. rewrite forallb_forall. split.
  - intros H label col Hin. apply Nat.eqb_eq. exact (H (label, col) Hin).
  - intros H [label col] Hin. apply Nat.eqb_eq. exact (H label col Hin).
Qed.

Lemma has_rows_len (n : nat) (df : frame) : all_rows n df -> df <> [] -> len df = n.
Proof.
  destruct df as [|[m c] df]; [congruence|]. intros H _. simpl.
  apply (H m). now left.
Qed.

Lemma setitem_not_nil (label : string) (col : series) (df : frame) :
  setitem label col df <> [].
Proof.
  unfold setitem. destruct (has_column label df) eqn:E.
  - destruct df; [discriminate E | discriminate].
  - destruct df; discriminate.
Qed.

Lemma align_inner_keeps (f1 f2 : frame) (fill_value : cell) (n : string) (col : series) :
  (In (n, col) (fst (align_inner f1 f2 fill_value)) -> lookup n f1 = Some col)
  /\ (In (n, col) (snd (align_inner f1 f2 fill_value)) -> lookup n f2 = Some col).
Proof.
  unfold align_inner. cbn [fst snd].
  split; apply reindex_keeps; intros m Hm; now apply inner_join_In in Hm.
Qed.

Lemma align_inner_created_not_nil (df1 df2 f1 f2 : frame) (a b c d : option cell)
    (m1 p1 m2 p2 : cell) :
  create_feature_df repr df1 a b = Ok (f1, m1, p1) ->
  create_feature_df repr df2 c d = Ok (f2, m2, p2) ->
  fst (align_inner f1 f2 (Num 0)) <> [] /\ snd (align_inner f1 f2 (Num 0)) <> [].
Proof.
  intros H1 H2.
  apply create_feature_df_Ok in H1.
  destruct H1 as (_ & packs1 & values1 & units1 & _ & _ & _ & _ & ->).
  apply create_feature_df_Ok in H2.
  destruct H2 as (_ & packs2 & values2 & units2 & _ & _ & _ & _ & ->).
  unfold align_inner. cbn [fst snd names List.map].
  fold (names (get_dummies units1 "unit")). fold (names (get_dummies units2 "unit")).
  rewrite !names_dummies, inner_join_encoded. split; discriminate.
Qed.

Lemma In_without_image_link (df : frame) (n : string) (col : series) :
  In (n, col) (without_image_link df) <-> In (n, col) df /\ n <> "image_link".
Proof.
  unfold without_image_link. rewrite filter_In. cbn [fst].
  rewrite negb_true_iff, String.eqb_neq. reflexivity.
Qed.

(** C5: when [prepare] returns the two final tables, each has the rows of
    its input, in the input's order.  Every column of a final table has as
    many rows as the input table; every input column other than
    [image_link] (and, for train, a [log_price] the input may have had) is
    in the final table as it was, cell for cell; and row [i] of the feature
    columns holds the features of the text in row [i] of the input. *)
Theorem rows_preserved
    (train_df test_df train_final test_final : frame) (trace : list event) :
  prepare repr log1p train_df test_df = (Return (train_final, test_final), trace) ->
  has_rows (len train_df) train_df = true ->
  has_rows (len test_df) test_df = true ->
  has_rows (len train_df) train_final = true
  /\ has_rows (len test_df) test_final = true
  /\ len train_final = len train_df
  /\ len test_final = len test_df
  /\ (forall label col, In (label, col) train_df ->
        label <> "image_link" -> label <> "log_price" ->
        In (label, col) train_final)
  /\ (forall label col, In (label, col) test_df ->
        label <> "image_link" -> In (label, col) test_final)
  /\ exists train_text test_text train_cols test_cols log_price,
       lookup "catalog_content" train_df = Some train_text
       /\ lookup "catalog_content" test_df = Some test_text
       /\ train_final = setitem "log_price" log_price
                          (without_image_link train_df ++ train_cols)
       /\ test_final = without_image_link test_df ++ test_cols
       /\ (forall i c, nth_error train_text i = Some c ->
             features_at repr c train_cols i)
       /\ (forall i c, nth_error test_text i = Some c ->
             features_at repr c test_cols i).
Proof.
  intros H Rtrain Rtest. rewrite !has_rows_spec in *.
  apply prepare_Return in H.
  destruct H as (f1 & f2 & mm & mp & mm' & mp' & price & log_price
                 & H1 & H2 & Hprice & Hlog & -> & ->).
  destruct (align_inner_created_not_nil _ _ _ _ _ _ _ _ _ _ _ _ H1 H2) as [Ne1 Ne2].
  pose proof (create_feature_df_Ok _ _ _ _ _ _ H1)
    as (text1 & _ & _ & _ & Ht1 & _).
  pose proof (create_feature_df_Ok _ _ _ _ _ _ H2)
    as (text2 & _ & _ & _ & Ht2 & _).
  destruct (created_rows _ _ _ _ _ _ _ H1 Ht1) as [Len1 Row1].
  destruct (created_rows _ _ _ _ _ _ _ H2 Ht2) as [Len2 Row2].
  assert (Lt1 : List.length text1 = len train_df)
    by (apply (Rtrain "catalog_content"), lookup_In, Ht1).
  assert (Lt2 : List.length text2 = len test_df)
    by (apply (Rtest "catalog_content"), lookup_In, Ht2).
  set (train_cols := fst (align_inner f1 f2 (Num 0))) in *.
  set (test_cols := snd (align_inner f1 f2 (Num 0))) in *.
  assert (K1 : forall n col, In (n, col) train_cols -> lookup n f1 = Some col)
    by (intros n col; apply align_inner_keeps).
  assert (K2 : forall n col, In (n, col) test_cols -> lookup n f2 = Some col)
    by (intros n col; apply align_inner_keeps).
  assert (Rmid : all_rows (len train_df) (without_image_link train_df ++ train_cols)).
  { intros n col Hin. apply in_app_or in Hin. destruct Hin as [Hin | Hin].
    - apply In_without_image_link in Hin. apply (Rtrain n), Hin.
    - rewrite <- Lt1. apply (Len1 n), K1, Hin. }
  assert (Rfin1 : all_rows (len train_df)
                    (setitem "log_price" log_price
                       (without_image_link train_df ++ train_cols))).
  { intros n col Hin. apply In_setitem in Hin. destruct Hin as [[_ ->] | Hin].
    - apply mapM_nth_error in Hlog. destruct Hlog as [-> _].
      apply (Rmid "price"), lookup_In, Hprice.
    - apply (Rmid n), Hin. }
  assert (Rfin2 : all_rows (len test_df) (without_image_link test_df ++ test_cols)).
  { intros n col Hin. apply in_app_or in Hin. destruct Hin as [Hin | Hin].
    - apply In_without_image_link in Hin. apply (Rtest n), Hin.
    - rewrite <- Lt2. apply (Len2 n), K2, Hin. }
  split; [exact Rfin1|]. split; [exact Rfin2|].
  split; [apply has_rows_len; [exact Rfin1 | apply setitem_not_nil]|].
  split.
  { apply has_rows_len; [exact Rfin2|].
    intros E. apply app_eq_nil in E. now destruct E as [_ E]. }
  split.
  { intros label col Hin Hi Hl. apply In_setitem_other; [|exact Hl].
    apply in_or_app. left. now apply In_without_image_link. }
  split.
  { intros label col Hin Hi. apply in_or_app. left. now apply In_without_image_link. }
  exists text1, text2, train_cols, test_cols, log_price.
  repeat split; try assumption.
  - intros i c Hc. destruct (Row1 i c Hc) as (p & v & u & Hone & Hcells).
    exists p, v, u. split; [exact Hone|]. intros n col Hin. apply Hcells, K1, Hin.
  - intros i c Hc. destruct (Row2 i c Hc) as (p & v & u & Hone & Hcells).
    exists p, v, u. split; [exact Hone|]. intros n col Hin. apply Hcells, K2, Hin.
Qed.

(** ** What is saved, and the log price *)

(** A run that passes the row-count check saves the two tables [prepare]
    returns. *)
Lemma main_saves (read_csv : string -> result frame)
    (train_df test_df train_final test_final : frame) (trace : list event) :
  read_csv TRAIN_FILE_PATH = Ok train_df ->
  read_csv TEST_FILE_PATH = Ok test_df ->
  (75000 <= N.of_nat (len train_df))%N ->
  prepare repr log1p train_df test_df = (Return (train_final, test_final), trace) ->
  main repr log1p read_csv
  = (Return tt,
     [Print "Loading raw data from {RAW_DATA_FOLDER}...";
      Print "CSV field size limit set.";
      Print ("Successfully loaded train.csv. Total rows: " ++ str_of_nat (len train_df));
      Print ("Successfully loaded test.csv. Total rows: " ++ str_of_nat (len test_df))]
     ++ trace
     ++ [ToParquet "data/processed/train_processed.parquet" train_final;
         ToParquet "data/processed/test_processed.parquet" test_final;
         Print (nl ++ "--- PHASE 1 (Lightweight) SCRIPT COMPLETE ---");
         Print "Processed dataframes (text-only) are in: data/processed"]).
Proof.
  intros Htrain Htest Hlen Hprep. apply N.ltb_ge in Hlen.
  unfold main, load. rewrite Htrain, Htest.
  cbn [lift ret and_then print try_except app]. rewrite Hlen.
  cbn [lift ret and_then print try_except app]. rewrite Hprep.
  reflexivity.
Qed.

Lemma created_labels (df out : frame) (given_m given_p : option cell) (mm mp : cell)
    (n : string) (col : series) :
  create_feature_df repr df given_m given_p = Ok (out, mm, mp) ->
  lookup n out = Some col ->
  n = "pack_size" \/ n = "total_measure" \/ exists lv, n = ("unit_" ++ lv)%string.
Proof.
  intros H. apply create_feature_df_Ok in H.
  destruct H as (_ & packs & values & units & _ & _ & _ & _ & ->).
  cbn [lookup].
  destruct ("pack_size" =? n)%string eqn:E1.
  { apply String.eqb_eq in E1. now left. }
  destruct ("total_measure" =? n)%string eqn:E2.
  { apply String.eqb_eq in E2. right. now left. }
  intros H. apply lookup_dummies in H. destruct H as (lv & -> & _).
  right. right. now exists lv.
Qed.

Lemma lookup_app (n : string) (a b : frame) :
  lookup n (a ++ b) = match lookup n a with
                      | Some col => Some col
                      | None => lookup n b
                      end.
Proof.
  induction a as [|[m c] a IH]; simpl; [reflexivity|].
  destruct (m =? n)%string; [reflexivity | exact IH].
Qed.

Lemma lookup_without_image_link (n : string) (df : frame) :
  n <> "image_link" -> lookup n (without_image_link df) = lookup n df.
Proof.
  intros Hn. unfold without_image_link.
  induction df as [|[m c] df IH]; simpl; [reflexivity|].
  destruct (m =? "image_link")%string eqn:E; simpl.
  - apply String.eqb_eq in E. subst m.
    assert (F : ("image_link" =? n)%string = false)
      by (apply String.eqb_neq; congruence).
    rewrite F. exact IH.
  - destruct (m =? n)%string; [reflexivity | exact IH].
Qed.

Lemma lookup_not_In (n : string) (df : frame) :
  (forall col, ~ In (n, col) df) -> lookup n df = None.
Proof.
  intros H. destruct (lookup n df) as [col|] eqn:E; [|reflexivity].
  apply lookup_In in E. now apply H in E.
Qed.

(** X17: the log price is computed from the price column of the train
    table, row by row, and put on the train table only: the test table
    gets no such column. *)
Lemma log_price_on_train_only
    (train_df test_df train_final test_final : frame) (trace : list event) :
  prepare repr log1p train_df test_df = (Return (train_final, test_final), trace) ->
  (exists price log_price,
      lookup "price" train_df = Some price
      /\ lookup "log_price" train_final = Some log_price
      /\ List.length log_price = List.length price
      /\ forall i c, nth_error price i = Some c ->
           exists y, log1p_cell log1p c = Ok y /\ nth_error log_price i = Some y)
  /\ lookup "log_price" test_final = lookup "log_price" test_df.
Proof.
  intros H. apply prepare_Return in H.
  destruct H as (f1 & f2 & mm & mp & mm' & mp' & price & log_price
                 & H1 & H2 & Hprice & Hlog & -> & ->).
  assert (No1 : forall n, n <> "pack_size" -> n <> "total_measure" ->
                  (forall lv, n <> ("unit_" ++ lv)%string) ->
                  lookup n (fst (align_inner f1 f2 (Num 0))) = None).
  { intros n A B C. apply lookup_not_In. intros col Hin.
    apply align_inner_keeps in Hin.
    destruct (created_labels _ _ _ _ _ _ _ _ H1 Hin) as [E | [E | (lv & E)]];
      [now apply A | now apply B | now apply (C lv)]. }
  assert (No2 : forall n, n <> "pack_size" -> n <> "total_measure" ->
                  (forall lv, n <> ("unit_" ++ lv)%string) ->
                  lookup n (snd (align_inner f1 f2 (Num 0))) = None).
  { intros n A B C. apply lookup_not_In. intros col Hin.
    apply align_inner_keeps in Hin.
    destruct (created_labels _ _ _ _ _ _ _ _ H2 Hin) as [E | [E | (lv & E)]];
      [now apply A | now apply B | now apply (C lv)]. }
  split.
  - exists price, log_price.
    rewrite lookup_app, lookup_without_image_link in Hprice by discriminate.
    rewrite No1 in Hprice by (try discriminate; intros lv; discriminate).
    split; [now destruct (lookup "price" train_df)|].
    split; [apply lookup_setitem_same|].
    apply mapM_nth_error in Hlog. exact Hlog.
  - rewrite lookup_app, lookup_without_image_link by discriminate.
    rewrite No2 by (try discriminate; intros lv; discriminate).
    now destruct (lookup "log_price" test_df).
Qed.

(** ** When [prepare] returns *)

Lemma create_feature_df_returns (df : frame) (given_m given_p : option cell)
    (text : series) :
  lookup "catalog_content" df = Some text ->
  forallb (fun c => value_parses (str_of_cell repr c)) text = true ->
  exists out mm mp, create_feature_df repr df given_m given_p = Ok (out, mm, mp).
Proof.
  intros Ht Hv. apply extract_features_returns_iff in Hv.
  destruct Hv as ([[packs values] units] & Hx).
  unfold create_feature_df, create_feature_df_with,
    encode_features, encode_features_with, getitem.
  rewrite Ht. cbn [bind].
  rewrite Hx. cbn [bind lookup String.eqb Ascii.eqb Bool.eqb].
  unfold concat, drop. cbn [List.concat app has_column names List.map fst existsb
                            String.eqb Ascii.eqb Bool.eqb orb filter negb].
  rewrite app_nil_r, dummies_filter_id by reflexivity. cbn [bind].
  unfold impute, getitem.
  destruct given_m, given_p; cbn [bind lookup String.eqb Ascii.eqb Bool.eqb];
    rewrite ?lookup_setitem_other by discriminate;
    cbn [bind lookup String.eqb Ascii.eqb Bool.eqb]; now do 3 eexists.
Qed.

(** [prepare] returns the two final tables whenever both inputs have the
    text column and the image column, every value the pattern captures is
    the text of a number, and train has a price column without text. *)
Lemma prepare_returns (train_df test_df : frame) (text1 text2 price : series) :
  lookup "catalog_content" train_df = Some text1 ->
  lookup "catalog_content" test_df = Some text2 ->
  forallb (fun c => value_parses (str_of_cell repr c)) text1 = true ->
  forallb (fun c => value_parses (str_of_cell repr c)) text2 = true ->
  has_column "image_link" train_df = true ->
  has_column "image_link" test_df = true ->
  lookup "price" train_df = Some price ->
  forallb (fun c => match c with Str _ => false | _ => true end) price = true ->
  exists train_final test_final trace,
    prepare repr log1p train_df test_df = (Return (train_final, test_final), trace).
Proof.
  intros Ht1 Ht2 Hv1 Hv2 Hi1 Hi2 Hprice Hnum.
  destruct (create_feature_df_returns train_df None None text1 Ht1 Hv1)
    as (f1 & mm & mp & H1).
  destruct (create_feature_df_returns test_df (Some mm) (Some mp) text2 Ht2 Hv2)
    as (f2 & mm' & mp' & H2).
  assert (Hlog : exists log_price, np_log1p log1p price = Ok log_price).
  { apply mapM_Ok_Forall. apply Forall_forall. intros c Hc.
    rewrite forallb_forall in Hnum. specialize (Hnum c Hc).
    destruct c; try discriminate; cbn; now eexists. }
  destruct Hlog as (log_price & Hlog).
  unfold prepare, prepare_with.
  change (create_feature_df_with (extract_features repr)) with (create_feature_df repr). rewrite H1. cbn [and_then print lift ret app].
  rewrite H2. cbn [and_then print lift ret app].
  destruct (align_inner f1 f2 (Num 0)) as [train_cols test_cols].
  unfold drop. rewrite Hi1, Hi2. cbn [and_then print lift ret app].
  unfold concat, getitem. cbn [List.concat]. rewrite !app_nil_r.
  fold (without_image_link train_df). fold (without_image_link test_df).
  rewrite lookup_app, lookup_without_image_link, Hprice by discriminate.
  cbn [and_then print lift ret app]. rewrite Hlog.
  cbn [and_then print lift ret app]. now do 3 eexists.
Qed.

(** ** Extraction, row by row *)

Lemma mapM_Raise {A B} (f : A -> result B) (l : list A) (e : exn) :
  mapM f l = Raise e -> exists a, In a l /\ f a = Raise e.
Proof.
  induction l as [|a l IH]; simpl; [discriminate|].
  destruct (f a) as [b|e'] eqn:Ha; cbn [bind].
  - destruct (mapM f l) as [bs|e'']; cbn [bind]; [discriminate|].
    intros [= ->]. destruct (IH eq_refl) as (x & Hx & Hfx).
    exists x. split; [now right | exact Hfx].
  - intros [= ->]. exists a. split; [now left | exact Ha].
Qed.

Lemma mapM_app {A B} (f : A -> result B) (l1 l2 : list A) :
  mapM f (l1 ++ l2)
  = (x <- mapM f l1 ;; y <- mapM f l2 ;; Ok (x ++ y)).
Proof.
  induction l1 as [|a l1 IH]; simpl.
  - destruct (mapM f l2); reflexivity.
  - destruct (f a); cbn [bind]; [|reflexivity].
    rewrite IH. destruct (mapM f l1); cbn [bind]; [|reflexivity].
    destruct (mapM f l2); reflexivity.
Qed.

(** The conversion of the pack sizes never raises. *)
Lemma pack_sizes_convert (text : series) :
  exists ps,
    astype_float (fillna (Num 1) (str_extract pack_regex (astype_str repr text))) = Ok ps.
Proof.
  apply mapM_Ok_Forall. apply Forall_forall. intros c Hc.
  unfold fillna, str_extract, astype_str in Hc. rewrite !map_map in Hc.
  apply in_map_iff in Hc. destruct Hc as (c0 & <- & _).
  destruct (Re.extract pack_regex (str_of_cell repr c0)) as [g|] eqn:E.
  - destruct (pack_extract_parses _ _ E) as (q & Hq). cbn. rewrite Hq. now eexists.
  - now eexists.
Qed.

Lemma extract_features_Raise (text : series) (e : exn) :
  extract_features repr text = Raise e ->
  exists c g,
    In c text
    /\ Re.extract value_regex (str_of_cell repr c) = Some g
    /\ float_of_text g = None
    /\ e = ValueError g.
Proof.
  unfold extract_features. destruct (pack_sizes_convert text) as (ps & ->).
  cbn [bind]. unfold astype_float.
  destruct (mapM float_of_cell
              (fillna (Num 0) (str_extract value_regex (astype_str repr text))))
    as [vs|e'] eqn:Hv; cbn [bind]; [discriminate|].
  intros [= ->]. apply mapM_Raise in Hv. destruct Hv as (x & Hin & Hx).
  unfold fillna, str_extract, astype_str in Hin. rewrite !map_map in Hin.
  apply in_map_iff in Hin. destruct Hin as (c & <- & Hc).
  exists c. destruct (Re.extract value_regex (str_of_cell repr c)) as [g|];
    [|discriminate].
  exists g. cbn in Hx. destruct (float_of_text g); [discriminate|].
  injection Hx as <-. now repeat split.
Qed.

(** X1: [extract_features] returns exactly when, in every row, the value
    pattern finds nothing or captures the text of a number; when it
    raises, the exception is the [ValueError] of a row whose capture is
    not such a text, and it names that capture. *)
Theorem extraction_raises_exactly (text : series) :
  ((exists r, extract_features repr text = Ok r)
   <-> forallb (fun c => value_parses (str_of_cell repr c)) text = true)
  /\ forall e, extract_features repr text = Raise e ->
       exists c g,
         In c text
         /\ Re.extract value_regex (str_of_cell repr c) = Some g
         /\ float_of_text g = None
         /\ e = ValueError g.
Proof.
  split; [apply extract_features_returns_iff | apply extract_features_Raise].
Qed.

(** X3: rows are handled independently and in order: the features of two
    series put end to end are the features of the first followed by those
    of the second, and an error of the first comes before one of the
    second. *)
Theorem extraction_of_append (a b : series) :
  extract_features repr (a ++ b)
  = match extract_features repr a with
    | Raise e => Raise e
    | Ok (p1, v1, u1) =>
        match extract_features repr b with
        | Raise e => Raise e
        | Ok (p2, v2, u2) => Ok (p1 ++ p2, v1 ++ v2, u1 ++ u2)
        end
    end.
Proof.
  unfold extract_features.
  destruct (pack_sizes_convert a) as (pa & Ha).
  destruct (pack_sizes_convert b) as (pb & Hb).
  unfold astype_float, astype_str, str_extract, fillna, str_strip, str_lower in *.
  rewrite !map_app, !mapM_app, Ha, Hb. cbn [bind].
  repeat match goal with
         | |- context [mapM float_of_cell ?l] =>
             destruct (mapM float_of_cell l); cbn [bind]
         end; reflexivity.
Qed.

(** ** Imputation after extraction *)

Lemma fillna_without_missing (value : cell) (s : series) :
  Forall (fun c => c <> NaN) s -> fillna value s = s.
Proof.
  unfold fillna. induction 1 as [|c s Hc _ IH]; simpl; [reflexivity|].
  rewrite IH. now destruct c.
Qed.

Lemma extracted_without_missing (text packs values units : series) :
  extract_features repr text = Ok (packs, values, units) ->
  Forall (fun c => c <> NaN) packs /\ Forall (fun c => c <> NaN) values.
Proof.
  intros H. apply extract_features_rows in H.
  destruct H as (Lp & Lv & _ & Hrow).
  split; apply Forall_forall; intros c Hc; apply In_nth_error in Hc;
    destruct Hc as (i & Hi).
  - assert (Hlt : i < List.length text)
      by (rewrite <- Lp; apply nth_error_Some; congruence).
    destruct (nth_error text i) as [t|] eqn:Ht;
      [|apply nth_error_None in Ht; lia].
    destruct (Hrow i t Ht) as (p & v & u & _ & Hp & _ & _ & Np & _). congruence.
  - assert (Hlt : i < List.length text)
      by (rewrite <- Lv; apply nth_error_Some; congruence).
    destruct (nth_error text i) as [t|] eqn:Ht;
      [|apply nth_error_None in Ht; lia].
    destruct (Hrow i t Ht) as (p & v & u & _ & _ & Hv & _ & _ & Nv). congruence.
Qed.

(** X9: after extraction nothing is missing, so the filling changes
    nothing: whatever medians are given, [create_feature_df] returns the
    table [encode_features] builds, the measures 0 and pack sizes 1 that
    stand for "not found" included. *)
Theorem imputation_changes_nothing
    (df out : frame) (given_m given_p : option cell) (mm mp : cell) :
  create_feature_df repr df given_m given_p = Ok (out, mm, mp) ->
  encode_features repr df = Ok out
  /\ forall other_m other_p,
       exists mm' mp',
         create_feature_df repr df other_m other_p = Ok (out, mm', mp').
Proof.
  intros H.
  assert (Henc : encode_features repr df = Ok out).
  { pose proof (create_feature_df_Ok _ _ _ _ _ _ H)
      as (text & packs & values & units & Ht & Hx & _ & _ & ->).
    unfold create_feature_df, create_feature_df_with in H.
    change (encode_features_with (extract_features repr))
      with (encode_features repr) in H.
    destruct (encode_features repr df) as [features_df|] eqn:He; [|discriminate].
    apply encode_features_Ok in He.
    destruct He as (text' & packs' & values' & units' & Ht' & Hx' & ->).
    rewrite Ht in Ht'. injection Ht' as <-.
    rewrite Hx in Hx'. injection Hx' as <- <- <-.
    destruct (extracted_without_missing _ _ _ _ Hx) as [Np Nv].
    now rewrite !fillna_without_missing. }
  split; [exact Henc|].
  intros other_m other_p.
  pose proof (create_feature_df_Ok _ _ _ _ _ _ H)
    as (text & packs & values & units & Ht & Hx & _ & _ & ->).
  assert (Hv : forallb (fun c => value_parses (str_of_cell repr c)) text = true)
    by (apply extract_features_returns_iff; eexists; exact Hx).
  destruct (create_feature_df_returns df other_m other_p text Ht Hv)
    as (out' & mm' & mp' & H').
  exists mm', mp'. rewrite H'. do 2 f_equal. f_equal.
  pose proof (create_feature_df_Ok _ _ _ _ _ _ H')
    as (text' & packs' & values' & units' & Ht' & Hx' & _ & _ & ->).
  rewrite Ht in Ht'. injection Ht' as <-.
  rewrite Hx in Hx'. injection Hx' as <- <- <-.
  destruct (extracted_without_missing _ _ _ _ Hx) as [Np Nv].
  now rewrite !fillna_without_missing.
Qed.

(** X18: a text that holds none of the key words "pack", "count",
    "per case", "value:" and "unit:", in any case, gives pack size 1,
    measure 0 and the unit "unknown". *)
Theorem keyword_free_defaults (text : string) :
  occurs_ci "pack" text = false ->
  occurs_ci "count" text = false ->
  occurs_ci "per case" text = false ->
  occurs_ci "value:" text = false ->
  occurs_ci "unit:" text = false ->
  extract_features repr [Str text] = Ok ([Num 1], [Num 0], [Str "unknown"]).
Proof.
  intros H1 H2 H3 H4 H5.
  destruct (keyword_free_no_markers text H1 H2 H3 H4 H5) as (Hp & Hv & Hu).
  rewrite extract_features_one.
  rewrite (extract_none _ _ Hp), (extract_none _ _ Hv), (extract_none _ _ Hu).
  reflexivity.
Qed.

(** ** What the extracted columns hold *)

Lemma mapM_In {A B} (f : A -> result B) (l : list A) (l' : list B) (b : B) :
  mapM f l = Ok l' -> In b l' -> exists a, In a l /\ f a = Ok b.
Proof.
  revert l'. induction l as [|a l IH]; intros l' H Hb; simpl in H.
  - injection H as <-. contradiction.
  - destruct (f a) as [y|] eqn:Hy; [|discriminate]. cbn [bind] in H.
    destruct (mapM f l) as [ys|]; [|discriminate]. cbn [bind] in H.
    injection H as <-. destruct Hb as [<- | Hb].
    + exists a. split; [now left | exact Hy].
    + destruct (IH ys eq_refl Hb) as (x & Hx & Hfx).
      exists x. split; [now right | exact Hfx].
Qed.

Lemma span_digits_nonneg (s : string) :
  forall acc n v k rest,
    (0 <= acc)%Z -> span_digits s acc n = (v, k, rest) -> (0 <= v)%Z.
Proof.
  induction s as [|c s IH]; intros acc n v k rest Hacc H; cbn [span_digits] in H.
  - injection H as <- _ _. exact Hacc.
  - destruct (Chars.is_digit c) eqn:Hc.
    + apply IH in H; [exact H|].
      unfold Chars.is_digit, Chars.in_range in Hc.
      apply andb_prop in Hc. destruct Hc as [Hlo _].
      apply N.leb_le in Hlo. lia.
    + injection H as <- _ _. exact Hacc.
Qed.

(** The text of a number denotes a number that is not negative. *)
Lemma float_of_text_nonneg (s : string) (q : Q) :
  float_of_text s = Some q -> (0 <= q)%Q.
Proof.
  unfold float_of_text.
  destruct (span_digits s 0%Z 0) as [[i ni] rest] eqn:Hi.
  assert (Hi0 : (0 <= i)%Z) by (eapply span_digits_nonneg; [|exact Hi]; lia).
  destruct rest as [|c rest'].
  - destruct (Nat.eqb ni 0); [discriminate|]. intros [= <-].
    unfold Qle, inject_Z. simpl. lia.
  - destruct (Ascii.eqb c ".") eqn:Hc.
    + apply Ascii.eqb_eq in Hc. subst c.
      destruct (span_digits rest' 0%Z 0) as [[f nf] rest''] eqn:Hf.
      assert (Hf0 : (0 <= f)%Z) by (eapply span_digits_nonneg; [|exact Hf]; lia).
      destruct rest''; [|discriminate].
      destruct (Nat.eqb (ni + nf) 0); [discriminate|]. intros [= <-].
      change (0 <= Qred ((i * 10 ^ Z.of_nat nf + f) # Z.to_pos (10 ^ Z.of_nat nf)))%Q.
      rewrite Qred_correct. unfold Qle. simpl.
      assert (0 <= 10 ^ Z.of_nat nf)%Z by (apply Z.pow_nonneg; lia).
      nia.
    + intros H. exfalso. revert H.
      destruct c as [[] [] [] [] [] [] [] []]; discriminate.
Qed.

(** A non-empty run of digits denotes a whole number. *)
Lemma float_of_digits_whole (s : string) :
  Str.all Chars.is_digit s = true -> s <> "" ->
  exists z, (0 <= z)%Z /\ float_of_text s = Some (inject_Z z).
Proof.
  intros H Hne. unfold float_of_text.
  destruct (span_digits_all s H 0%Z 0) as (v & E). rewrite E.
  exists v. split; [eapply span_digits_nonneg; [|exact E]; lia|].
  destruct s as [|c s]; [congruence | reflexivity].
Qed.

Lemma pack_extract_whole (t g : string) :
  Re.extract pack_regex t = Some g ->
  exists z, (0 <= z)%Z /\ float_of_text g = Some (inject_Z z).
Proof.
  unfold Re.extract.
  destruct (Re.search pack_regex t) as [[[cap|] rest]|] eqn:Hs; try discriminate.
  intros [= <-]. apply search_sound in Hs. destruct Hs as (pre & m & _ & M).
  apply pack_regex_capture in M. destruct M as (cap' & [= <-] & Hd & Hne).
  now apply float_of_digits_whole.
Qed.

Lemma extracted_columns_shape_aux (text packs values units : series) :
  extract_features repr text = Ok (packs, values, units) ->
  List.length packs = List.length text
  /\ List.length values = List.length text
  /\ Forall (fun c => exists z, (0 <= z)%Z /\ c = Num (inject_Z z)) packs
  /\ Forall (fun c => exists q, (0 <= q)%Q /\ c = Num q) values.
Proof.
  intros H. pose proof (extract_features_rows _ _ _ _ H) as (Lp & Lv & Lu & _).
  split; [exact Lp|]. split; [exact Lv|]. split.
  - unfold extract_features, astype_float in H.
    destruct (mapM float_of_cell
                (fillna (Num 1) (str_extract pack_regex (astype_str repr text))))
      as [ps|] eqn:Hp; [|discriminate].
    cbn [bind] in H.
    destruct (mapM float_of_cell
                (fillna (Num 0) (str_extract value_regex (astype_str repr text))))
      as [vs|]; [|discriminate].
    cbn [bind] in H. injection H as <- _ _.
    apply Forall_forall. intros b Hb.
    destruct (mapM_In _ _ _ _ Hp Hb) as (a & Ha & Hfa).
    unfold fillna, str_extract, astype_str in Ha. rewrite !map_map in Ha.
    apply in_map_iff in Ha. destruct Ha as (c & <- & _).
    destruct (Re.extract pack_regex (str_of_cell repr c)) as [g|] eqn:E.
    + destruct (pack_extract_whole _ _ E) as (z & Hz & Hq).
      cbn in Hfa. rewrite Hq in Hfa. injection Hfa as <-. now exists z.
    + cbn in Hfa. injection Hfa as <-. exists 1%Z. split; [lia | reflexivity].
  - unfold extract_features, astype_float in H.
    destruct (mapM float_of_cell
                (fillna (Num 1) (str_extract pack_regex (astype_str repr text))))
      as [ps|]; [|discriminate].
    cbn [bind] in H.
    destruct (mapM float_of_cell
                (fillna (Num 0) (str_extract value_regex (astype_str repr text))))
      as [vs|] eqn:Hv; [|discriminate].
    cbn [bind] in H. injection H as _ <- _.
    apply Forall_forall. intros b Hb.
    destruct (mapM_In _ _ _ _ Hv Hb) as (a & Ha & Hfa).
    unfold fillna, str_extract, astype_str in Ha. rewrite !map_map in Ha.
    apply in_map_iff in Ha. destruct Ha as (c & <- & _).
    destruct (Re.extract value_regex (str_of_cell repr c)) as [g|] eqn:E.
    + cbn in Hfa. destruct (float_of_text g) as [q|] eqn:Hq; [|discriminate].
      injection Hfa as <-. exists q. split; [|reflexivity].
      eapply float_of_text_nonneg, Hq.
    + cbn in Hfa. injection Hfa as <-. exists 0%Q. split; [|reflexivity].
      unfold Qle. simpl. lia.
Qed.

Lemma span_digits_bound (s : string) :
  forall acc n v k rest,
    (0 <= acc)%Z -> span_digits s acc n = (v, k, rest) ->
    (v < (acc + 1) * 10 ^ Z.of_nat (k - n))%Z
    /\ n <= k
    /\ String.length s = (k - n) + String.length rest.
Proof.
  induction s as [|c s IH]; intros acc n v k rest Hacc H; cbn [span_digits] in H.
  - injection H as <- <- <-. rewrite Nat.sub_diag. cbn. repeat split; lia.
  - destruct (Chars.is_digit c) eqn:Hc.
    + unfold Chars.is_digit, Chars.in_range in Hc.
      apply andb_prop in Hc. destruct Hc as [Hlo Hhi].
      apply N.leb_le in Hlo, Hhi.
      apply IH in H; [|lia]. destruct H as (Hv & Hk & Hl).
      split; [|split; [lia | cbn [String.length]; lia]].
      replace (Z.of_nat (k - n)) with (Z.succ (Z.of_nat (k - S n))) by lia.
      rewrite Z.pow_succ_r by lia.
      assert (Hp : (0 < 10 ^ Z.of_nat (k - S n))%Z) by (apply Z.pow_pos_nonneg; lia).
      nia.
    + injection H as <- <- <-. rewrite Nat.sub_diag. cbn. repeat split; lia.
Qed.

(** The number a text of [n] characters denotes is below [10 ^ n]. *)
Lemma float_of_text_bound (s : string) (q : Q) (limit : nat) :
  float_of_text s = Some q -> String.length s <= limit ->
  (q < inject_Z (10 ^ Z.of_nat limit))%Q.
Proof.
  unfold float_of_text. intros H Hlen.
  destruct (span_digits s 0%Z 0) as [[i ni] rest] eqn:Hi.
  destruct (span_digits_bound _ _ _ _ _ _ (Z.le_refl 0) Hi) as (Bi & _ & Li).
  rewrite Nat.sub_0_r in Bi, Li. rewrite Z.add_0_l, Z.mul_1_l in Bi.
  assert (Hmono : forall a b : nat, a <= b -> (10 ^ Z.of_nat a <= 10 ^ Z.of_nat b)%Z)
    by (intros a b Hab; apply Z.pow_le_mono_r; lia).
  destruct rest as [|c rest'].
  - destruct (Nat.eqb ni 0); [discriminate|]. injection H as <-.
    unfold Qlt, inject_Z. cbn [Qnum Qden]. rewrite !Z.mul_1_r.
    cbn [String.length] in Li.
    pose proof (Hmono ni limit ltac:(lia)). lia.
  - destruct (Ascii.eqb c ".") eqn:Hc.
    + apply Ascii.eqb_eq in Hc. subst c.
      destruct (span_digits rest' 0%Z 0) as [[f nf] rest''] eqn:Hf.
      destruct (span_digits_bound _ _ _ _ _ _ (Z.le_refl 0) Hf) as (Bf & _ & Lf).
      rewrite Nat.sub_0_r in Bf, Lf. rewrite Z.add_0_l, Z.mul_1_l in Bf.
      destruct rest''; [|discriminate].
      destruct (Nat.eqb (ni + nf) 0); [discriminate|]. injection H as <-.
      change (Qred ((i * 10 ^ Z.of_nat nf + f) # Z.to_pos (10 ^ Z.of_nat nf))
              < inject_Z (10 ^ Z.of_nat limit))%Q.
      rewrite Qred_correct. unfold Qlt, inject_Z. cbn [Qnum Qden].
      assert (Hp : (0 < 10 ^ Z.of_nat nf)%Z) by (apply Z.pow_pos_nonneg; lia).
      rewrite Z2Pos.id by exact Hp. rewrite Z.mul_1_r.
      cbn [String.length] in Li.
      pose proof (Hmono ni limit ltac:(lia)). nia.
    + exfalso. revert H.
      destruct c as [[] [] [] [] [] [] [] []]; discriminate.
Qed.

(** X2: the three series [extract_features] returns are as long as its
    input.  Where no capture of the pack or value pattern is longer than
    fifteen characters, every pack size is a whole number and every
    measure a number from 0 up to, and not including, [10 ^ 15]: no cell
    is missing, none is negative, since neither pattern can capture a
    sign, and none is out of the range in which a float holds every
    whole number exactly. *)
Theorem extracted_columns_shape (text packs values units : series) :
  extract_features repr text = Ok (packs, values, units) ->
  forallb (fun c => short_captures 15 (str_of_cell repr c)) text = true ->
  List.length packs = List.length text
  /\ List.length values = List.length text
  /\ List.length units = List.length text
  /\ Forall (fun c => exists z, (0 <= z < 10 ^ 15)%Z /\ c = Num (inject_Z z)) packs
  /\ Forall (fun c => exists q, (0 <= q)%Q /\ (q < inject_Z (10 ^ 15))%Q /\ c = Num q)
            values.
Proof.
  intros H Hshort.
  pose proof (extract_features_rows _ _ _ _ H) as (Lp & Lv & Lu & _).
  split; [exact Lp|]. split; [exact Lv|]. split; [exact Lu|].
  rewrite forallb_forall in Hshort.
  unfold extract_features, astype_float in H.
  destruct (mapM float_of_cell
              (fillna (Num 1) (str_extract pack_regex (astype_str repr text))))
    as [ps|] eqn:Hp; [|discriminate].
  cbn [bind] in H.
  destruct (mapM float_of_cell
              (fillna (Num 0) (str_extract value_regex (astype_str repr text))))
    as [vs|] eqn:Hv; [|discriminate].
  cbn [bind] in H. injection H as <- <- _.
  split; apply Forall_forall; intros b Hb.
  - destruct (mapM_In _ _ _ _ Hp Hb) as (a & Ha & Hfa).
    unfold fillna, str_extract, astype_str in Ha. rewrite !map_map in Ha.
    apply in_map_iff in Ha. destruct Ha as (c & <- & Hc).
    specialize (Hshort c Hc). unfold short_captures in Hshort.
    apply andb_prop in Hshort. destruct Hshort as [Hs _].
    destruct (Re.extract pack_regex (str_of_cell repr c)) as [g|] eqn:E.
    + apply Nat.leb_le in Hs.
      destruct (pack_extract_whole _ _ E) as (z & Hz & Hq).
      pose proof (float_of_text_bound _ _ _ Hq Hs) as Hb'.
      cbn in Hfa. rewrite Hq in Hfa. injection Hfa as <-. exists z.
      split; [|reflexivity]. split; [exact Hz|].
      unfold Qlt, inject_Z in Hb'. cbn [Qnum Qden] in Hb'.
      rewrite !Z.mul_1_r in Hb'. exact Hb'.
    + cbn in Hfa. injection Hfa as <-. exists 1%Z.
      split; [split; [lia | reflexivity] | reflexivity].
  - destruct (mapM_In _ _ _ _ Hv Hb) as (a & Ha & Hfa).
    unfold fillna, str_extract, astype_str in Ha. rewrite !map_map in Ha.
    apply in_map_iff in Ha. destruct Ha as (c & <- & Hc).
    specialize (Hshort c Hc). unfold short_captures in Hshort.
    apply andb_prop in Hshort. destruct Hshort as [_ Hs].
    destruct (Re.extract value_regex (str_of_cell repr c)) as [g|] eqn:E.
    + apply Nat.leb_le in Hs.
      cbn in Hfa. destruct (float_of_text g) as [q|] eqn:Hq; [|discriminate].
      injection Hfa as <-. exists q.
      split; [eapply float_of_text_nonneg, Hq|].
      split; [exact (float_of_text_bound _ _ _ Hq Hs) | reflexivity].
    + cbn in Hfa. injection Hfa as <-. exists 0%Q.
      split; [unfold Qle; simpl; lia|]. split; [reflexivity | reflexivity].
Qed.

(** ** Unit tokens are in normal form *)

Lemma lower_lower (c : ascii) : Chars.lower (Chars.lower c) = Chars.lower c.
Proof. destruct c as [[] [] [] [] [] [] [] []]; reflexivity. Qed.

Lemma is_space_lower (c : ascii) : Chars.is_space (Chars.lower c) = Chars.is_space c.
Proof. destruct c as [[] [] [] [] [] [] [] []]; reflexivity. Qed.

Lemma lower_idempotent (s : string) : Str.lower (Str.lower s) = Str.lower s.
Proof.
  unfold Str.lower. induction s as [|c s IH]; simpl; [reflexivity|].
  now rewrite lower_lower, IH.
Qed.

Lemma lstrip_lower (s : string) : Str.lstrip (Str.lower s) = Str.lower (Str.lstrip s).
Proof.
  unfold Str.lower. induction s as [|c s IH]; simpl; [reflexivity|].
  rewrite is_space_lower. destruct (Chars.is_space c); [exact IH | reflexivity].
Qed.

Lemma rstrip_lower (s : string) : Str.rstrip (Str.lower s) = Str.lower (Str.rstrip s).
Proof.
  unfold Str.lower. induction s as [|c s IH]; simpl; [reflexivity|].
  rewrite IH, is_space_lower.
  destruct (Str.rstrip s); simpl; [destruct (Chars.is_space c)|]; reflexivity.
Qed.

Lemma rstrip_idempotent (s : string) : Str.rstrip (Str.rstrip s) = Str.rstrip s.
Proof.
  induction s as [|c s IH]; simpl; [reflexivity|].
  destruct (Str.rstrip s) as [|d r] eqn:E.
  - destruct (Chars.is_space c) eqn:Hc; simpl; [reflexivity | now rewrite Hc].
  - cbn [Str.rstrip]. cbn [Str.rstrip] in IH. now rewrite IH.
Qed.

Lemma lstrip_rstrip_lstrip (s : string) :
  Str.lstrip (Str.rstrip (Str.lstrip s)) = Str.rstrip (Str.lstrip s).
Proof.
  induction s as [|c s IH]; simpl; [reflexivity|].
  destruct (Chars.is_space c) eqn:Hc; [exact IH|].
  cbn [Str.rstrip]. destruct (Str.rstrip s); rewrite ?Hc; cbn [Str.lstrip];
    rewrite ?Hc; reflexivity.
Qed.

Lemma strip_idempotent (s : string) : Str.strip (Str.strip s) = Str.strip s.
Proof.
  unfold Str.strip. now rewrite lstrip_rstrip_lstrip, rstrip_idempotent.
Qed.

Lemma strip_lower (s : string) : Str.strip (Str.lower s) = Str.lower (Str.strip s).
Proof. unfold Str.strip. now rewrite lstrip_lower, rstrip_lower. Qed.

(** X4: every unit token [extract_features] returns is a text, never a
    missing value, and it is in normal form: stripping it or lowercasing
    it again changes nothing. *)
Theorem unit_tokens_normalised (text packs values units : series) :
  extract_features repr text = Ok (packs, values, units) ->
  Forall (fun c => exists token,
            c = Str token
            /\ Str.strip token = token
            /\ Str.lower token = token) units.
Proof.
  unfold extract_features. intros H.
  destruct (astype_float _) as [ps|] in H; [|discriminate]. cbn [bind] in H.
  destruct (astype_float _) as [vs|] in H; [|discriminate]. cbn [bind] in H.
  injection H as _ _ <-.
  unfold str_lower, str_strip, fillna, str_extract, astype_str.
  rewrite !map_map. apply Forall_forall. intros c Hc.
  apply in_map_iff in Hc. destruct Hc as (c0 & <- & _).
  destruct (Re.extract unit_regex (str_of_cell repr c0)) as [g|].
  - exists (Str.lower (Str.strip g)). split; [reflexivity|]. split.
    + now rewrite strip_lower, strip_idempotent.
    + apply lower_idempotent.
  - exists "unknown". now repeat split.
Qed.

(** ** The medians *)

Lemma sorted_length (l : list Q) : List.length (QSort.sort l) = List.length l.
Proof. symmetry. apply Permutation.Permutation_length, QSort.Permuted_sort. Qed.

(** The median of a column with a number in it is a number. *)
Lemma median_defined (s : series) :
  numbers s <> [] -> exists q, median s = Num q.
Proof.
  intros H. unfold median. rewrite sorted_length.
  destruct (numbers s) as [|x l]; [congruence|]. cbn [List.length Nat.eqb].
  destruct (Nat.odd (S (List.length l))); now eexists.
Qed.

Lemma fillna_number (q : Q) (s : series) :
  Forall (fun c => c <> NaN) (fillna (Num q) s).
Proof.
  unfold fillna. apply Forall_forall. intros c Hc.
  apply in_map_iff in Hc. destruct Hc as (c0 & <- & _).
  destruct c0; discriminate.
Qed.

Lemma names_setitem_present (label : string) (col : series) (df : frame) :
  has_column label df = true -> names (setitem label col df) = names df.
Proof.
  intros H. unfold setitem. rewrite H. unfold names. rewrite map_map.
  apply map_ext_in. intros [n c] _. cbn [fst].
  destruct (n =? label)%string eqn:E; [|reflexivity].
  apply String.eqb_eq in E. now subst.
Qed.

Lemma numbers_In (s : series) (q : Q) : In q (numbers s) <-> In (Num q) s.
Proof.
  induction s as [|c s IH]; simpl; [reflexivity|].
  destruct c as [t|p| |b]; simpl; rewrite IH; split;
    try (intros [H | H]; [discriminate | exact H]); try (intros H; now right).
  - intros [-> | H]; [now left | now right].
  - intros [[= ->] | H]; [now left | now right].
Qed.

(** The median of numbers that are not negative is not negative. *)
Lemma median_nonneg (s : series) (q : Q) :
  (forall x, In (Num x) s -> (0 <= x)%Q) -> median s = Num q -> (0 <= q)%Q.
Proof.
  intros Hs. unfold median.
  assert (Hx : forall x, In x (QSort.sort (numbers s)) -> (0 <= x)%Q).
  { intros x Hin. apply Hs, numbers_In.
    eapply Permutation.Permutation_in; [|exact Hin].
    apply Permutation.Permutation_sym, QSort.Permuted_sort. }
  assert (Hnth : forall k, (0 <= nth k (QSort.sort (numbers s)) 0)%Q).
  { intros k. destruct (nth_in_or_default k (QSort.sort (numbers s)) 0%Q) as [H | ->].
    - now apply Hx.
    - apply Qle_refl. }
  destruct (Nat.eqb _ 0); [discriminate|].
  destruct (Nat.odd _); [intros [= <-]; apply Hnth|].
  intros E.
  apply (f_equal (fun c => match c with Num x => x | _ => 0%Q end)) in E.
  cbv beta iota in E. rewrite <- E.
  rewrite Qred_correct. unfold Qdiv. apply Qmult_le_0_compat.
  - change 0%Q with (0 + 0)%Q at 1. apply Qplus_le_compat; apply Hnth.
  - unfold Qle. simpl. lia.
Qed.

(** X10: with no statistics given, [create_feature_df] returns medians
    that are numbers, and not negative, as soon as the table has a row;
    for a table without rows both are [NaN]. *)
Theorem medians_defined_with_rows
    (df out : frame) (mm mp : cell) (text : series) :
  create_feature_df repr df None None = Ok (out, mm, mp) ->
  lookup "catalog_content" df = Some text ->
  (text = [] -> mm = NaN /\ mp = NaN)
  /\ (text <> [] ->
      exists qm qp, mm = Num qm /\ mp = Num qp /\ (0 <= qm)%Q /\ (0 <= qp)%Q).
Proof.
  intros H Ht. apply create_feature_df_Ok in H.
  destruct H as (text' & packs & values & units & Ht' & Hx & -> & -> & _).
  rewrite Ht in Ht'. injection Ht' as <-.
  pose proof (extracted_columns_shape_aux text packs values units Hx)
    as (Lp & Lv & Fp & Fv).
  split.
  - intros ->. destruct packs; [|discriminate]. destruct values; [|discriminate].
    now split.
  - intros Hne.
    assert (Np : numbers packs <> []).
    { destruct packs as [|c l]; [destruct text; [congruence | discriminate]|].
      inversion Fp as [|? ? (z & _ & ->) _]. discriminate. }
    assert (Nv : numbers values <> []).
    { destruct values as [|c l]; [destruct text; [congruence | discriminate]|].
      inversion Fv as [|? ? (q & _ & ->) _]. discriminate. }
    destruct (median_defined values Nv) as (qm & Hm).
    destruct (median_defined packs Np) as (qp & Hp).
    exists qm, qp. split; [exact Hm|]. split; [exact Hp|]. split.
    + apply (median_nonneg values); [|exact Hm]. intros x Hin.
      rewrite Forall_forall in Fv. destruct (Fv _ Hin) as (q & Hq & [= ->]). exact Hq.
    + apply (median_nonneg packs); [|exact Hp]. intros x Hin.
      rewrite Forall_forall in Fp. destruct (Fp _ Hin) as (z & Hz & [= ->]).
      unfold Qle, inject_Z. simpl. lia.
Qed.

(** ** How loading ends *)

(** X16: whatever [read_csv] raises, on either file, is caught: the run
    ends with [sys.exit()] after the four lines of the handler, the second
    of which carries the text of the exception; no line reports a loaded
    file, even when the train file was read. *)
Theorem load_failure_is_caught (read_csv : string -> result frame) (e : exn) :
  read_csv TRAIN_FILE_PATH = Raise e
  \/ (exists train_df, read_csv TRAIN_FILE_PATH = Ok train_df
                       /\ read_csv TEST_FILE_PATH = Raise e) ->
  load read_csv
  = (SystemExit,
     [Print "CSV field size limit set.";
      Print (nl ++ nl ++ "*** CRITICAL ERROR LOADING CSV ***");
      Print ("Error: " ++ str_of_exn e);
      Print "This likely means your .csv files are corrupt or incomplete.";
      Print "Please place your full CSV files in 'data/raw' and run again."]).
Proof.
  intros [Htrain | (train_df & Htrain & Htest)]; unfold load.
  - rewrite Htrain. reflexivity.
  - rewrite Htrain, Htest. reflexivity.
Qed.

(** X15: once both files are read, loading hands the two tables on
    exactly when train has at least 75,000 rows, and ends with
    [sys.exit()] exactly when it has fewer: 75,000 rows pass. *)
Theorem row_count_boundary (read_csv : string -> result frame) (train_df test_df : frame) :
  read_csv TRAIN_FILE_PATH = Ok train_df ->
  read_csv TEST_FILE_PATH = Ok test_df ->
  (fst (load read_csv) = Return (train_df, test_df)
   <-> (75000 <= N.of_nat (len train_df))%N)
  /\ (fst (load read_csv) = SystemExit
      <-> (N.of_nat (len train_df) < 75000)%N).
Proof.
  intros Htrain Htest. unfold load. rewrite Htrain, Htest.
  cbn [lift ret and_then print try_except app].
  destruct (N.of_nat (len train_df) <? 75000)%N eqn:E.
  - apply N.ltb_lt in E. cbn. split; split; intros H;
      try discriminate; try reflexivity; try exact E; lia.
  - apply N.ltb_ge in E. cbn. split; split; intros H;
      try discriminate; try reflexivity; try exact E; lia.
Qed.

(** ** How [prepare] ends *)

Lemma create_feature_df_Raise (df : frame) (given_m given_p : option cell) (e : exn) :
  create_feature_df repr df given_m given_p = Raise e ->
  (lookup "catalog_content" df = None /\ e = KeyError "catalog_content")
  \/ (exists text c g,
        lookup "catalog_content" df = Some text
        /\ In c text
        /\ Re.extract value_regex (str_of_cell repr c) = Some g
        /\ float_of_text g = None
        /\ e = ValueError g).
Proof.
  intros H.
  destruct (lookup "catalog_content" df) as [text|] eqn:Ht.
  - right. destruct (extract_features repr text) as [r|e'] eqn:Hx.
    + assert (Hv : forallb (fun c => value_parses (str_of_cell repr c)) text = true)
        by (apply extract_features_returns_iff; eexists; exact Hx).
      destruct (create_feature_df_returns df given_m given_p text Ht Hv)
        as (out & mm & mp & H').
      congruence.
    + unfold create_feature_df, create_feature_df_with,
        encode_features, encode_features_with, getitem in H.
      rewrite Ht in H. cbn [bind] in H. rewrite Hx in H. cbn [bind] in H.
      injection H as <-.
      destruct (extract_features_Raise _ _ Hx) as (c & g & Hc & Hg & Hf & ->).
      now exists text, c, g.
  - left.
    unfold create_feature_df, create_feature_df_with,
      encode_features, encode_features_with, getitem in H.
    rewrite Ht in H. cbn [bind] in H. injection H as <-. now split.
Qed.

Lemma np_log1p_Raise (price : series) (e : exn) :
  np_log1p log1p price = Raise e ->
  e = TypeError /\ exists t, In (Str t) price.
Proof.
  intros H. apply mapM_Raise in H. destruct H as (c & Hc & Hf).
  destruct c as [t| | |]; try discriminate.
  injection Hf as <-. split; [reflexivity | now exists t].
Qed.

(** X14: [prepare] never ends with [sys.exit()], and the only exceptions
    it lets out are the [KeyError] of a missing [catalog_content] or
    [price] column (raised by the subscript, with the label), the
    [KeyError] of [drop] on a missing [image_link] column (with the
    message of [drop]), the [ValueError] of a value capture that is not
    the text of a number, and the [TypeError] of a price column that
    holds text. *)
Theorem prepare_failure_modes
    (train_df test_df : frame) (o : ending (frame * frame)) (trace : list event) :
  prepare repr log1p train_df test_df = (o, trace) ->
  o <> SystemExit
  /\ forall e, o = Uncaught e ->
       e = KeyError "catalog_content"
       \/ (exists g, float_of_text g = None /\ e = ValueError g)
       \/ e = KeyError "['image_link'] not found in axis"
       \/ e = KeyError "price"
       \/ e = TypeError.
Proof.
  unfold prepare, prepare_with.
  change (create_feature_df_with (extract_features repr)) with (create_feature_df repr).
  assert (Hcreate : forall df a b e,
             create_feature_df repr df a b = Raise e ->
             e = KeyError "catalog_content"
             \/ (exists g, float_of_text g = None /\ e = ValueError g)
             \/ e = KeyError "['image_link'] not found in axis"
             \/ e = KeyError "price"
             \/ e = TypeError).
  { intros df a b e H. apply create_feature_df_Raise in H.
    destruct H as [[_ ->] | (text & c & g & _ & _ & _ & Hf & ->)];
      [now left | right; left; now exists g]. }
  destruct (create_feature_df repr train_df None None) as [[[f1 mm] mp]|e1] eqn:H1;
    cbn [and_then print lift ret app].
  2:{ intros [= <- <-]. split; [discriminate|]. intros e [= <-].
      now apply (Hcreate _ _ _ _ H1). }
  destruct (create_feature_df repr test_df (Some mm) (Some mp))
    as [[[f2 mm'] mp']|e2] eqn:H2; cbn [and_then print lift ret app].
  2:{ intros [= <- <-]. split; [discriminate|]. intros e [= <-].
      now apply (Hcreate _ _ _ _ H2). }
  destruct (align_inner f1 f2 (Num 0)) as [train_cols test_cols].
  cbn [and_then print lift ret app]. unfold drop.
  destruct (has_column "image_link" train_df); cbn [and_then print lift ret app].
  2:{ intros [= <- <-]. split; [discriminate|]. intros e [= <-].
      do 2 right. left. reflexivity. }
  destruct (has_column "image_link" test_df); cbn [and_then print lift ret app].
  2:{ intros [= <- <-]. split; [discriminate|]. intros e [= <-].
      do 2 right. left. reflexivity. }
  unfold getitem.
  destruct (lookup "price" _) as [price|]; cbn [and_then print lift ret app].
  2:{ intros [= <- <-]. split; [discriminate|]. intros e [= <-]. tauto. }
  destruct (np_log1p log1p price) as [log_price|e3] eqn:H3;
    cbn [and_then print lift ret app].
  2:{ intros [= <- <-]. split; [discriminate|]. intros e [= <-].
      apply np_log1p_Raise in H3. destruct H3 as [-> _]. tauto. }
  intros [= <- <-]. split; [discriminate|]. intros e. discriminate.
Qed.

Lemma prepare_Return_columns
    (train_df test_df train_final test_final : frame) (trace : list event) :
  prepare repr log1p train_df test_df = (Return (train_final, test_final), trace) ->
  has_column "image_link" train_df = true
  /\ has_column "image_link" test_df = true
  /\ exists price log_price,
       lookup "price" train_df = Some price
       /\ np_log1p log1p price = Ok log_price.
Proof.
  intros H. pose proof (prepare_Return _ _ _ _ _ H)
    as (f1 & f2 & mm & mp & mm' & mp' & price & log_price
        & H1 & H2 & Hprice & Hlog & _ & _).
  assert (Hp : lookup "price" train_df = Some price).
  { rewrite lookup_app, lookup_without_image_link in Hprice by discriminate.
    destruct (lookup "price" train_df) as [p|]; [exact Hprice|].
    apply lookup_In, align_inner_keeps in Hprice.
    destruct (created_labels _ _ _ _ _ _ _ _ H1 Hprice) as [E | [E | (lv & E)]];
      discriminate. }
  unfold prepare, prepare_with in H.
  change (create_feature_df_with (extract_features repr)) with (create_feature_df repr) in H. rewrite H1 in H. cbn [and_then print lift ret app] in H.
  rewrite H2 in H. cbn [and_then print lift ret app] in H.
  destruct (align_inner f1 f2 (Num 0)) as [train_cols test_cols].
  cbn [and_then print lift ret app] in H. unfold drop in H.
  destruct (has_column "image_link" train_df);
    cbn [and_then print lift ret app] in H; [|discriminate].
  destruct (has_column "image_link" test_df);
    cbn [and_then print lift ret app] in H; [|discriminate].
  repeat split. now exists price, log_price.
Qed.

(** [prepare] returns the two final tables exactly when both inputs
    have the text column and the image column, every value the pattern
    captures in either is the text of a number, and train has a price
    column that holds no text. *)
Lemma prepare_returns_iff (train_df test_df : frame) :
  (exists train_final test_final trace,
      prepare repr log1p train_df test_df = (Return (train_final, test_final), trace))
  <-> (exists text1 text2 price,
          lookup "catalog_content" train_df = Some text1
          /\ lookup "catalog_content" test_df = Some text2
          /\ forallb (fun c => value_parses (str_of_cell repr c)) text1 = true
          /\ forallb (fun c => value_parses (str_of_cell repr c)) text2 = true
          /\ has_column "image_link" train_df = true
          /\ has_column "image_link" test_df = true
          /\ lookup "price" train_df = Some price
          /\ forallb (fun c => match c with Str _ => false | _ => true end) price
             = true).
Proof.
  split.
  - intros (train_final & test_final & trace & H).
    destruct (prepare_Return_columns _ _ _ _ _ H)
      as (Hi1 & Hi2 & price & log_price & Hprice & Hlog).
    apply prepare_Return in H.
    destruct H as (f1 & f2 & mm & mp & mm' & mp' & _ & _ & H1 & H2 & _).
    apply create_feature_df_Ok in H1.
    destruct H1 as (text1 & p1 & v1 & u1 & Ht1 & Hx1 & _).
    apply create_feature_df_Ok in H2.
    destruct H2 as (text2 & p2 & v2 & u2 & Ht2 & Hx2 & _).
    exists text1, text2, price. repeat split; try assumption.
    + apply extract_features_returns_iff. eexists; exact Hx1.
    + apply extract_features_returns_iff. eexists; exact Hx2.
    + apply forallb_forall. intros c Hc.
      assert (Hall : exists l, np_log1p log1p price = Ok l) by now exists log_price.
      apply mapM_Ok_Forall in Hall. rewrite Forall_forall in Hall.
      destruct (Hall c Hc) as (y & Hy). destruct c; [discriminate | | |]; reflexivity.
  - intros (text1 & text2 & price & Ht1 & Ht2 & Hv1 & Hv2 & Hi1 & Hi2 & Hprice & Hnum).
    eapply prepare_returns; eassumption.
Qed.

(** ** Greedy and leftmost *)

Lemma many_not_nil (p : ascii -> bool) (s : string) : Re.many p s <> [].
Proof.
  destruct s as [|c s]; simpl; [discriminate|].
  destruct (p c); [|discriminate].
  intros H. apply app_eq_nil in H. now destruct H.
Qed.

(** The first way of a greedy run stops in front of a character that is
    not of the class. *)
Lemma many_head (p : ascii -> bool) (s t : string) :
  hd_error (Re.many p s) = Some t -> starts_in p t = false.
Proof.
  induction s as [|c s IH]; simpl.
  - now intros [= <-].
  - destruct (p c) eqn:Hc.
    + pose proof (many_not_nil p s) as Hne.
      destruct (Re.many p s) as [|x l]; [congruence|]. exact IH.
    + intros [= <-]. exact Hc.
Qed.

Lemma hd_error_map {A B} (g : A -> B) (l : list A) :
  hd_error (List.map g l) = option_map g (hd_error l).
Proof. destruct l; reflexivity. Qed.

Lemma hd_error_flat_map {A B} (f : A -> list B) (l : list A) (b : B) :
  hd_error (flat_map f l) = Some b ->
  exists a, In a l /\ hd_error (f a) = Some b.
Proof.
  induction l as [|a l IH]; simpl; [discriminate|].
  destruct (f a) as [|y ys] eqn:E; simpl.
  - intros H. destruct (IH H) as (x & Hx & Hb). exists x. split; [now right | exact Hb].
  - intros [= <-]. exists a. split; [now left | now rewrite E].
Qed.

(** The first way of [r1 r2] ends as the first way of [r2] does after
    some way of [r1]. *)
Lemma hd_Cat (ic : bool) (r1 r2 : regex) (s : string) (w : way) :
  hd_error (Re.run ic (Cat r1 r2) s) = Some w ->
  exists w1 w2,
    In w1 (Re.run ic r1 s)
    /\ hd_error (Re.run ic r2 (snd w1)) = Some w2
    /\ snd w = snd w2.
Proof.
  cbn [Re.run]. intros H. apply hd_error_flat_map in H.
  destruct H as (w1 & H1 & H). rewrite hd_error_map in H.
  destruct (hd_error (Re.run ic r2 (snd w1))) as [w2|] eqn:E; [|discriminate].
  injection H as <-. now exists w1, w2.
Qed.

Lemma hd_Group_Many1 (ic : bool) (cs : cset) (s : string) (w : way) :
  hd_error (Re.run ic (Group (Many1 cs)) s) = Some w ->
  starts_in (Re.mem ic cs) (snd w) = false.
Proof.
  cbn [Re.run]. rewrite hd_error_map.
  destruct s as [|c s]; [discriminate|].
  destruct (Re.mem ic cs c); [|discriminate].
  rewrite hd_error_map.
  destruct (hd_error (Re.many (Re.mem ic cs) s)) as [t|] eqn:E; [|discriminate].
  intros [= <-]. cbn [snd]. now apply many_head in E.
Qed.

(** A key, white space, and a captured run of a class: the capture of
    the match that is reported runs up to a character that is not of the
    class. *)
Lemma keyed_run_maximal (key : string) (cs : cset) (s : string) (w : way) :
  hd_error (Re.run true (Cat (lit key) (Cat (Many Space) (Group (Many1 cs)))) s)
  = Some w ->
  starts_in (Re.mem true cs) (snd w) = false.
Proof.
  intros H. apply hd_Cat in H. destruct H as (w1 & w2 & _ & H & ->).
  apply hd_Cat in H. destruct H as (w3 & w4 & _ & H & ->).
  now apply hd_Group_Many1 in H.
Qed.

(** The match [search] reports is the leftmost one. *)
Lemma search_leftmost (p : pattern) :
  forall s w, Re.search p s = Some w ->
  exists pre s',
    s = (pre ++ s')%string
    /\ Re.match_at p s' = Some w
    /\ forall a b, pre = (a ++ b)%string -> b <> "" ->
         Re.match_at p (b ++ s') = None.
Proof.
  induction s as [|c s IH]; intros w H; cbn [Re.search] in H.
  - destruct (Re.match_at p "") as [w'|] eqn:Hm; [|discriminate].
    injection H as <-. exists "", "". split; [reflexivity|]. split; [exact Hm|].
    intros a b E Hb. destruct a, b; try discriminate. congruence.
  - destruct (Re.match_at p (String c s)) as [w'|] eqn:Hm.
    + injection H as <-. exists "", (String c s).
      split; [reflexivity|]. split; [exact Hm|].
      intros a b E Hb. destruct a, b; try discriminate. congruence.
    + destruct (IH w H) as (pre & s' & -> & Hs' & Hleft).
      exists (String c pre), s'. split; [reflexivity|]. split; [exact Hs'|].
      intros a b E Hb. destruct a as [|x a].
      * cbn in E. subst b. exact Hm.
      * cbn in E. injection E as _ E. now apply (Hleft a b).
Qed.

Lemma mem_digit_or_dot (c : ascii) :
  Re.mem true (Union Digit (Lit ".")) c = is_digit_or_dot c.
Proof. destruct c as [[] [] [] [] [] [] [] []]; reflexivity. Qed.

Lemma all_ext (p q : ascii -> bool) (s : string) :
  (forall c, p c = q c) -> Str.all p s = Str.all q s.
Proof.
  intros H. induction s as [|c s IH]; simpl; [reflexivity|]. now rewrite H, IH.
Qed.

Lemma value_regex_parts (m : string) (g : option string) :
  Re.matches true (expr value_regex) m g ->
  exists key ws cap,
    m = (key ++ ws ++ cap)%string
    /\ Str.lower key = "value:"
    /\ Str.all Chars.is_space ws = true
    /\ cap <> ""
    /\ Str.all is_digit_or_dot cap = true
    /\ g = Some cap.
Proof.
  change (expr value_regex)
    with (Cat (lit "value:") (Cat (Many Space) (Group (Many1 (Union Digit (Lit ".")))))).
  intros H.
  inversion H as [| |r1 r2 key m' g1 g' Hkey H'| | | | | | |]; subst.
  inversion H' as [| |r1 r2 ws cap g2 g3 Hws Hcap| | | | | | |]; subst.
  inversion Hws; subst. inversion Hcap as [| | | | | | | | |r c g4 Hrun]; subst.
  inversion Hrun; subst.
  apply (lit_matches "value:") in Hkey. destruct Hkey as [-> Hkey].
  exists key, ws, cap. repeat split; try assumption.
  rewrite <- (all_ext _ _ cap mem_digit_or_dot). assumption.
Qed.

(** X5: the measure is read from the leftmost place where the value
    pattern matches, and the capture is the whole run of digits and dots
    there: the text reads [pre ++ key ++ ws ++ cap ++ rest] with [key]
    "value:" up to case, [ws] white space, [cap] a non-empty run of digits
    and dots that [rest] does not continue, and the pattern matches at no
    earlier position. *)
Theorem value_capture_leftmost_longest (text : string) (g : option string) (rest : string) :
  Re.search value_regex text = Some (g, rest) ->
  exists pre key ws cap,
    text = (pre ++ key ++ ws ++ cap ++ rest)%string
    /\ Str.lower key = "value:"
    /\ Str.all Chars.is_space ws = true
    /\ cap <> ""
    /\ Str.all is_digit_or_dot cap = true
    /\ g = Some cap
    /\ starts_in is_digit_or_dot rest = false
    /\ forall a b, pre = (a ++ b)%string -> b <> "" ->
         Re.match_at value_regex (b ++ key ++ ws ++ cap ++ rest) = None.
Proof.
  intros H. apply search_leftmost in H.
  destruct H as (pre & s' & -> & Hm & Hleft).
  pose proof (keyed_run_maximal "value:" (Union Digit (Lit ".")) s' (g, rest) Hm) as Hmax.
  unfold Re.match_at in Hm. apply hd_error_In in Hm. apply run_sound in Hm.
  destruct Hm as (m & -> & M). apply value_regex_parts in M.
  destruct M as (key & ws & cap & -> & Hkey & Hws & Hne & Hcap & ->).
  exists pre, key, ws, cap. rewrite !append_assoc in *.
  repeat split; try assumption.
  destruct rest as [|c rest]; [reflexivity|].
  cbn [starts_in snd] in *. now rewrite <- mem_digit_or_dot.
Qed.

(** X6: the unit is read from the leftmost place where the unit pattern
    matches, and its capture runs on to the first character that is
    neither a word character nor white space (or to the end of the text),
    so it can span several words; the pattern matches at no earlier
    position. *)
Theorem unit_capture_leftmost_longest (text : string) (g : option string) (rest : string) :
  Re.search unit_regex text = Some (g, rest) ->
  exists pre key ws cap,
    text = (pre ++ key ++ ws ++ cap ++ rest)%string
    /\ Str.lower key = "unit:"
    /\ Str.all Chars.is_space ws = true
    /\ cap <> ""
    /\ Str.all is_word_or_space cap = true
    /\ g = Some cap
    /\ starts_in is_word_or_space rest = false
    /\ forall a b, pre = (a ++ b)%string -> b <> "" ->
         Re.match_at unit_regex (b ++ key ++ ws ++ cap ++ rest) = None.
Proof.
  intros H. apply search_leftmost in H.
  destruct H as (pre & s' & -> & Hm & Hleft).
  pose proof (keyed_run_maximal "unit:" (Union Word Space) s' (g, rest) Hm) as Hmax.
  unfold Re.match_at in Hm. apply hd_error_In in Hm. apply run_sound in Hm.
  destruct Hm as (m & -> & M). apply unit_regex_matches in M.
  destruct M as (key & ws & cap & -> & Hkey & Hws & Hne & Hcap & ->).
  exists pre, key, ws, cap. rewrite !append_assoc in *.
  repeat split; try assumption.
Qed.

(** ** The pack pattern *)

Lemma hd_Cat_parts (ic : bool) (r1 r2 : regex) (s : string) (w : way) :
  hd_error (Re.run ic (Cat r1 r2) s) = Some w ->
  exists w1 w2 m1,
    s = (m1 ++ snd w1)%string
    /\ Re.matches ic r1 m1 (fst w1)
    /\ hd_error (Re.run ic r2 (snd w1)) = Some w2
    /\ w = (orelse (fst w2) (fst w1), snd w2).
Proof.
  cbn [Re.run]. intros H. apply hd_error_flat_map in H.
  destruct H as ([g1 s1] & H1 & H). rewrite hd_error_map in H.
  destruct (hd_error (Re.run ic r2 (snd (g1, s1)))) as [w2|] eqn:E; [|discriminate].
  injection H as <-. apply run_sound in H1. destruct H1 as (m1 & -> & M1).
  now exists (g1, s1), w2, m1.
Qed.

(** When [r2] always has a way, the first way of [r1 r2] starts with the
    first way of [r1]. *)
Lemma hd_Cat_first (ic : bool) (r1 r2 : regex) (s : string) (w : way) :
  (forall t, Re.run ic r2 t <> []) ->
  hd_error (Re.run ic (Cat r1 r2) s) = Some w ->
  exists w1 w2,
    hd_error (Re.run ic r1 s) = Some w1
    /\ hd_error (Re.run ic r2 (snd w1)) = Some w2
    /\ w = (orelse (fst w2) (fst w1), snd w2).
Proof.
  intros Htotal. cbn [Re.run].
  destruct (Re.run ic r1 s) as [|w1 l]; [discriminate|].
  cbn [flat_map]. specialize (Htotal (snd w1)).
  destruct (Re.run ic r2 (snd w1)) as [|w2 l2] eqn:E; [congruence|].
  cbn. intros [= <-]. exists w1, w2. rewrite E. now repeat split.
Qed.

Lemma qualifier_matches (key : string) (g : option string) :
  Re.matches true
    (Or (lit "pack of") (Or (lit "count") (Or (lit "per case") (lit "pack")))) key g ->
  g = None
  /\ (Str.lower key = "pack of" \/ Str.lower key = "count"
      \/ Str.lower key = "per case" \/ Str.lower key = "pack").
Proof.
  intros Hkey.
  inversion Hkey as [| | |r1 r2 m' g' H1|r1 r2 m' g' H1| | | | |]; subst.
  { apply (lit_matches "pack of") in H1. destruct H1 as [-> E]. auto. }
  inversion H1 as [| | |r1 r2 m' g' H2|r1 r2 m' g' H2| | | | |]; subst.
  { apply (lit_matches "count") in H2. destruct H2 as [-> E]. auto. }
  inversion H2 as [| | |r1 r2 m' g' H3|r1 r2 m' g' H3| | | | |]; subst.
  { apply (lit_matches "per case") in H3. destruct H3 as [-> E]. auto. }
  apply (lit_matches "pack") in H3. destruct H3 as [-> E]. auto.
Qed.

Lemma lower_is_paren (c x : ascii) :
  x = "("%char \/ x = ")"%char ->
  (Chars.lower c =? Chars.lower x)%char = true -> c = x.
Proof.
  intros [-> | ->] H; destruct c as [[] [] [] [] [] [] [] []];
    try discriminate H; reflexivity.
Qed.

Lemma optional_paren_matches (x : ascii) (m : string) (g : option string) :
  x = "("%char \/ x = ")"%char ->
  Re.matches true (Opt (Char (Lit x))) m g ->
  g = None /\ (m = "" \/ m = String x "").
Proof.
  intros Hx H. inversion H as [| | | | |r m' g' Hc|r| | |]; subst.
  - inversion Hc as [|cs c Hmem| | | | | | | |]; subst. cbn [Re.mem] in Hmem.
    apply (lower_is_paren c x Hx) in Hmem. subst. auto.
  - auto.
Qed.

(** X19: the pack size is read only from digits that follow a qualifier
    word.  Where the pack pattern is found, the text reads
    [pre ++ key ++ ws ++ open ++ cap ++ close ++ rest]: [key] is "pack of",
    "count", "per case" or "pack" up to case, [ws] is white space, [open]
    is empty or "(", [cap], the capture, is the whole run of digits there
    (what follows it is no digit), [close] is empty or ")"; and the
    pattern matches at no earlier position. *)
Theorem pack_capture_form (text : string) (g : option string) (rest : string) :
  Re.search pack_regex text = Some (g, rest) ->
  exists pre key ws open cap close,
    text = (pre ++ key ++ ws ++ open ++ cap ++ close ++ rest)%string
    /\ (Str.lower key = "pack of" \/ Str.lower key = "count"
        \/ Str.lower key = "per case" \/ Str.lower key = "pack")
    /\ Str.all Chars.is_space ws = true
    /\ (open = "" \/ open = "(")
    /\ cap <> ""
    /\ Str.all Chars.is_digit cap = true
    /\ (close = "" \/ close = ")")
    /\ g = Some cap
    /\ starts_in Chars.is_digit (close ++ rest) = false
    /\ forall a b, pre = (a ++ b)%string -> b <> "" ->
         Re.match_at pack_regex
           (b ++ key ++ ws ++ open ++ cap ++ close ++ rest) = None.
Proof.
  intros H. apply search_leftmost in H.
  destruct H as (pre & s' & -> & Hm & Hleft).
  unfold Re.match_at in Hm.
  change (expr pack_regex)
    with (Cat (Or (lit "pack of") (Or (lit "count") (Or (lit "per case") (lit "pack"))))
         (Cat (Many Space)
         (Cat (Opt (Char (Lit "(")))
         (Cat (Group (Many1 Digit)) (Opt (Char (Lit ")"))))))) in Hm.
  cbn [ignorecase pack_regex] in Hm.
  apply hd_Cat_parts in Hm.
  destruct Hm as (wa & w1 & key & -> & Mkey & Hm & [= -> ->]).
  apply hd_Cat_parts in Hm.
  destruct Hm as (wb & w2 & ws & Ews & Mws & Hm & ->).
  apply hd_Cat_parts in Hm.
  destruct Hm as (wc & w3 & op & Eop & Mop & Hm & ->).
  apply hd_Cat_first in Hm.
  2:{ intros t. cbn [Re.run]. intros E. apply app_eq_nil in E.
      destruct E as [_ E]. discriminate. }
  destruct Hm as ([gg tg] & [g4 t4] & Hg & Hcl & ->).
  destruct wa as [ga ta], wb as [gb tb], wc as [gc tc]. cbn [fst snd] in *.
  pose proof (hd_Group_Many1 _ _ _ _ Hg) as Hmax. cbn [snd] in Hmax.
  apply hd_error_In in Hg. apply run_sound in Hg.
  destruct Hg as (cap & Ecap & Mcap).
  apply hd_error_In in Hcl. apply run_sound in Hcl.
  destruct Hcl as (cl & Ecl & Mcl).
  apply qualifier_matches in Mkey. destruct Mkey as [-> Hkey].
  inversion Mws; subst.
  apply (optional_paren_matches "(") in Mop; [|now left].
  destruct Mop as [-> Hop].
  apply (optional_paren_matches ")") in Mcl; [|now right].
  destruct Mcl as [-> Hcl].
  inversion Mcap as [| | | | | | | | |r c g5 Hrun]; subst.
  inversion Hrun; subst.
  exists pre, key, ws, op, cap, cl. cbn [orelse].
  repeat split; assumption.
Qed.

(** ** The labels of a feature table *)

Lemma ascii_compare_refl (x : ascii) : Ascii.compare x x = Eq.
Proof. unfold Ascii.compare. apply N.compare_refl. Qed.

Lemma label_lt_irrefl (a : string) : ~ label_lt a a.
Proof.
  unfold label_lt. induction a as [|x a IH]; simpl; [discriminate|].
  now rewrite ascii_compare_refl.
Qed.

Lemma label_lt_trans (a b c : string) : label_lt a b -> label_lt b c -> label_lt a c.
Proof.
  unfold label_lt. revert b c.
  induction a as [|x a IH]; intros [|y b] [|z c]; simpl; try discriminate; trivial.
  destruct (Ascii.compare x y) eqn:Exy; try discriminate;
    destruct (Ascii.compare y z) eqn:Eyz; try discriminate; intros H1 H2.
  - apply Ascii.compare_eq_iff in Exy, Eyz. subst.
    rewrite ascii_compare_refl. now apply (IH b c).
  - apply Ascii.compare_eq_iff in Exy. subst. now rewrite Eyz.
  - apply Ascii.compare_eq_iff in Eyz. subst. now rewrite Exy.
  - unfold Ascii.compare in *. rewrite N.compare_lt_iff in *.
    assert (Hlt : (N_of_ascii x < N_of_ascii z)%N) by lia.
    apply N.compare_lt_iff in Hlt. now rewrite Hlt.
Qed.

Lemma In_insert_level (x y : string) (l : list string) :
  In x (insert_level y l) <-> x = y \/ In x l.
Proof.
  induction l as [|z l IH]; simpl; [intuition|].
  destruct (String.compare y z) eqn:E; simpl.
  - apply String.compare_eq_iff in E. subst. intuition.
  - intuition.
  - rewrite IH. intuition.
Qed.

(** The levels of a series are the texts that occur in it. *)
Lemma levels_In (t : string) (s : series) : In t (levels s) <-> In (Str t) s.
Proof.
  unfold levels. induction s as [|c s IH]; simpl; [reflexivity|].
  destruct c as [u|q| |b]; rewrite ?In_insert_level, IH; split;
    try (intros [H | H]; [discriminate | exact H]); try (intros H; now right).
  - intros [-> | H]; [now left | now right].
  - intros [[= ->] | H]; [now left | now right].
Qed.

Lemma insert_level_sorted (x : string) (l : list string) :
  StronglySorted label_lt l -> StronglySorted label_lt (insert_level x l).
Proof.
  induction 1 as [|y l Hs IH Hy]; simpl.
  - constructor; constructor.
  - destruct (String.compare x y) eqn:E.
    + now constructor.
    + constructor; [now constructor|]. constructor; [exact E|].
      eapply Forall_impl; [|exact Hy]. intros z Hz. now apply (label_lt_trans x y z).
    + constructor; [exact IH|]. apply Forall_forall. intros z Hz.
      apply In_insert_level in Hz. destruct Hz as [-> | Hz].
      * unfold label_lt. rewrite String.compare_antisym, E. reflexivity.
      * rewrite Forall_forall in Hy. now apply Hy.
Qed.

Lemma levels_sorted (s : series) : StronglySorted label_lt (levels s).
Proof.
  unfold levels. induction s as [|c s IH]; simpl; [constructor|].
  destruct c; try exact IH. now apply insert_level_sorted.
Qed.

Lemma sorted_NoDup (l : list string) : StronglySorted label_lt l -> NoDup l.
Proof.
  induction 1 as [|x l Hs IH Hx]; constructor; [|exact IH].
  intros Hin. rewrite Forall_forall in Hx. exact (label_lt_irrefl x (Hx x Hin)).
Qed.

Lemma unit_labels_sorted (l : list string) :
  StronglySorted label_lt l ->
  StronglySorted label_lt (List.map (String.append "unit_") l).
Proof.
  induction 1 as [|x l Hs IH Hx]; simpl; constructor; [exact IH|].
  apply Forall_forall. intros y Hy. apply in_map_iff in Hy.
  destruct Hy as (z & <- & Hz). rewrite Forall_forall in Hx. exact (Hx z Hz).
Qed.

(** X8: the labels of the table [create_feature_df] returns are in
    strictly increasing order, so no label occurs twice and the order is
    the same on every run: [pack_size], [total_measure], then one
    indicator for each unit token that occurs in the table, and for no
    other. *)
Theorem feature_labels_increasing
    (df out : frame) (given_m given_p : option cell) (mm mp : cell) :
  create_feature_df repr df given_m given_p = Ok (out, mm, mp) ->
  StronglySorted label_lt (names out)
  /\ NoDup (names out)
  /\ exists text packs values units,
       lookup "catalog_content" df = Some text
       /\ extract_features repr text = Ok (packs, values, units)
       /\ forall label,
            In label (names out)
            <-> label = "pack_size" \/ label = "total_measure"
                \/ exists token, label = ("unit_" ++ token)%string
                                 /\ In (Str token) units.
Proof.
  intros H. apply create_feature_df_Ok in H.
  destruct H as (text & packs & values & units & Ht & Hx & _ & _ & ->).
  cbn [names List.map fst]. fold (names (get_dummies units "unit")).
  rewrite names_dummies.
  assert (Hs : StronglySorted label_lt
                 ("pack_size" :: "total_measure"
                    :: List.map (String.append "unit_") (levels units))).
  { constructor; [constructor|].
    - apply unit_labels_sorted, levels_sorted.
    - apply Forall_forall. intros y Hy. apply in_map_iff in Hy.
      now destruct Hy as (z & <- & _).
    - constructor; [reflexivity|].
      apply Forall_forall. intros y Hy. apply in_map_iff in Hy.
      now destruct Hy as (z & <- & _). }
  split; [exact Hs|]. split; [now apply sorted_NoDup|].
  exists text, packs, values, units. split; [exact Ht|]. split; [exact Hx|].
  intros label. cbn [In]. rewrite in_map_iff. split.
  - intros [<- | [<- | (t & <- & Hin)]]; [now left | right; now left |].
    right. right. exists t. split; [reflexivity | now apply levels_In].
  - intros [-> | [-> | (t & -> & Hin)]]; [now left | right; now left |].
    right. right. exists t. split; [reflexivity | now apply levels_In].
Qed.

(** ** One indicator per row *)

Lemma units_are_text (text packs values units : series) (c : cell) :
  extract_features repr text = Ok (packs, values, units) ->
  In c units -> exists token, c = Str token.
Proof.
  unfold extract_features. intros H.
  destruct (astype_float _) as [ps|] in H; [|discriminate]. cbn [bind] in H.
  destruct (astype_float _) as [vs|] in H; [|discriminate]. cbn [bind] in H.
  injection H as _ _ <-.
  unfold str_lower, str_strip, fillna, str_extract, astype_str.
  rewrite !map_map. intros Hc.
  apply in_map_iff in Hc. destruct Hc as (c0 & <- & _).
  destruct (Re.extract unit_regex (str_of_cell repr c0)); eauto.
Qed.

Lemma filter_eqb_absent (t : string) (l : list string) :
  ~ In t l -> filter (String.eqb t) l = [].
Proof.
  induction l as [|x l IH]; simpl; [reflexivity|]. intros H.
  destruct (String.eqb_spec t x) as [-> | _]; [exfalso; apply H; now left|].
  apply IH. intros Hin. apply H. now right.
Qed.

Lemma filter_eqb_one (t : string) (l : list string) :
  NoDup l -> In t l -> filter (String.eqb t) l = [t].
Proof.
  induction 1 as [|x l Hx Hl IH]; simpl; [contradiction|].
  intros [-> | Hin].
  - rewrite String.eqb_refl. f_equal. now apply filter_eqb_absent.
  - destruct (String.eqb_spec t x) as [-> | _]; [contradiction|]. now apply IH.
Qed.

Lemma filter_swap {A} (p q : A -> bool) (l : list A) :
  filter p (filter q l) = filter q (filter p l).
Proof.
  induction l as [|a l IH]; simpl; [reflexivity|].
  destruct (q a) eqn:Eq, (p a) eqn:Ep; simpl; rewrite ?Eq, ?Ep, IH; reflexivity.
Qed.

Lemma lookup_dummies_In (lv : string) (units : series) :
  In lv (levels units) ->
  lookup ("unit_" ++ lv) (get_dummies units "unit")
  = Some (List.map (fun c => Bool (cell_eqb c (Str lv))) units).
Proof.
  intros H.
  assert (Hn : In ("unit_" ++ lv)%string (names (get_dummies units "unit"))).
  { rewrite names_dummies. apply in_map_iff. now exists lv. }
  apply In_names_lookup in Hn. destruct Hn as (col & Hcol). rewrite Hcol.
  apply lookup_dummies in Hcol. destruct Hcol as (lv' & E & ->).
  injection E as <-. reflexivity.
Qed.

Lemma fillna_numbers_not_true (value : cell) (s : series) (i : nat) :
  (forall c, In c s -> exists q, c = Num q) ->
  nth_error (fillna value s) i <> Some (Bool true).
Proof.
  intros Hs E. apply nth_error_In in E. unfold fillna in E.
  apply in_map_iff in E. destruct E as (c & Ec & Hin).
  destruct (Hs c Hin) as (q & ->). discriminate.
Qed.

(** The indicators that are true in a row of an encoded table whose
    columns were selected by label. *)
Lemma true_at_reindex_encoded (i : nat) (ps tm units : series) (l : list string)
    (token : string) (fill_value : cell) :
  nth_error ps i <> Some (Bool true) ->
  nth_error tm i <> Some (Bool true) ->
  nth_error units i = Some (Str token) ->
  (forall lv, In lv l -> In lv (levels units)) ->
  true_at i (reindex ("pack_size" :: "total_measure" :: List.map (String.append "unit_") l)
                     fill_value
                     (("pack_size", ps) :: ("total_measure", tm)
                        :: get_dummies units "unit"))
  = List.map (String.append "unit_") (filter (String.eqb token) l).
Proof.
  intros Hps Htm Hu Hl. unfold true_at, reindex.
  rewrite filter_map_swap. unfold names. rewrite map_map. cbn [fst]. rewrite map_id.
  set (table := ("pack_size", ps) :: ("total_measure", tm) :: get_dummies units "unit").
  cbn [filter].
  change (lookup "pack_size" table) with (Some ps).
  change (lookup "total_measure" table) with (Some tm). cbn [snd].
  assert (E1 : match nth_error ps i with Some (Bool true) => true | _ => false end = false).
  { destruct (nth_error ps i) as [[| | |[]]|]; try reflexivity. now elim Hps. }
  assert (E2 : match nth_error tm i with Some (Bool true) => true | _ => false end = false).
  { destruct (nth_error tm i) as [[| | |[]]|]; try reflexivity. now elim Htm. }
  rewrite E1, E2. rewrite filter_map_swap. f_equal.
  apply filter_ext_in. intros lv Hlv.
  change (lookup ("unit_" ++ lv) table)
    with (lookup ("unit_" ++ lv) (get_dummies units "unit")).
  rewrite (lookup_dummies_In lv units (Hl lv Hlv)). cbn [snd].
  erewrite map_nth_error by exact Hu. cbn [cell_eqb].
  now destruct (token =? lv)%string.
Qed.

Lemma true_at_encoded (i : nat) (ps tm units : series) (token : string) :
  nth_error ps i <> Some (Bool true) ->
  nth_error tm i <> Some (Bool true) ->
  nth_error units i = Some (Str token) ->
  true_at i (("pack_size", ps) :: ("total_measure", tm) :: get_dummies units "unit")
  = ["unit_" ++ token]%string.
Proof.
  intros Hps Htm Hu. unfold true_at. cbn [filter snd].
  assert (E1 : match nth_error ps i with Some (Bool true) => true | _ => false end = false).
  { destruct (nth_error ps i) as [[| | |[]]|]; try reflexivity. now elim Hps. }
  assert (E2 : match nth_error tm i with Some (Bool true) => true | _ => false end = false).
  { destruct (nth_error tm i) as [[| | |[]]|]; try reflexivity. now elim Htm. }
  rewrite E1, E2. unfold get_dummies. rewrite filter_map_swap. cbn [snd].
  rewrite (filter_ext _ (String.eqb token)).
  - rewrite filter_eqb_one.
    + reflexivity.
    + apply sorted_NoDup, levels_sorted.
    + apply levels_In. eapply nth_error_In. exact Hu.
  - intros lv. erewrite map_nth_error by exact Hu. cbn [cell_eqb].
    now destruct (token =? lv)%string.
Qed.

(** A row of the extracted columns, with what the extraction gives for
    its text alone. *)
Lemma extracted_row (text packs values units : series) (mm mp : cell)
    (i : nat) (c : cell) :
  extract_features repr text = Ok (packs, values, units) ->
  nth_error text i = Some c ->
  exists pack value token,
    extract_features repr [c] = Ok ([pack], [value], [Str token])
    /\ nth_error (fillna mp packs) i <> Some (Bool true)
    /\ nth_error (fillna mm values) i <> Some (Bool true)
    /\ nth_error units i = Some (Str token).
Proof.
  intros Hx Hc.
  pose proof (extracted_columns_shape_aux _ _ _ _ Hx) as (_ & _ & Fp & Fv).
  pose proof (extract_features_rows _ _ _ _ Hx) as (_ & _ & _ & Hrow).
  destruct (Hrow i c Hc) as (pack & value & unit & H1 & _ & _ & Hu & _).
  destruct (units_are_text _ _ _ _ unit Hx (nth_error_In _ _ Hu)) as (token & ->).
  exists pack, value, token.
  split; [exact H1|].
  rewrite Forall_forall in Fp, Fv.
  split; [|split; [|exact Hu]].
  - apply fillna_numbers_not_true. intros x Hin.
    destruct (Fp x Hin) as (z & _ & ->). eauto.
  - apply fillna_numbers_not_true. intros x Hin.
    destruct (Fv x Hin) as (q & _ & ->). eauto.
Qed.

(** X7: in the table [create_feature_df] returns, every row has exactly
    one cell that is [True]: the indicator of the unit token that
    [extract_features] gives for the row's text. *)
Theorem one_indicator_per_row
    (df out : frame) (given_m given_p : option cell) (mm mp : cell)
    (text : series) (i : nat) (c : cell) :
  create_feature_df repr df given_m given_p = Ok (out, mm, mp) ->
  lookup "catalog_content" df = Some text ->
  nth_error text i = Some c ->
  exists pack value token,
    extract_features repr [c] = Ok ([pack], [value], [Str token])
    /\ true_at i out = ["unit_" ++ token]%string.
Proof.
  intros H Ht Hc. apply create_feature_df_Ok in H.
  destruct H as (text' & packs & values & units & Ht' & Hx & _ & _ & ->).
  rewrite Ht in Ht'. injection Ht' as <-.
  destruct (extracted_row _ _ _ _ mm mp _ _ Hx Hc)
    as (pack & value & token & Hr & Hps & Htm & Hu).
  exists pack, value, token. split; [exact Hr|].
  now apply true_at_encoded.
Qed.

(** X12: after [align(join='inner', axis=1, fill_value=0)] a row keeps
    its indicator exactly when the other table has a column for the row's
    unit token; otherwise no cell of the row is [True].  Both sides. *)
Theorem aligned_rows_keep_shared_indicator
    (train_df test_df f1 f2 : frame) (a b c d : option cell) (m1 p1 m2 p2 : cell) :
  create_feature_df repr train_df a b = Ok (f1, m1, p1) ->
  create_feature_df repr test_df c d = Ok (f2, m2, p2) ->
  (forall text i x,
     lookup "catalog_content" train_df = Some text ->
     nth_error text i = Some x ->
     exists pack value token,
       extract_features repr [x] = Ok ([pack], [value], [Str token])
       /\ true_at i (fst (align_inner f1 f2 (Num 0)))
          = if existsb (String.eqb ("unit_" ++ token)) (names f2)
            then ["unit_" ++ token]%string else [])
  /\ (forall text i x,
        lookup "catalog_content" test_df = Some text ->
        nth_error text i = Some x ->
        exists pack value token,
          extract_features repr [x] = Ok ([pack], [value], [Str token])
          /\ true_at i (snd (align_inner f1 f2 (Num 0)))
             = if existsb (String.eqb ("unit_" ++ token)) (names f1)
               then ["unit_" ++ token]%string else []).
Proof.
  intros H1 H2.
  pose proof (create_feature_df_Ok _ _ _ _ _ _ H1)
    as (t1 & k1 & v1 & u1 & Ht1 & Hx1 & _ & _ & E1).
  pose proof (create_feature_df_Ok _ _ _ _ _ _ H2)
    as (t2 & k2 & v2 & u2 & Ht2 & Hx2 & _ & _ & E2).
  assert (N1 : names f1 = "pack_size" :: "total_measure"
                            :: List.map (String.append "unit_") (levels u1)).
  { rewrite E1. cbn [names List.map fst]. fold (names (get_dummies u1 "unit")).
    now rewrite names_dummies. }
  assert (N2 : names f2 = "pack_size" :: "total_measure"
                            :: List.map (String.append "unit_") (levels u2)).
  { rewrite E2. cbn [names List.map fst]. fold (names (get_dummies u2 "unit")).
    now rewrite names_dummies. }
  unfold align_inner. cbn [fst snd]. rewrite N1, N2, inner_join_encoded.
  assert (Hex : forall token l,
            existsb (String.eqb ("unit_" ++ token))
                    ("pack_size" :: "total_measure" :: List.map (String.append "unit_") l)
            = existsb (String.eqb token) l).
  { intros token l. rewrite <- (existsb_map_unit token l). reflexivity. }
  split; intros text i x Ht Hx.
  - rewrite Ht1 in Ht. injection Ht as <-.
    destruct (extracted_row _ _ _ _ m1 p1 _ _ Hx1 Hx)
      as (pack & value & token & Hr & Hps & Htm & Hu).
    exists pack, value, token. split; [exact Hr|].
    rewrite E1. rewrite true_at_reindex_encoded with (token := token); trivial.
    + rewrite filter_swap, filter_eqb_one.
      * rewrite Hex. cbn [filter].
        now destruct (existsb (String.eqb token) (levels u2)).
      * apply sorted_NoDup, levels_sorted.
      * apply levels_In. eapply nth_error_In. exact Hu.
    + intros lv Hlv. apply filter_In in Hlv. tauto.
  - rewrite Ht2 in Ht. injection Ht as <-.
    destruct (extracted_row _ _ _ _ m2 p2 _ _ Hx2 Hx)
      as (pack & value & token & Hr & Hps & Htm & Hu).
    exists pack, value, token. split; [exact Hr|].
    rewrite E2. rewrite true_at_reindex_encoded with (token := token); trivial.
    + rewrite Hex.
      destruct (existsb (String.eqb token) (levels u1)) eqn:Ein.
      * rewrite filter_swap, filter_eqb_one.
        -- cbn [filter].
           assert (Hin : existsb (String.eqb token) (levels u2) = true).
           { apply existsb_eqb_In, levels_In. eapply nth_error_In. exact Hu. }
           now rewrite Hin.
        -- apply sorted_NoDup, levels_sorted.
        -- now apply existsb_eqb_In.
      * rewrite filter_swap, filter_eqb_absent; [reflexivity|].
        intros Hin. apply existsb_eqb_In in Hin. congruence.
    + intros lv Hlv. apply filter_In in Hlv. destruct Hlv as (_ & Hlv).
      now apply existsb_eqb_In in Hlv.
Qed.

(** ** What a run prints *)

Lemma print_then {B} (line : string) (k : script B) (b : B) (t : list event) :
  and_then (print line) (fun _ => k) = (Return b, t) ->
  exists t', k = (Return b, t') /\ t = Print line :: t'.
Proof.
  unfold print, and_then. destruct k as [o t']. intros [= -> <-]. now exists t'.
Qed.

Lemma lift_then {A B} (r : result A) (f : A -> script B) (b : B) (t : list event) :
  and_then (lift r) f = (Return b, t) ->
  exists a, r = Ok a /\ f a = (Return b, t).
Proof.
  destruct r as [a|e]; simpl; [|discriminate].
  destruct (f a) as [o t'] eqn:E. intros [= -> <-]. now exists a.
Qed.

Lemma fillna_length (value : cell) (s : series) :
  List.length (fillna value s) = List.length s.
Proof. unfold fillna. apply length_map. Qed.

(** X20: a run of [prepare] that returns has printed eight lines, and
    the two shape lines report, for each table, the number of its rows
    and the same number of feature columns: two plus the number of
    distinct unit tokens that occur in both tables. *)
Theorem prepare_prints_shapes
    (train_df test_df train_final test_final : frame) (trace : list event) :
  prepare repr log1p train_df test_df = (Return (train_final, test_final), trace) ->
  exists text1 text2 p1 v1 u1 p2 v2 u2 shared,
    lookup "catalog_content" train_df = Some text1
    /\ lookup "catalog_content" test_df = Some text2
    /\ extract_features repr text1 = Ok (p1, v1, u1)
    /\ extract_features repr text2 = Ok (p2, v2, u2)
    /\ NoDup shared
    /\ (forall token, In token shared <-> In (Str token) u1 /\ In (Str token) u2)
    /\ trace
       = [Print (nl ++ "Starting feature extraction from 'catalog_content'...");
          Print (nl ++ "Processing training data...");
          Print "Processing test features...";
          Print "Aligning train/test feature columns...";
          Print "Feature extraction complete.";
          Print ("Shape of extracted train features: ("
                 ++ str_of_nat (List.length text1) ++ ", "
                 ++ str_of_nat (2 + List.length shared) ++ ")");
          Print ("Shape of extracted test features: ("
                 ++ str_of_nat (List.length text2) ++ ", "
                 ++ str_of_nat (2 + List.length shared) ++ ")");
          Print (nl ++ "Saving processed data to 'data/processed'...")].
Proof.
  unfold prepare, prepare_with.
  change (create_feature_df_with (extract_features repr)) with (create_feature_df repr). intros H.
  apply print_then in H. destruct H as (t & H & ->).
  apply print_then in H. destruct H as (t0 & H & ->).
  apply lift_then in H. destruct H as ([[f1 mm] mp] & H1 & H).
  apply print_then in H. destruct H as (t1 & H & ->).
  apply lift_then in H. destruct H as ([[f2 mm'] mp'] & H2 & H).
  apply print_then in H. destruct H as (t2 & H & ->).
  destruct (align_inner f1 f2 (Num 0)) as [train_cols test_cols] eqn:Ha.
  apply print_then in H. destruct H as (t3 & H & ->).
  apply print_then in H. destruct H as (t4 & H & ->).
  apply print_then in H. destruct H as (t5 & H & ->).
  apply print_then in H. destruct H as (t6 & H & ->).
  apply lift_then in H. destruct H as (train_df' & _ & H).
  apply lift_then in H. destruct H as (test_df' & _ & H).
  apply lift_then in H. destruct H as (price & _ & H).
  apply lift_then in H. destruct H as (log_price & _ & H).
  injection H as _ _ <-.
  apply create_feature_df_Ok in H1, H2.
  destruct H1 as (text1 & p1 & v1 & u1 & Ht1 & Hx1 & _ & _ & E1).
  destruct H2 as (text2 & p2 & v2 & u2 & Ht2 & Hx2 & _ & _ & E2).
  exists text1, text2, p1, v1, u1, p2, v2, u2,
    (filter (fun lv => existsb (String.eqb lv) (levels u2)) (levels u1)).
  split; [exact Ht1|]. split; [exact Ht2|]. split; [exact Hx1|]. split; [exact Hx2|].
  split; [apply NoDup_filter, sorted_NoDup, levels_sorted|].
  split.
  { intros token. rewrite filter_In, existsb_eqb_In, !levels_In. reflexivity. }
  assert (N1 : names f1 = "pack_size" :: "total_measure"
                            :: List.map (String.append "unit_") (levels u1)).
  { rewrite E1. cbn [names List.map fst]. fold (names (get_dummies u1 "unit")).
    now rewrite names_dummies. }
  assert (N2 : names f2 = "pack_size" :: "total_measure"
                            :: List.map (String.append "unit_") (levels u2)).
  { rewrite E2. cbn [names List.map fst]. fold (names (get_dummies u2 "unit")).
    now rewrite names_dummies. }
  unfold align_inner in Ha. rewrite N1, N2, inner_join_encoded in Ha.
  injection Ha as <- <-.
  pose proof (extract_features_rows _ _ _ _ Hx1) as (L1 & _).
  pose proof (extract_features_rows _ _ _ _ Hx2) as (L2 & _).
  unfold str_of_shape, reindex. cbn [List.map len List.length].
  rewrite !length_map.
  rewrite E1, E2. cbn [lookup String.eqb Ascii.eqb Bool.eqb].
  rewrite !fillna_length, L1, L2. reflexivity.
Qed.

(** X11: fitting and applying on one table ([impute] with no statistics
    given, on float columns) returns the medians of the two columns and
    a table in which a column that has at least one number has nothing
    but numbers; the labels stay as they are and every other column is
    untouched. *)
Theorem impute_fills_all (features_df : frame) (tm ps : series) :
  lookup "total_measure" features_df = Some tm ->
  lookup "pack_size" features_df = Some ps ->
  forallb is_float_cell tm = true ->
  forallb is_float_cell ps = true ->
  exists out out_tm out_ps,
    impute features_df None None = Ok (out, median tm, median ps)
    /\ lookup "total_measure" out = Some out_tm
    /\ lookup "pack_size" out = Some out_ps
    /\ ((exists q, In (Num q) tm) -> Forall (fun c => exists q, c = Num q) out_tm)
    /\ ((exists q, In (Num q) ps) -> Forall (fun c => exists q, c = Num q) out_ps)
    /\ names out = names features_df
    /\ forall label, label <> "total_measure" -> label <> "pack_size" ->
         lookup label out = lookup label features_df.
Proof.
  intros Htm Hps Ftm Fps.
  assert (Hfill : forall s, forallb is_float_cell s = true ->
            (exists q, In (Num q) s) ->
            Forall (fun c => exists q, c = Num q) (fillna (median s) s)).
  { intros s Fs (q & Hq).
    assert (Hn : numbers s <> []).
    { intros E. apply numbers_In in Hq. rewrite E in Hq. contradiction. }
    destruct (median_defined s Hn) as (m & ->).
    rewrite forallb_forall in Fs. apply Forall_forall. intros c Hc.
    unfold fillna in Hc. apply in_map_iff in Hc. destruct Hc as (c0 & <- & Hc0).
    specialize (Fs c0 Hc0). destruct c0; try discriminate; eauto. }
  exists (setitem "pack_size" (fillna (median ps) ps)
            (setitem "total_measure" (fillna (median tm) tm) features_df)),
    (fillna (median tm) tm), (fillna (median ps) ps).
  split.
  { unfold impute, getitem. rewrite Htm, Hps. cbn [bind].
    rewrite lookup_setitem_other by discriminate. rewrite Hps. reflexivity. }
  split; [rewrite lookup_setitem_other by discriminate; apply lookup_setitem_same|].
  split; [apply lookup_setitem_same|].
  split; [now apply Hfill|]. split; [now apply Hfill|].
  split.
  - rewrite !names_setitem_present; [reflexivity | |].
    + apply has_column_lookup. congruence.
    + apply has_column_lookup. rewrite lookup_setitem_other by discriminate. congruence.
  - intros label H1 H2. now rewrite !lookup_setitem_other.
Qed.

(** X13: for a train table whose price column holds no boolean,
    [prepare] returns the two final tables exactly when both inputs have
    the text column and the image column, every value the pattern
    captures in either is the text of a number, and train has a price
    column of numbers and missing cells only. *)
Theorem prepare_returns_exactly_when (train_df test_df : frame) :
  column_without_bool "price" train_df = true ->
  ((exists train_final test_final trace,
       prepare repr log1p train_df test_df = (Return (train_final, test_final), trace))
   <-> (exists text1 text2 price,
           lookup "catalog_content" train_df = Some text1
           /\ lookup "catalog_content" test_df = Some text2
           /\ forallb (fun c => value_parses (str_of_cell repr c)) text1 = true
           /\ forallb (fun c => value_parses (str_of_cell repr c)) text2 = true
           /\ has_column "image_link" train_df = true
           /\ has_column "image_link" test_df = true
           /\ lookup "price" train_df = Some price
           /\ forallb is_float_cell price = true)).
Proof.
  unfold column_without_bool. intros Hb. rewrite prepare_returns_iff.
  split; intros (text1 & text2 & price & H1 & H2 & H3 & H4 & H5 & H6 & Hp & Hs);
    exists text1, text2, price; repeat (split; [assumption|]);
    rewrite Hp in Hb; rewrite forallb_forall in *; intros c Hc;
    specialize (Hb c Hc); specialize (Hs c Hc); now destruct c.
Qed.

(** ** Which statistics fill the test table *)



(** ** A table without rows *)



End Proofs.

(* ================================================================== *)
(** * The properties on the example tables *)

(** ** Loading: a short train file *)

Lemma short_train_aborts_witness :
  disk_ex short_train_ex TRAIN_FILE_PATH = Ok short_train_ex
  /\ disk_ex short_train_ex TEST_FILE_PATH = Ok small_test_ex
  /\ (N.of_nat (len short_train_ex) < 75000)%N
  /\ main no_repr no_log1p (disk_ex short_train_ex)
     = (SystemExit,
        [Print "Loading raw data from {RAW_DATA_FOLDER}...";
         Print "CSV field size limit set.";
         Print "Successfully loaded train.csv. Total rows: 2";
         Print "Successfully loaded test.csv. Total rows: 1";
         Print (nl ++ nl ++ "*** CRITICAL WARNING ***");
         Print "Your train.csv file only has 2 rows.";
         Print "It is incomplete. You MUST re-download the full 75,000-row file.";
         Print "Stopping script."]).
Proof.
  split; [reflexivity|]. split; [reflexivity|]. split; [reflexivity|].
  exact (proj1 (short_train_aborts no_repr no_log1p (disk_ex short_train_ex)
                  short_train_ex small_test_ex eq_refl eq_refl eq_refl)).
Defined.

(** ** Extraction *)

Lemma defaults_without_markers_witness :
  Re.search pack_regex "Organic green tea, 20 bags" = None
  /\ Re.search value_regex "Organic green tea, 20 bags" = None
  /\ Re.search unit_regex "Organic green tea, 20 bags" = None
  /\ extract_features no_repr [Str "Organic green tea, 20 bags"]
     = Ok ([Num 1], [Num 0], [Str "unknown"]).
Proof.
  split; [reflexivity|]. split; [reflexivity|]. split; [reflexivity|].
  exact (defaults_without_markers no_repr "Organic green tea, 20 bags"
           eq_refl eq_refl eq_refl).
Defined.

Lemma unit_token_form_witness :
  extract_features no_repr [Str "Pack of 6; Value: 11.25; Unit: Oz"]
  = Ok ([Num 6], [Num (45 # 4)], [Str "oz"])
  /\ Re.search unit_regex "Pack of 6; Value: 11.25; Unit: Oz" = Some (Some "Oz", "")
  /\ exists pre key ws cap,
       "Pack of 6; Value: 11.25; Unit: Oz" = (pre ++ key ++ ws ++ cap ++ "")%string
       /\ Str.lower key = "unit:"
       /\ Str.all Chars.is_space ws = true
       /\ cap <> ""
       /\ Str.all (fun c => Chars.is_word c || Chars.is_space c) cap = true
       /\ [Str "oz"] = [Str (Str.lower (Str.strip cap))].
Proof.
  split; [reflexivity|]. split; [reflexivity|].
  exact (unit_token_form no_repr "Pack of 6; Value: 11.25; Unit: Oz"
           [Num 6] [Num (45 # 4)] [Str "oz"] eq_refl).
Defined.

(** The unit token can hold a digit and an underscore: the capture of the
    unit pattern is not made of letters and spaces only. *)
Lemma unit_token_not_only_letters :
  ~ (forall text packs values units,
       extract_features no_repr [Str text] = Ok (packs, values, units) ->
       Re.search unit_regex text <> None ->
       exists token, units = [Str token]
                     /\ Str.all is_letter_or_space token = true).
Proof.
  intros only_letters.
  destruct (only_letters "unit: fl_oz2" [Num 1] [Num 0] [Str "fl_oz2"] eq_refl
              ltac:(discriminate)) as (token & E & Hall).
  injection E as <-. discriminate Hall.
Qed.

(** ** Alignment: train has the units oz and lb, test has oz and ml *)

Lemma align_keeps_common_columns_witness :
  create_feature_df no_repr train_units_ex None None
  = Ok (train_encoded_ex, Num 9, Num 1)
  /\ create_feature_df no_repr test_units_ex (Some (Num 9)) (Some (Num 1))
     = Ok (test_encoded_ex, Num 9, Num 1)
  /\ align_inner train_encoded_ex test_encoded_ex (Num 0)
     = ([("pack_size", [Num 1; Num 1]);
         ("total_measure", [Num 16; Num 2]);
         ("unit_oz", [Bool true; Bool false])],
        [("pack_size", [Num 1; Num 1]);
         ("total_measure", [Num 8; Num 500]);
         ("unit_oz", [Bool true; Bool false])])
  /\ names (fst (align_inner train_encoded_ex test_encoded_ex (Num 0)))
     = names (snd (align_inner train_encoded_ex test_encoded_ex (Num 0)))
  /\ forall n,
       In n (names (fst (align_inner train_encoded_ex test_encoded_ex (Num 0))))
       <-> In n (names train_encoded_ex) /\ In n (names test_encoded_ex).
Proof.
  split; [reflexivity|]. split; [reflexivity|]. split; [reflexivity|].
  destruct (align_keeps_common_columns no_repr
              train_units_ex test_units_ex train_encoded_ex test_encoded_ex
              None None (Some (Num 9)) (Some (Num 1))
              (Num 9) (Num 1) (Num 9) (Num 1) eq_refl eq_refl)
    as (Hsame & Hcommon & _).
  split; [exact Hsame | exact Hcommon].
Defined.

(** ** The final tables *)

Lemma rows_preserved_witness :
  prepare no_repr no_log1p train_ex test_ex
  = (Return (train_final_ex, test_final_ex), trace_ex)
  /\ has_rows (len train_ex) train_ex = true
  /\ has_rows (len test_ex) test_ex = true
  /\ has_rows (len train_ex) train_final_ex = true
  /\ has_rows (len test_ex) test_final_ex = true
  /\ len train_final_ex = 3
  /\ len test_final_ex = 2.
Proof.
  split; [reflexivity|]. split; [reflexivity|]. split; [reflexivity|].
  destruct (rows_preserved no_repr no_log1p train_ex test_ex
              train_final_ex test_final_ex trace_ex eq_refl eq_refl eq_refl)
    as (R1 & R2 & L1 & L2 & _).
  repeat split; assumption.
Defined.

(** ** More on extraction *)

Lemma extracted_columns_shape_witness :
  extract_features no_repr text_ex = Ok (packs_ex, values_ex, units_ex)
  /\ forallb (fun c => short_captures 15 (str_of_cell no_repr c)) text_ex = true
  /\ List.length packs_ex = List.length text_ex
  /\ List.length values_ex = List.length text_ex
  /\ List.length units_ex = List.length text_ex
  /\ Forall (fun c => exists z, (0 <= z < 10 ^ 15)%Z /\ c = Num (inject_Z z)) packs_ex
  /\ Forall (fun c => exists q, (0 <= q)%Q /\ (q < inject_Z (10 ^ 15))%Q /\ c = Num q)
            values_ex.
Proof.
  split; [reflexivity|]. split; [reflexivity|].
  exact (extracted_columns_shape no_repr text_ex packs_ex values_ex units_ex
           eq_refl eq_refl).
Defined.

Lemma unit_tokens_normalised_witness :
  extract_features no_repr text_ex = Ok (packs_ex, values_ex, units_ex)
  /\ Forall (fun c => exists token,
               c = Str token
               /\ Str.strip token = token
               /\ Str.lower token = token) units_ex.
Proof.
  split; [reflexivity|].
  exact (unit_tokens_normalised no_repr text_ex packs_ex values_ex units_ex eq_refl).
Defined.

Lemma keyword_free_defaults_witness :
  occurs_ci "pack" "Organic green tea, 20 bags" = false
  /\ occurs_ci "count" "Organic green tea, 20 bags" = false
  /\ occurs_ci "per case" "Organic green tea, 20 bags" = false
  /\ occurs_ci "value:" "Organic green tea, 20 bags" = false
  /\ occurs_ci "unit:" "Organic green tea, 20 bags" = false
  /\ extract_features no_repr [Str "Organic green tea, 20 bags"]
     = Ok ([Num 1], [Num 0], [Str "unknown"]).
Proof.
  repeat (split; [reflexivity|]).
  exact (keyword_free_defaults no_repr "Organic green tea, 20 bags"
           eq_refl eq_refl eq_refl eq_refl eq_refl).
Defined.

(** ** The three patterns: the first of two places, and the longest run *)

Lemma value_capture_leftmost_longest_witness :
  Re.search value_regex "value: kg, Value: 1.5.2kg value: 7"
  = Some (Some "1.5.2", "kg value: 7")
  /\ exists pre key ws cap,
       "value: kg, Value: 1.5.2kg value: 7"
       = (pre ++ key ++ ws ++ cap ++ "kg value: 7")%string
       /\ Str.lower key = "value:"
       /\ Str.all Chars.is_space ws = true
       /\ cap <> ""
       /\ Str.all is_digit_or_dot cap = true
       /\ Some "1.5.2" = Some cap
       /\ starts_in is_digit_or_dot "kg value: 7" = false
       /\ forall a b, pre = (a ++ b)%string -> b <> "" ->
            Re.match_at value_regex (b ++ key ++ ws ++ cap ++ "kg value: 7") = None.
Proof.
  split; [reflexivity|].
  exact (value_capture_leftmost_longest "value: kg, Value: 1.5.2kg value: 7"
           (Some "1.5.2") "kg value: 7" eq_refl).
Defined.

Lemma unit_capture_leftmost_longest_witness :
  Re.search unit_regex "unit:, Unit: Fl Oz (2)" = Some (Some "Fl Oz ", "(2)")
  /\ exists pre key ws cap,
       "unit:, Unit: Fl Oz (2)" = (pre ++ key ++ ws ++ cap ++ "(2)")%string
       /\ Str.lower key = "unit:"
       /\ Str.all Chars.is_space ws = true
       /\ cap <> ""
       /\ Str.all is_word_or_space cap = true
       /\ Some "Fl Oz " = Some cap
       /\ starts_in is_word_or_space "(2)" = false
       /\ forall a b, pre = (a ++ b)%string -> b <> "" ->
            Re.match_at unit_regex (b ++ key ++ ws ++ cap ++ "(2)") = None.
Proof.
  split; [reflexivity|].
  exact (unit_capture_leftmost_longest "unit:, Unit: Fl Oz (2)"
           (Some "Fl Oz ") "(2)" eq_refl).
Defined.

Lemma pack_capture_form_witness :
  Re.search pack_regex "Snack pack, Pack of (12) bars" = Some (Some "12", " bars")
  /\ exists pre key ws open cap close,
       "Snack pack, Pack of (12) bars"
       = (pre ++ key ++ ws ++ open ++ cap ++ close ++ " bars")%string
       /\ (Str.lower key = "pack of" \/ Str.lower key = "count"
           \/ Str.lower key = "per case" \/ Str.lower key = "pack")
       /\ Str.all Chars.is_space ws = true
       /\ (open = "" \/ open = "(")
       /\ cap <> ""
       /\ Str.all Chars.is_digit cap = true
       /\ (close = "" \/ close = ")")
       /\ Some "12" = Some cap
       /\ starts_in Chars.is_digit (close ++ " bars") = false
       /\ forall a b, pre = (a ++ b)%string -> b <> "" ->
            Re.match_at pack_regex
              (b ++ key ++ ws ++ open ++ cap ++ close ++ " bars") = None.
Proof.
  split; [reflexivity|].
  exact (pack_capture_form "Snack pack, Pack of (12) bars" (Some "12") " bars" eq_refl).
Defined.

(** ** More on the feature table *)

Lemma imputation_changes_nothing_witness :
  create_feature_df no_repr train_units_ex None None
  = Ok (train_encoded_ex, Num 9, Num 1)
  /\ encode_features no_repr train_units_ex = Ok train_encoded_ex
  /\ forall other_m other_p,
       exists mm' mp',
         create_feature_df no_repr train_units_ex other_m other_p
         = Ok (train_encoded_ex, mm', mp').
Proof.
  split; [reflexivity|].
  exact (imputation_changes_nothing no_repr train_units_ex train_encoded_ex
           None None (Num 9) (Num 1) eq_refl).
Defined.

Lemma medians_defined_with_rows_witness :
  create_feature_df no_repr train_units_ex None None
  = Ok (train_encoded_ex, Num 9, Num 1)
  /\ lookup "catalog_content" train_units_ex
     = Some [Str "Value: 16 Unit: oz"; Str "Value: 2 Unit: lb"]
  /\ exists qm qp, Num 9 = Num qm /\ Num 1 = Num qp /\ (0 <= qm)%Q /\ (0 <= qp)%Q.
Proof.
  split; [reflexivity|]. split; [reflexivity|].
  apply (medians_defined_with_rows no_repr train_units_ex train_encoded_ex
           (Num 9) (Num 1) [Str "Value: 16 Unit: oz"; Str "Value: 2 Unit: lb"]
           eq_refl eq_refl).
  discriminate.
Defined.

Lemma impute_fills_all_witness :
  lookup "total_measure" test_features_ex = Some [NaN; Num 5; Num 7]
  /\ lookup "pack_size" test_features_ex = Some [Num 1; NaN; Num 1]
  /\ forallb is_float_cell [NaN; Num 5; Num 7] = true
  /\ forallb is_float_cell [Num 1; NaN; Num 1] = true
  /\ impute test_features_ex None None
     = Ok ([("pack_size", [Num 1; Num 1; Num 1]);
            ("total_measure", [Num 6; Num 5; Num 7])], Num 6, Num 1)
  /\ exists out out_tm out_ps,
       impute test_features_ex None None
       = Ok (out, median [NaN; Num 5; Num 7], median [Num 1; NaN; Num 1])
       /\ lookup "total_measure" out = Some out_tm
       /\ lookup "pack_size" out = Some out_ps
       /\ ((exists q, In (Num q) [NaN; Num 5; Num 7])
           -> Forall (fun c => exists q, c = Num q) out_tm)
       /\ ((exists q, In (Num q) [Num 1; NaN; Num 1])
           -> Forall (fun c => exists q, c = Num q) out_ps)
       /\ names out = names test_features_ex
       /\ forall label, label <> "total_measure" -> label <> "pack_size" ->
            lookup label out = lookup label test_features_ex.
Proof.
  repeat (split; [reflexivity|]).
  exact (impute_fills_all test_features_ex [NaN; Num 5; Num 7] [Num 1; NaN; Num 1]
           eq_refl eq_refl eq_refl eq_refl).
Defined.

Lemma feature_labels_increasing_witness :
  create_feature_df no_repr train_units_ex None None
  = Ok (train_encoded_ex, Num 9, Num 1)
  /\ names train_encoded_ex = ["pack_size"; "total_measure"; "unit_lb"; "unit_oz"]
  /\ StronglySorted label_lt (names train_encoded_ex)
  /\ NoDup (names train_encoded_ex).
Proof.
  split; [reflexivity|]. split; [reflexivity|].
  destruct (feature_labels_increasing no_repr train_units_ex train_encoded_ex
              None None (Num 9) (Num 1) eq_refl) as (Hs & Hn & _).
  split; [exact Hs | exact Hn].
Defined.

Lemma one_indicator_per_row_witness :
  create_feature_df no_repr train_units_ex None None
  = Ok (train_encoded_ex, Num 9, Num 1)
  /\ lookup "catalog_content" train_units_ex
     = Some [Str "Value: 16 Unit: oz"; Str "Value: 2 Unit: lb"]
  /\ true_at 1 train_encoded_ex = ["unit_lb"]
  /\ exists pack value token,
       extract_features no_repr [Str "Value: 2 Unit: lb"]
       = Ok ([pack], [value], [Str token])
       /\ true_at 1 train_encoded_ex = ["unit_" ++ token]%string.
Proof.
  split; [reflexivity|]. split; [reflexivity|]. split; [reflexivity|].
  exact (one_indicator_per_row no_repr train_units_ex train_encoded_ex
           None None (Num 9) (Num 1)
           [Str "Value: 16 Unit: oz"; Str "Value: 2 Unit: lb"] 1
           (Str "Value: 2 Unit: lb") eq_refl eq_refl eq_refl).
Defined.

(** Row 1 of train has the unit lb, which test does not have: after the
    alignment no indicator of the row is true. *)
Lemma aligned_rows_keep_shared_indicator_witness :
  create_feature_df no_repr train_units_ex None None
  = Ok (train_encoded_ex, Num 9, Num 1)
  /\ create_feature_df no_repr test_units_ex (Some (Num 9)) (Some (Num 1))
     = Ok (test_encoded_ex, Num 9, Num 1)
  /\ true_at 1 (fst (align_inner train_encoded_ex test_encoded_ex (Num 0))) = []
  /\ true_at 0 (fst (align_inner train_encoded_ex test_encoded_ex (Num 0)))
     = ["unit_oz"]
  /\ exists pack value token,
       extract_features no_repr [Str "Value: 2 Unit: lb"]
       = Ok ([pack], [value], [Str token])
       /\ true_at 1 (fst (align_inner train_encoded_ex test_encoded_ex (Num 0)))
          = if existsb (String.eqb ("unit_" ++ token)) (names test_encoded_ex)
            then ["unit_" ++ token]%string else [].
Proof.
  split; [reflexivity|]. split; [reflexivity|]. split; [reflexivity|].
  split; [reflexivity|].
  exact (proj1 (aligned_rows_keep_shared_indicator no_repr
                  train_units_ex test_units_ex train_encoded_ex test_encoded_ex
                  None None (Some (Num 9)) (Some (Num 1))
                  (Num 9) (Num 1) (Num 9) (Num 1) eq_refl eq_refl)
               [Str "Value: 16 Unit: oz"; Str "Value: 2 Unit: lb"] 1
               (Str "Value: 2 Unit: lb") eq_refl eq_refl).
Defined.

(** ** More on loading and on the run *)

Lemma load_failure_is_caught_witness :
  broken_disk_ex TRAIN_FILE_PATH
  = Raise (ReadError "Error tokenizing data. C error: EOF inside string")
  /\ load broken_disk_ex
     = (SystemExit,
        [Print "CSV field size limit set.";
         Print (nl ++ nl ++ "*** CRITICAL ERROR LOADING CSV ***");
         Print "Error: Error tokenizing data. C error: EOF inside string";
         Print "This likely means your .csv files are corrupt or incomplete.";
         Print "Please place your full CSV files in 'data/raw' and run again."]).
Proof.
  split; [reflexivity|].
  exact (load_failure_is_caught broken_disk_ex
           (ReadError "Error tokenizing data. C error: EOF inside string")
           (or_introl eq_refl)).
Defined.

Lemma row_count_boundary_witness :
  disk_ex short_train_ex TRAIN_FILE_PATH = Ok short_train_ex
  /\ disk_ex short_train_ex TEST_FILE_PATH = Ok small_test_ex
  /\ (fst (load (disk_ex short_train_ex)) = Return (short_train_ex, small_test_ex)
      <-> (75000 <= N.of_nat (len short_train_ex))%N)
  /\ (fst (load (disk_ex short_train_ex)) = SystemExit
      <-> (N.of_nat (len short_train_ex) < 75000)%N).
Proof.
  split; [reflexivity|]. split; [reflexivity|].
  exact (row_count_boundary (disk_ex short_train_ex) short_train_ex small_test_ex
           eq_refl eq_refl).
Defined.

Lemma prepare_failure_modes_witness :
  prepare no_repr no_log1p bad_value_train_ex test_ex
  = (Uncaught (ValueError "1.2.3"),
     [Print (nl ++ "Starting feature extraction from 'catalog_content'...");
      Print (nl ++ "Processing training data...")])
  /\ Uncaught (ValueError "1.2.3") <> (SystemExit : ending (frame * frame))
  /\ forall e, (Uncaught (ValueError "1.2.3") : ending (frame * frame)) = Uncaught e ->
       e = KeyError "catalog_content"
       \/ (exists g, float_of_text g = None /\ e = ValueError g)
       \/ e = KeyError "['image_link'] not found in axis"
       \/ e = KeyError "price"
       \/ e = TypeError.
Proof.
  split; [reflexivity|].
  exact (prepare_failure_modes no_repr no_log1p bad_value_train_ex test_ex
           (Uncaught (ValueError "1.2.3"))
           [Print (nl ++ "Starting feature extraction from 'catalog_content'...");
            Print (nl ++ "Processing training data...")] eq_refl).
Defined.

Lemma log_price_on_train_only_witness :
  prepare no_repr no_log1p train_ex test_ex
  = (Return (train_final_ex, test_final_ex), trace_ex)
  /\ (exists price log_price,
         lookup "price" train_ex = Some price
         /\ lookup "log_price" train_final_ex = Some log_price
         /\ List.length log_price = List.length price
         /\ forall i c, nth_error price i = Some c ->
              exists y, log1p_cell no_log1p c = Ok y
                        /\ nth_error log_price i = Some y)
  /\ lookup "log_price" test_final_ex = lookup "log_price" test_ex.
Proof.
  split; [reflexivity|].
  exact (log_price_on_train_only no_repr no_log1p train_ex test_ex
           train_final_ex test_final_ex trace_ex eq_refl).
Defined.

Lemma prepare_prints_shapes_witness :
  prepare no_repr no_log1p train_ex test_ex
  = (Return (train_final_ex, test_final_ex), trace_ex)
  /\ exists text1 text2 p1 v1 u1 p2 v2 u2 shared,
       lookup "catalog_content" train_ex = Some text1
       /\ lookup "catalog_content" test_ex = Some text2
       /\ extract_features no_repr text1 = Ok (p1, v1, u1)
       /\ extract_features no_repr text2 = Ok (p2, v2, u2)
       /\ NoDup shared
       /\ (forall token, In token shared <-> In (Str token) u1 /\ In (Str token) u2)
       /\ trace_ex
          = [Print (nl ++ "Starting feature extraction from 'catalog_content'...");
             Print (nl ++ "Processing training data...");
             Print "Processing test features...";
             Print "Aligning train/test feature columns...";
             Print "Feature extraction complete.";
             Print ("Shape of extracted train features: ("
                    ++ str_of_nat (List.length text1) ++ ", "
                    ++ str_of_nat (2 + List.length shared) ++ ")");
             Print ("Shape of extracted test features: ("
                    ++ str_of_nat (List.length text2) ++ ", "
                    ++ str_of_nat (2 + List.length shared) ++ ")");
             Print (nl ++ "Saving processed data to 'data/processed'...")].
Proof.
  split; [reflexivity|].
  exact (prepare_prints_shapes no_repr no_log1p train_ex test_ex
           train_final_ex test_final_ex trace_ex eq_refl).
Defined.

Lemma prepare_returns_exactly_when_witness :
  column_without_bool "price" train_ex = true
  /\ ((exists train_final test_final trace,
          prepare no_repr no_log1p train_ex test_ex
          = (Return (train_final, test_final), trace))
      <-> (exists text1 text2 price,
              lookup "catalog_content" train_ex = Some text1
              /\ lookup "catalog_content" test_ex = Some text2
              /\ forallb (fun c => value_parses (str_of_cell no_repr c)) text1 = true
              /\ forallb (fun c => value_parses (str_of_cell no_repr c)) text2 = true
              /\ has_column "image_link" train_ex = true
              /\ has_column "image_link" test_ex = true
              /\ lookup "price" train_ex = Some price
              /\ forallb is_float_cell price = true)).
Proof.
  split; [reflexivity|].
  exact (prepare_returns_exactly_when no_repr no_log1p train_ex test_ex eq_refl).
Defined.

(** ** The statistics that fill the test table

    With an extractor that leaves gaps the flow shows: the median of the
    train column is 20, that of the test column is 6, and the missing test
    cell receives 20. *)


(** ** A train table without rows *)


